(** * Bedrock adapter core: request builder, response parser, stream decoder
      and usage aggregator of [langchain_aws/llms/bedrock.py].

    The Python code is embedded shallowly.  Dynamically typed values are
    an inductive type [pyval]; an exception is an [exn] carried by the
    [result] monad; a generator is the list of what it yields together
    with how it ended; an in-place update of a caller-owned object is
    explicit state passing. *)

From Stdlib Require Import String Ascii List ZArith Bool Lia Permutation.
Import ListNotations.
Open Scope string_scope.
Open Scope Z_scope.

Set Warnings "-register-all".

(** ** Python values and exceptions *)

(** What [json.loads] can return, which is also what the request side
    handles: [None], booleans, integers, strings, lists and dicts with
    string keys.  A dict is an association list in insertion order; lookup
    takes the first binding of a key.  Floating point numbers are left out. *)
Inductive pyval : Type :=
| PNone
| PBool (b : bool)
| PInt (z : Z)
| PStr (s : string)
| PList (l : list pyval)
| PDict (d : list (string * pyval)).

Definition dict : Type := list (string * pyval).

Inductive exn : Type :=
| TypeError
| KeyError
| IndexError
| AttributeError
| ValueError
| JSONDecodeError
| UnicodeDecodeError
| ValidationError.

Inductive result (A : Type) : Type :=
| Ok (a : A)
| Raise (e : exn).

Arguments Ok {A} a.
Arguments Raise {A} e.

Definition bind {A B : Type} (m : result A) (k : A -> result B) : result B :=
  match m with
  | Ok a => k a
  | Raise e => Raise e
  end.

Notation "x <- m ;; k" := (bind m (fun x => k))
  (at level 61, m at next level, right associativity).

(** ** Strings: the [str] methods the module calls *)

Module PyStr.

(** [s[i : i + k]]; a slice is clamped to the string, never an error. *)
Definition slice (i k : nat) (s : string) : string := substring i k s.

(** [sub in s] for strings. *)
Fixpoint contains (sub s : string) : bool :=
  prefix sub s ||
  match s with
  | EmptyString => false
  | String _ s' => contains sub s'
  end.

(** [s.find(sub)]: lowest index of an occurrence, [-1] when there is none. *)
Fixpoint find_from (pos : Z) (sub s : string) : Z :=
  if prefix sub s then pos
  else match s with
       | EmptyString => -1
       | String _ s' => find_from (pos + 1) sub s'
       end.

Definition find (s sub : string) : Z := find_from 0 sub s.

(** [s.count(sub)]: occurrences that do not overlap, from the left.
    [skip] characters belong to the occurrence just counted. *)
Fixpoint count_from (skip : nat) (sub s : string) : nat :=
  match s with
  | EmptyString => O
  | String _ s' =>
      match skip with
      | S k => count_from k sub s'
      | O => if prefix sub s
             then S (count_from (String.length sub - 1) sub s')
             else count_from O sub s'
      end
  end.

Definition count (s sub : string) : nat :=
  match sub with
  | EmptyString => S (String.length s)
  | _ => count_from O sub s
  end.

(** [s.replace(old, new)]: every occurrence that does not overlap an
    earlier one, from the left. *)
Fixpoint replace_from (skip : nat) (old new s : string) : string :=
  match s with
  | EmptyString => EmptyString
  | String c s' =>
      match skip with
      | S k => replace_from k old new s'
      | O => if prefix old s
             then new ++ replace_from (String.length old - 1) old new s'
             else String c (replace_from O old new s')
      end
  end.

Fixpoint intersperse (new s : string) : string :=
  match s with
  | EmptyString => new
  | String c s' => new ++ String c (intersperse new s')
  end.

Definition replace (s old new : string) : string :=
  match old with
  | EmptyString => intersperse new s
  | _ => replace_from O old new s
  end.

End PyStr.

(** ** The alternation formatter *)

Definition nl : string := String (ascii_of_nat 10) EmptyString.

Definition HUMAN_PROMPT : string := nl ++ nl ++ "Human:".
Definition ASSISTANT_PROMPT : string := nl ++ nl ++ "Assistant:".
Definition ALTERNATION_ERROR : string :=
  "Error: Prompt must alternate between '" ++ nl ++ nl ++ "Human:' and '"
  ++ nl ++ nl ++ "Assistant:'.".

(** The inner [for i in range(2)] of [_add_newlines_before_ha]. *)
Definition collapse_newlines (word text : string) : string :=
  fold_left
    (fun t (_ : nat) => PyStr.replace t (nl ++ nl ++ nl ++ word) (nl ++ nl ++ word))
    (seq 0 2) text.

Definition _add_newlines_before_ha (input_text : string) : string :=
  fold_left
    (fun new_text word =>
       collapse_newlines word (PyStr.replace new_text word (nl ++ nl ++ word)))
    ["Human:"; "Assistant:"] input_text.

(** State of the alternation scan: the counter and the warnings issued so
    far, oldest first.  [warnings.warn] is the only effect of the function. *)
Record scan_state : Type := mkScan { scan_count : nat; scan_warnings : list string }.

Definition warn (st : scan_state) (msg : string) : scan_state :=
  mkScan (scan_count st) (scan_warnings st ++ [msg]).

Definition incr (st : scan_state) : scan_state :=
  mkScan (S (scan_count st)) (scan_warnings st).

(** One iteration of the scan loop, at index [i]. *)
Definition scan_step (input_text : string) (st : scan_state) (i : nat) : scan_state :=
  let msg := ALTERNATION_ERROR ++ " Received " ++ input_text in
  let st1 :=
    if String.eqb (PyStr.slice i (String.length HUMAN_PROMPT) input_text) HUMAN_PROMPT
    then if Nat.eqb (Nat.modulo (scan_count st) 2) 0 then incr st else warn st msg
    else st in
  if String.eqb (PyStr.slice i (String.length ASSISTANT_PROMPT) input_text) ASSISTANT_PROMPT
  then if Nat.eqb (Nat.modulo (scan_count st1) 2) 1 then incr st1 else warn st1 msg
  else st1.

(** [_human_assistant_format]: the formatted prompt and the warnings issued. *)
Definition _human_assistant_format (input_text : string) : string * list string :=
  let t1 :=
    if Nat.eqb (PyStr.count input_text "Human:") 0
       || (Z.gtb (PyStr.find input_text "Human:") (PyStr.find input_text "Assistant:")
           && PyStr.contains "Assistant:" input_text)
    then HUMAN_PROMPT ++ " " ++ input_text
    else input_text in
  let t2 :=
    if Nat.eqb (PyStr.count t1 "Assistant:") 0 then t1 ++ ASSISTANT_PROMPT else t1 in
  let t3 :=
    if String.eqb (PyStr.slice 0 (String.length "Human:") t2) "Human:"
    then nl ++ nl ++ t2
    else t2 in
  let t4 := _add_newlines_before_ha t3 in
  let st := fold_left (scan_step t4) (seq 0 (String.length t4)) (mkScan 0 []) in
  let t5 :=
    if Nat.eqb (Nat.modulo (scan_count st) 2) 1 then t4 ++ ASSISTANT_PROMPT else t4 in
  (t5, scan_warnings st).

(** ** Operations on Python values *)

Fixpoint lookup (k : string) (d : dict) : option pyval :=
  match d with
  | [] => None
  | (k', v) :: d' => if String.eqb k k' then Some v else lookup k d'
  end.

Definition has_key (k : string) (d : dict) : bool :=
  match lookup k d with Some _ => true | None => false end.

(** [d[k] = v] on a dict: an existing key keeps its place, a new one goes
    last. *)
Fixpoint dict_set (k : string) (v : pyval) (d : dict) : dict :=
  match d with
  | [] => [(k, v)]
  | (k', v') :: d' =>
      if String.eqb k k' then (k', v) :: d' else (k', v') :: dict_set k v d'
  end.

Definition is_dict (v : pyval) : bool :=
  match v with PDict _ => true | _ => false end.

(** Truth value of an object, as [if v:] and [not v] take it. *)
Definition truthy (v : pyval) : bool :=
  match v with
  | PNone => false
  | PBool b => b
  | PInt z => negb (z =? 0)
  | PStr s => negb (String.eqb s "")
  | PList l => match l with [] => false | _ => true end
  | PDict d => match d with [] => false | _ => true end
  end.

(** [v == "literal"]: only a string equals a string. *)
Definition eq_str (v : pyval) (s : string) : bool :=
  match v with PStr t => String.eqb t s | _ => false end.

(** [v in ["a", "b", ...]] *)
Definition in_strs (v : pyval) (l : list string) : bool := existsb (eq_str v) l.

(** [v.get(k, default)]: a method of dicts only. *)
Definition py_get (v : pyval) (k : string) (default : pyval) : result pyval :=
  match v with
  | PDict d => Ok (match lookup k d with Some x => x | None => default end)
  | _ => Raise AttributeError
  end.

(** [v[k]] with a string key. *)
Definition py_item (v : pyval) (k : string) : result pyval :=
  match v with
  | PDict d => match lookup k d with Some x => Ok x | None => Raise KeyError end
  | _ => Raise TypeError
  end.

(** [v[0]].  The keys of a dict here are strings, so [0] is never one. *)
Definition py_first (v : pyval) : result pyval :=
  match v with
  | PList (x :: _) => Ok x
  | PList [] => Raise IndexError
  | PStr (String c _) => Ok (PStr (String c EmptyString))
  | PStr EmptyString => Raise IndexError
  | PDict _ => Raise KeyError
  | _ => Raise TypeError
  end.

(** [v[k] = x] *)
Definition py_setitem (v : pyval) (k : string) (x : pyval) : result pyval :=
  match v with
  | PDict d => Ok (PDict (dict_set k x d))
  | _ => Raise TypeError
  end.

(** [k in v] with a string [k]: key of a dict, element of a list,
    substring of a string. *)
Definition py_in (k : string) (v : pyval) : result bool :=
  match v with
  | PDict d => Ok (has_key k d)
  | PList l => Ok (existsb (fun x => eq_str x k) l)
  | PStr s => Ok (PyStr.contains k s)
  | _ => Raise TypeError
  end.

Fixpoint chars (s : string) : list pyval :=
  match s with
  | EmptyString => []
  | String c s' => PStr (String c EmptyString) :: chars s'
  end.

(** What [for x in v] goes through. *)
Definition py_iter (v : pyval) : result (list pyval) :=
  match v with
  | PList l => Ok l
  | PDict d => Ok (map (fun kv => PStr (fst kv)) d)
  | PStr s => Ok (chars s)
  | _ => Raise TypeError
  end.

(** [n + v] for an integer [n]; [bool] is a subclass of [int]. *)
Definition int_add (n : Z) (v : pyval) : result Z :=
  match v with
  | PInt z => Ok (n + z)
  | PBool b => Ok (n + (if b then 1 else 0))
  | _ => Raise TypeError
  end.

(** [a + b] on arbitrary values. *)
Definition py_add (a b : pyval) : result pyval :=
  match a, b with
  | PInt x, _ => z <- int_add x b ;; Ok (PInt z)
  | PBool x, _ => z <- int_add (if x then 1 else 0) b ;; Ok (PInt z)
  | PStr x, PStr y => Ok (PStr (x ++ y))
  | PList x, PList y => Ok (PList (x ++ y))
  | _, _ => Raise TypeError
  end.

Fixpoint sum_from (acc : Z) (l : list pyval) : result Z :=
  match l with
  | [] => Ok acc
  | x :: l' => acc' <- int_add acc x ;; sum_from acc' l'
  end.

(** [sum(v)]: iterates [v] and adds the items to [0]. *)
Definition py_sum (v : pyval) : result Z :=
  l <- py_iter v ;; sum_from 0 l.

(** [any(p(x) for x in l)]: stops at the first hit. *)
Fixpoint anyM {A : Type} (p : A -> result bool) (l : list A) : result bool :=
  match l with
  | [] => Ok false
  | x :: l' => b <- p x ;; if b then Ok true else anyM p l'
  end.

(** ** Chunks *)

Record ToolCallChunk : Type := mkToolCallChunk {
  tc_index : pyval;
  tc_id : pyval;
  tc_name : pyval;
  tc_args : pyval
}.

(** The arguments the module gives the two chunk constructors of
    [langchain_core]; an argument left out is its default. *)
Inductive chunk : Type :=
| AIMessageChunk (content : pyval) (tool_call_chunks : list ToolCallChunk)
                 (response_metadata : dict)
| GenerationChunk (text : pyval) (generation_info : dict).

(** Both constructors are pydantic models and check what they are given:
    the [text] of a [GenerationChunk] has to be a str, the [content] of an
    [AIMessageChunk] a str or a list of str and dict items.  A value of
    another type is a ValidationError, raised by the constructor call.
    Their check of the fields of a tool call chunk is not modelled. *)
Definition valid_text (v : pyval) : bool :=
  match v with PStr _ => true | _ => false end.

Definition valid_content (v : pyval) : bool :=
  match v with
  | PStr _ => true
  | PList l =>
      forallb (fun x => match x with PStr _ | PDict _ => true | _ => false end) l
  | _ => false
  end.

Definition not_in_keys (l : list string) (kv : string * pyval) : bool :=
  negb (existsb (String.eqb (fst kv)) l).

(** The tail of [_stream_response_to_generation_chunk], after the
    messages branch. *)
Definition provider_chunk (stream_response : pyval) (provider output_key : string)
  : result (option chunk) :=
  match stream_response with
  | PDict d =>
      let generation_info :=
        filter (not_in_keys [output_key; "prompt_token_count";
                             "generation_token_count"; "created"]) d in
      text <-
        (if negb (existsb (String.eqb provider) ["mistral"; "deepseek"; "writer"])
         then py_item stream_response output_key
         else o <- py_item stream_response output_key ;;
              f <- py_first o ;;
              py_item f "text") ;;
      if valid_text text then Ok (Some (GenerationChunk text generation_info))
      else Raise ValidationError
  | _ => Raise AttributeError
  end.

(** The [content_block_delta] case once the delta is known to be truthy.
    [None] stands for leaving the [if] chain without a [return]. *)
Definition delta_chunk (stream_response delta : pyval) (coerce_content_to_string : bool)
  : result (option chunk) :=
  ty <- py_item delta "type" ;;
  if eq_str ty "text_delta" then
    if coerce_content_to_string then
      t <- py_item delta "text" ;;
      if valid_content t then Ok (Some (AIMessageChunk t [] []))
      else Raise ValidationError
    else
      i <- py_item stream_response "index" ;;
      b1 <- py_setitem delta "index" i ;;
      b2 <- py_setitem b1 "type" (PStr "text") ;;
      Ok (Some (AIMessageChunk (PList [b2]) [] []))
  else if eq_str ty "input_json_delta" then
    i <- py_item stream_response "index" ;;
    b1 <- py_setitem delta "index" i ;;
    b2 <- py_setitem b1 "type" (PStr "tool_use") ;;
    pj <- py_item b2 "partial_json" ;;
    Ok (Some (AIMessageChunk (PList [b2]) [mkToolCallChunk i PNone PNone pj] []))
  else if eq_str ty "thinking_delta" || eq_str ty "signature_delta" then
    i <- py_item stream_response "index" ;;
    b1 <- py_setitem delta "index" i ;;
    b2 <- py_setitem b1 "type" (PStr "thinking") ;;
    Ok (Some (AIMessageChunk (PList [b2]) [] []))
  else Ok None.

(** [_stream_response_to_generation_chunk].  [Ok None] is the Python
    [None].  The function writes [index] and [type] into the
    [content_block] or [delta] dict of [stream_response]; the chunk holds
    that updated dict, and the callers read neither key afterwards. *)
Definition _stream_response_to_generation_chunk
    (stream_response : pyval) (provider output_key : string)
    (messages_api coerce_content_to_string : bool) : result (option chunk) :=
  if messages_api then
    msg_type <- py_get stream_response "type" PNone ;;
    if eq_str msg_type "message_start" then
      Ok (Some (AIMessageChunk
                  (if coerce_content_to_string then PStr "" else PList []) [] []))
    else
      is_tool_start <-
        (if eq_str msg_type "content_block_start" then
           cb <- py_item stream_response "content_block" ;;
           match cb with
           | PNone => Ok false
           | _ => ty <- py_item cb "type" ;; Ok (eq_str ty "tool_use")
           end
         else Ok false) ;;
      if is_tool_start then
        cb <- py_item stream_response "content_block" ;;
        i <- py_item stream_response "index" ;;
        content_block <- py_setitem cb "index" i ;;
        id <- py_item content_block "id" ;;
        name <- py_item content_block "name" ;;
        Ok (Some (AIMessageChunk (PList [content_block])
                    [mkToolCallChunk i id name (PStr "")] []))
      else if eq_str msg_type "content_block_delta" then
        delta <- py_item stream_response "delta" ;;
        if negb (truthy delta) then Ok (Some (AIMessageChunk (PStr "") [] []))
        else
          r <- delta_chunk stream_response delta coerce_content_to_string ;;
          match r with
          | Some c => Ok (Some c)
          | None => provider_chunk stream_response provider output_key
          end
      else if eq_str msg_type "message_delta" then
        delta <- py_item stream_response "delta" ;;
        sr <- py_get delta "stop_reason" PNone ;;
        ss <- py_get delta "stop_sequence" PNone ;;
        Ok (Some (AIMessageChunk (PStr "") []
                    [("stop_reason", sr); ("stop_sequence", ss)]))
      else Ok None
  else provider_chunk stream_response provider output_key.

(** [_get_invocation_metrics_chunk] *)
Definition _get_invocation_metrics_chunk (chunk_obj : pyval) : result chunk :=
  metrics <- py_get chunk_obj "amazon-bedrock-invocationMetrics" PNone ;;
  if truthy metrics then
    input_tokens <- py_get metrics "inputTokenCount" (PInt 0) ;;
    output_tokens <- py_get metrics "outputTokenCount" (PInt 0) ;;
    cache_read_input_tokens <- py_get metrics "cacheReadInputTokenCount" (PInt 0) ;;
    cache_write_input_tokens <- py_get metrics "cacheWriteInputTokenCount" (PInt 0) ;;
    total <- py_add input_tokens output_tokens ;;
    Ok (GenerationChunk (PStr "")
          [("usage_metadata",
            PDict [("input_tokens", input_tokens);
                   ("output_tokens", output_tokens);
                   ("total_tokens", total);
                   ("input_token_details",
                    PDict [("cache_creation", cache_write_input_tokens);
                           ("cache_read", cache_read_input_tokens)])])])
  else Ok (GenerationChunk (PStr "") []).

(** ** The usage aggregator *)

Record usage_info : Type := mkUsage {
  prompt_tokens : Z;
  completion_tokens : Z;
  total_tokens : Z
}.

Record llm_result_info : Type := mkInfo {
  usage : usage_info;
  stop_reason : pyval
}.

(** The running totals and the stop reason while the loop runs. *)
Record combine_state : Type := mkCombine {
  acc_prompt : Z;
  acc_completion : Z;
  acc_stop : pyval
}.

(** [if key in usage_info: total += amount(usage_info[key])] *)
Definition add_if_present (usage_info : pyval) (key : string)
    (amount : Z -> pyval -> result Z) (total : Z) : result Z :=
  present <- py_in key usage_info ;;
  if present then v <- py_item usage_info key ;; amount total v
  else Ok total.

Definition add_sum (total : Z) (v : pyval) : result Z :=
  s <- py_sum v ;; Ok (total + s).

(** The two token-count blocks of the loop body of
    [_combine_generation_info_for_llm_result], on the running totals
    (prompt tokens, completion tokens). *)
Definition count_tokens (generation_info : dict) (totals : Z * Z) : result (Z * Z) :=
  t1 <-
    match lookup "usage" generation_info with
    | Some usage_info =>
        p <- add_if_present usage_info "input_tokens" add_sum (fst totals) ;;
        c <- add_if_present usage_info "output_tokens" add_sum (snd totals) ;;
        Ok (p, c)
    | None => Ok totals
    end ;;
  match lookup "amazon-bedrock-invocationMetrics" generation_info with
  | Some usage_info =>
      p <- add_if_present usage_info "inputTokenCount" int_add (fst t1) ;;
      c <- add_if_present usage_info "outputTokenCount" int_add (snd t1) ;;
      Ok (p, c)
  | None => Ok t1
  end.

(** The stop-reason block of the loop body:
    [if provider_stop_code is not None and provider_stop_code in generation_info]. *)
Definition next_stop (provider_stop_code : option string) (generation_info : dict)
    (stop : pyval) : pyval :=
  match provider_stop_code with
  | Some code =>
      match lookup code generation_info with
      | Some v => v
      | None => stop
      end
  | None => stop
  end.

(** The body of the loop. *)
Definition combine_step (provider_stop_code : option string)
    (st : combine_state) (generation_info : dict) : result combine_state :=
  t <- count_tokens generation_info (acc_prompt st, acc_completion st) ;;
  Ok (mkCombine (fst t) (snd t)
        (next_stop provider_stop_code generation_info (acc_stop st))).

Fixpoint combine_loop (provider_stop_code : option string) (st : combine_state)
    (chunks_generation_info : list dict) : result combine_state :=
  match chunks_generation_info with
  | [] => Ok st
  | generation_info :: rest =>
      st' <- combine_step provider_stop_code st generation_info ;;
      combine_loop provider_stop_code st' rest
  end.

Definition _combine_generation_info_for_llm_result
    (chunks_generation_info : list dict) (provider_stop_code : option string)
  : result llm_result_info :=
  st <- combine_loop provider_stop_code (mkCombine 0 0 (PStr "")) chunks_generation_info ;;
  Ok (mkInfo (mkUsage (acc_prompt st) (acc_completion st)
                      (acc_prompt st + acc_completion st))
             (acc_stop st)).

(** ** The stream decoders *)

Definition provider_to_output_key_map : list (string * string) :=
  [("anthropic", "completion"); ("amazon", "outputText"); ("cohere", "text");
   ("deepseek", "choices"); ("meta", "generation"); ("mistral", "outputs");
   ("writer", "choices")].

Fixpoint output_key_of (provider : string) (m : list (string * string)) : option string :=
  match m with
  | [] => None
  | (p, k) :: m' => if String.eqb provider p then Some k else output_key_of provider m'
  end.

(** The bytes of a chunk, seen through [.decode()] and [json.loads]: the
    value they decode to, text that is no JSON, or bytes that are no UTF-8
    text. *)
Inductive payload : Type :=
| Decoded (chunk_obj : pyval)
| Malformed
| Undecodable.

(** An event of the stream: [None] has no chunk (it is skipped). *)
Definition event : Type := option payload.

(** [response.get("body")]: missing, a plain list of events (false when
    empty), or the transport's event stream object (always true). *)
Inductive stream_body : Type :=
| BodyAbsent
| BodyList (events : list event)
| BodyEventStream (events : list event).

Definition body_truthy (b : stream_body) : bool :=
  match b with
  | BodyAbsent => false
  | BodyList [] => false
  | BodyList _ => true
  | BodyEventStream _ => true
  end.

Definition body_events (b : stream_body) : list event :=
  match b with
  | BodyAbsent => []
  | BodyList l => l
  | BodyEventStream l => l
  end.

(** The [yield] statement a chunk comes from: the converted chunk of an
    event, or the invocation metrics chunk before a [return]. *)
Inductive yield_site : Type :=
| YieldConverted
| YieldMetrics.

(** How a generator ends: the stream ran out, there was no stream, a
    sentinel payload returned, a stop reason returned with nothing yielded
    (the async decoder only), a stop reason or [message_stop] returned
    after the metrics chunk, or an exception. *)
Inductive ending : Type :=
| Exhausted
| NoStream
| Sentinel
| Quiet
| Terminal
| Raised (e : exn).

(** What the loop body does with one event. *)
Inductive control : Type :=
| Next
| Return (why : ending)
| Throw (e : exn).

Record step : Type := mkStep {
  emitted : list (yield_site * chunk);
  after : control
}.

(** A generator drained to its end: what it yielded in order, how many
    events it took from the stream, and how it ended. *)
Record run : Type := mkRun {
  yielded : list (yield_site * chunk);
  consumed : nat;
  ended : ending
}.

Definition chunks_of (r : run) : list chunk := map snd (yielded r).

(** [for event in stream: body], with [body] given per event. *)
Fixpoint drain (body : event -> step) (events : list event) : run :=
  match events with
  | [] => mkRun [] 0 Exhausted
  | ev :: rest =>
      let s := body ev in
      match after s with
      | Next =>
          let r := drain body rest in
          mkRun (emitted s ++ yielded r) (S (consumed r)) (ended r)
      | Return why => mkRun (emitted s) 1 why
      | Throw e => mkRun (emitted s) 1 (Raised e)
      end
  end.

(** [chunk_obj.get(output_key, [{}])[0]] *)
Definition first_output (chunk_obj : pyval) (output_key : string) : result pyval :=
  o <- py_get chunk_obj output_key (PList [PDict []]) ;; py_first o.

(** [chunk_obj["is_finished"] or chunk_obj[output_key] == "<EOS_TOKEN>"] *)
Definition cohere_finished (chunk_obj : pyval) (output_key : string) : result bool :=
  fin <- py_item chunk_obj "is_finished" ;;
  if truthy fin then Ok true
  else o <- py_item chunk_obj output_key ;; Ok (eq_str o "<EOS_TOKEN>").

(** [chunk_obj.get(output_key, [{}])[0].get("stop_reason", "") == "stop"] *)
Definition mistral_stopped (chunk_obj : pyval) (output_key : string) : result bool :=
  opt <- first_output chunk_obj output_key ;;
  sr <- py_get opt "stop_reason" (PStr "") ;;
  Ok (eq_str sr "stop").

(** The [if]/[elif] chain that follows the [yield] of the converted chunk
    in [prepare_output_stream]: whether the metrics chunk is due. *)
Definition stop_reached (provider : string) (chunk_obj : pyval)
    (output_key : string) (messages_api : bool) : result bool :=
  if String.eqb provider "deepseek" then
    opt <- first_output chunk_obj output_key ;;
    sr <- py_get opt "stop_reason" PNone ;;
    if in_strs sr ["stop"; "length"] then Ok true
    else fr <- py_get opt "finish_reason" PNone ;; Ok (eq_str fr "eos_token")
  else
    m <- (if String.eqb provider "mistral"
          then mistral_stopped chunk_obj output_key else Ok false) ;;
    if m then Ok true
    else
      t <- (if String.eqb provider "meta"
            then sr <- py_get chunk_obj "stop_reason" (PStr "") ;; Ok (eq_str sr "stop")
            else Ok false) ;;
      if t then Ok true
      else if messages_api
           then ty <- py_get chunk_obj "type" PNone ;; Ok (eq_str ty "message_stop")
           else Ok false.

Definition converted (g : option chunk) : list (yield_site * chunk) :=
  match g with
  | Some c => [(YieldConverted, c)]
  | None => []
  end.

(** The loop body of [prepare_output_stream]. *)
Definition sync_body (provider output_key : string)
    (messages_api coerce_content_to_string : bool) (ev : event) : step :=
  match ev with
  | None => mkStep [] Next
  | Some Malformed => mkStep [] (Throw JSONDecodeError)
  | Some Undecodable => mkStep [] (Throw UnicodeDecodeError)
  | Some (Decoded chunk_obj) =>
      if String.eqb provider "writer" && eq_str chunk_obj "[DONE]"
      then mkStep [] (Return Sentinel)
      else
        match (if String.eqb provider "cohere"
               then cohere_finished chunk_obj output_key else Ok false) with
        | Raise e => mkStep [] (Throw e)
        | Ok true => mkStep [] (Return Sentinel)
        | Ok false =>
            match _stream_response_to_generation_chunk chunk_obj provider output_key
                    messages_api coerce_content_to_string with
            | Raise e => mkStep [] (Throw e)
            | Ok g =>
                match stop_reached provider chunk_obj output_key messages_api with
                | Raise e => mkStep (converted g) (Throw e)
                | Ok false => mkStep (converted g) Next
                | Ok true =>
                    match _get_invocation_metrics_chunk chunk_obj with
                    | Raise e => mkStep (converted g) (Throw e)
                    | Ok m => mkStep (converted g ++ [(YieldMetrics, m)]) (Return Terminal)
                    end
                end
            end
        end
  end.

(** [LLMInputOutputAdapter.prepare_output_stream], drained. *)
Definition prepare_output_stream (provider : string) (body : stream_body)
    (messages_api coerce_content_to_string : bool) : run :=
  if negb (body_truthy body) then mkRun [] 0 NoStream
  else
    let output_key :=
      if messages_api then "message"
      else match output_key_of provider provider_to_output_key_map with
           | Some k => k
           | None => ""
           end in
    if String.eqb output_key "" then mkRun [] 0 (Raised ValueError)
    else drain (sync_body provider output_key messages_api coerce_content_to_string)
               (body_events body).

(** The loop body of [aprepare_output_stream]. *)
Definition async_body (provider output_key : string)
    (messages_api coerce_content_to_string : bool) (ev : event) : step :=
  match ev with
  | None => mkStep [] Next
  | Some Malformed => mkStep [] (Throw JSONDecodeError)
  | Some Undecodable => mkStep [] (Throw UnicodeDecodeError)
  | Some (Decoded chunk_obj) =>
      match (if String.eqb provider "cohere"
             then cohere_finished chunk_obj output_key else Ok false) with
      | Raise e => mkStep [] (Throw e)
      | Ok true => mkStep [] (Return Sentinel)
      | Ok false =>
          match (if String.eqb provider "mistral"
                 then mistral_stopped chunk_obj output_key else Ok false) with
          | Raise e => mkStep [] (Throw e)
          | Ok true => mkStep [] (Return Quiet)
          | Ok false =>
              match _stream_response_to_generation_chunk chunk_obj provider output_key
                      messages_api coerce_content_to_string with
              | Raise e => mkStep [] (Throw e)
              | Ok g => mkStep (converted g) Next
              end
          end
      end
  end.

(** [LLMInputOutputAdapter.aprepare_output_stream], drained. *)
Definition aprepare_output_stream (provider : string) (body : stream_body)
    (messages_api coerce_content_to_string : bool) : run :=
  if negb (body_truthy body) then mkRun [] 0 NoStream
  else
    match output_key_of provider provider_to_output_key_map with
    | None => mkRun [] 0 (Raised ValueError)
    | Some output_key =>
        if String.eqb output_key "" then mkRun [] 0 (Raised ValueError)
        else drain (async_body provider output_key messages_api coerce_content_to_string)
                   (body_events body)
    end.

(** ** The response parser *)

Module PyInt.

(** What [int] strips from both ends of an ASCII string: space, tab,
    newline, vertical tab, form feed and carriage return. *)
Definition is_space (c : ascii) : bool :=
  let n := nat_of_ascii c in
  (Nat.eqb n 32 || (Nat.leb 9 n && Nat.leb n 13))%bool.

Fixpoint lstrip (l : list ascii) : list ascii :=
  match l with
  | c :: l' => if is_space c then lstrip l' else l
  | [] => []
  end.

Definition strip (l : list ascii) : list ascii := rev (lstrip (rev (lstrip l))).

Definition digit (c : ascii) : option Z :=
  let n := nat_of_ascii c in
  if (Nat.leb 48 n && Nat.leb n 57)%bool then Some (Z.of_nat n - 48) else None.

(** Decimal digits, single underscores between digits allowed. *)
Fixpoint digits (acc : Z) (after_digit : bool) (l : list ascii) : option Z :=
  match l with
  | [] => if after_digit then Some acc else None
  | c :: l' =>
      if Ascii.eqb c "_"%char
      then if after_digit then digits acc false l' else None
      else match digit c with
           | Some d => digits (10 * acc + d) true l'
           | None => None
           end
  end.

(** [int(s)] for a string, base 10.  Digits outside ASCII and the
    interpreter's cap on the number of digits are left out. *)
Definition of_string (s : string) : option Z :=
  match strip (list_ascii_of_string s) with
  | c :: l' =>
      if Ascii.eqb c "+"%char then digits 0 false l'
      else if Ascii.eqb c "-"%char then option_map Z.opp (digits 0 false l')
      else digits 0 false (c :: l')
  | [] => None
  end.

End PyInt.

(** [int(v)] *)
Definition py_int (v : pyval) : result Z :=
  match v with
  | PInt z => Ok z
  | PBool b => Ok (if b then 1 else 0)
  | PStr s => match PyInt.of_string s with Some z => Ok z | None => Raise ValueError end
  | _ => Raise TypeError
  end.

(** [[f(x) for x in l if p(x)]]: test and value taken item by item. *)
Fixpoint comprehension {A B : Type} (p : A -> result bool) (f : A -> result B)
    (l : list A) : result (list B) :=
  match l with
  | [] => Ok []
  | x :: l' =>
      b <- p x ;;
      if b then y <- f x ;; r <- comprehension p f l' ;; Ok (y :: r)
      else comprehension p f l'
  end.

(** ["".join(l)] *)
Fixpoint join_strs (l : list pyval) : result string :=
  match l with
  | [] => Ok EmptyString
  | PStr s :: l' => r <- join_strs l' ;; Ok (s ++ r)
  | _ :: _ => Raise TypeError
  end.

Record ToolCall : Type := mkToolCall {
  tool_name : pyval;
  tool_args : pyval;
  tool_id : pyval
}.

Fixpoint extract_blocks (blocks : list pyval) : result (list ToolCall) :=
  match blocks with
  | [] => Ok []
  | block :: rest =>
      ty <- py_item block "type" ;;
      if negb (eq_str ty "tool_use") then extract_blocks rest
      else
        name <- py_item block "name" ;;
        args <- py_item block "input" ;;
        id <- py_item block "id" ;;
        r <- extract_blocks rest ;;
        Ok (mkToolCall name args id :: r)
  end.

Definition extract_tool_calls (content : pyval) : result (list ToolCall) :=
  blocks <- py_iter content ;; extract_blocks blocks.

(** [block.get("type") == ty] *)
Definition type_is (ty : string) (block : pyval) : result bool :=
  t <- py_get block "type" PNone ;; Ok (eq_str t ty).

Record parsed_usage : Type := mkParsedUsage {
  u_prompt_tokens : Z;
  u_completion_tokens : Z;
  u_cache_read_input_tokens : Z;
  u_cache_write_input_tokens : Z;
  u_total_tokens : Z
}.

Record parsed_output : Type := mkOutput {
  out_text : pyval;
  out_thinking : dict;
  out_tool_calls : list ToolCall;
  out_body : pyval;
  out_usage : parsed_usage;
  out_stop_reason : pyval
}.

(** The response of a complete invocation: the body read and decoded
    (missing, or its bytes seen through [json.loads]) and the
    ["ResponseMetadata"] entry when there is one. *)
Record invoke_response : Type := mkResponse {
  resp_body : option payload;
  resp_metadata : option pyval
}.

(** The anthropic branch of [prepare_output]: text, thinking, tool calls. *)
Definition anthropic_output (response_body : pyval)
  : result (pyval * dict * list ToolCall) :=
  has_completion <- py_in "completion" response_body ;;
  if has_completion then
    text <- py_get response_body "completion" PNone ;;
    Ok (text, [], [])
  else
    has_content <- py_in "content" response_body ;;
    if has_content then
      content <- py_get response_body "content" (PList []) ;;
      blocks <- py_iter content ;;
      text_blocks <- comprehension (type_is "text") (fun b => py_item b "text") blocks ;;
      text <- match text_blocks with
              | [] => Ok (PStr "")
              | _ => t <- join_strs text_blocks ;; Ok (PStr t)
              end ;;
      thinking_blocks <- comprehension (type_is "thinking") (fun b => Ok b) blocks ;;
      thinking <- match thinking_blocks with
                  | [] => Ok []
                  | thinking_block :: _ =>
                      t <- py_get thinking_block "thinking" (PStr "") ;;
                      sg <- py_get thinking_block "signature" (PStr "") ;;
                      Ok [("text", t); ("signature", sg)]
                  end ;;
      uses_tools <- anyM (type_is "tool_use") blocks ;;
      tool_calls <- (if uses_tools then extract_tool_calls content else Ok []) ;;
      Ok (text, thinking, tool_calls)
    else Ok (PStr "", [], []).

(** [response_body.get(k)[0]] *)
Definition first_of (response_body : pyval) (k : string) : result pyval :=
  l <- py_get response_body k PNone ;; py_first l.

(** The other branch of [prepare_output]: the text of a raw-prompt provider. *)
Definition provider_text (provider : string) (response_body : pyval) : result pyval :=
  if String.eqb provider "deepseek" || String.eqb provider "writer" then
    c <- first_of response_body "choices" ;; py_get c "text" PNone
  else if String.eqb provider "ai21" then
    c <- first_of response_body "completions" ;;
    d <- py_get c "data" PNone ;;
    py_get d "text" PNone
  else if String.eqb provider "cohere" then
    g <- first_of response_body "generations" ;; py_get g "text" PNone
  else if String.eqb provider "meta" then
    py_get response_body "generation" PNone
  else if String.eqb provider "mistral" then
    o <- first_of response_body "outputs" ;; py_get o "text" PNone
  else
    r <- first_of response_body "results" ;; py_get r "outputText" PNone.

(** [int(headers.get(name, 0))] *)
Definition header_count (headers : pyval) (name : string) : result Z :=
  v <- py_get headers name (PInt 0) ;; py_int v.

(** [response.get("ResponseMetadata", {}).get("HTTPHeaders", {})] *)
Definition response_headers (response : invoke_response) : result pyval :=
  py_get (match resp_metadata response with Some m => m | None => PDict [] end)
         "HTTPHeaders" (PDict []).

(** [LLMInputOutputAdapter.prepare_output] *)
Definition prepare_output (provider : string) (response : invoke_response)
  : result parsed_output :=
  response_body <-
    match resp_body response with
    | None => Raise AttributeError
    | Some Malformed => Raise JSONDecodeError
    | Some Undecodable => Raise UnicodeDecodeError
    | Some (Decoded j) => Ok j
    end ;;
  parts <-
    (if String.eqb provider "anthropic" then anthropic_output response_body
     else text <- provider_text provider response_body ;; Ok (text, [], [])) ;;
  let '(text, thinking, tool_calls) := parts in
  headers <- response_headers response ;;
  prompt_tokens <- header_count headers "x-amzn-bedrock-input-token-count" ;;
  completion_tokens <- header_count headers "x-amzn-bedrock-output-token-count" ;;
  cache_read_input_tokens <-
    header_count headers "x-amzn-bedrock-cache-read-input-token-count" ;;
  cache_write_input_tokens <-
    header_count headers "x-amzn-bedrock-cache-write-input-token-count" ;;
  sr <- py_get response_body "stop_reason" PNone ;;
  Ok (mkOutput text thinking tool_calls response_body
        (mkParsedUsage prompt_tokens completion_tokens cache_read_input_tokens
           cache_write_input_tokens
           (prompt_tokens + cache_read_input_tokens + completion_tokens))
        sr).

(** ** The request builder *)

(** [block.get("type")] for a block known to be a dict; [None] otherwise. *)
Definition block_type (block : pyval) : pyval :=
  match block with
  | PDict d => match lookup "type" d with Some t => t | None => PNone end
  | _ => PNone
  end.

Definition thinking_types : list string := ["thinking"; "redacted_thinking"].

(** [isinstance(block, dict) and block.get("type") in ["thinking", "redacted_thinking"]] *)
Definition is_thinking_block (block : pyval) : bool :=
  is_dict block && in_strs (block_type block) thinking_types.

(** [isinstance(block, dict) and block.get("type") not in [...]] *)
Definition is_other_block (block : pyval) : bool :=
  is_dict block && negb (in_strs (block_type block) thinking_types).

(** [isinstance(item, dict)] and [item.get("type") == "tool_result"] *)
Definition is_tool_result (item : pyval) : bool :=
  is_dict item && eq_str (block_type item) "tool_result".

(** The last two items of a list, with what comes before them: [None]
    when [len(l) < 2]. *)
Fixpoint split_last2 {A : Type} (l : list A) : option (list A * A * A) :=
  match l with
  | [] => None
  | [_] => None
  | [a; b] => Some ([], a, b)
  | x :: l' =>
      match split_last2 l' with
      | Some (front, a, b) => Some (x :: front, a, b)
      | None => None
      end
  end.

(** The content the assistant message gets, when it gets one: [None] when
    the message is left alone. *)
Definition reordered_content (asst_content : pyval) : result (option (list pyval)) :=
  match asst_content with
  | PList (first :: rest) =>
      let blocks := first :: rest in
      let thinking_blocks := filter is_thinking_block blocks in
      match thinking_blocks with
      | [] => Ok None
      | _ =>
          t <- py_get first "type" PNone ;;
          if negb (in_strs t thinking_types)
          then Ok (Some (thinking_blocks ++ filter is_other_block blocks)%list)
          else Ok None
      end
  | _ => Ok None
  end.

(** The block under [if thinking_enabled:] in [prepare_input], on a list
    that holds every dict object once.  The result is the caller's list
    once the block has run: the list object is the same, and so are its
    items but [messages[-2]], which is updated in place by
    [messages[-2]["content"] = new_content].  A list that holds the object
    at [messages[-2]] at another position too shows the new content there
    as well: [thinking_first_objects] below is the block on such lists. *)
Definition thinking_first (messages : list pyval) : result (list pyval) :=
  match split_last2 messages with
  | None => Ok messages
  | Some (front, asst, last) =>
      r1 <- py_item last "role" ;;
      if negb (eq_str r1 "user") then Ok messages
      else
        r2 <- py_item asst "role" ;;
        if negb (eq_str r2 "assistant") then Ok messages
        else
          last_user_msg <- py_get last "content" (PList []) ;;
          let tool_result :=
            match last_user_msg with
            | PList items => existsb is_tool_result items
            | _ => false
            end in
          if tool_result then
            asst_content <- py_get asst "content" (PList []) ;;
            new_content <- reordered_content asst_content ;;
            match new_content with
            | Some blocks =>
                asst' <- py_setitem asst "content" (PList blocks) ;;
                Ok (front ++ [asst'; last])%list
            | None => Ok messages
            end
          else Ok messages
  end.

(** What a call of [prepare_input] leaves behind: the body it returns, the
    caller's [messages] list as it is after the call, and the warnings
    issued.  The body's ["messages"] entry is the caller's list itself, so
    it shows the list as it is after the call. *)
Record prepared : Type := mkPrepared {
  input_body : dict;
  messages_after : option (list pyval);
  warnings : list string
}.

Definition nonzero (max_tokens : option Z) : option Z :=
  match max_tokens with
  | Some z => if z =? 0 then None else Some z
  | None => None
  end.

(** [if max_tokens: body[key] = max_tokens], with what follows when
    [max_tokens] is false. *)
Definition set_max_tokens (max_tokens : option Z) (key : string)
    (otherwise : dict -> dict) (body : dict) : dict :=
  match nonzero max_tokens with
  | Some z => dict_set key (PInt z) body
  | None => otherwise body
  end.

Definition default_1024 (key : string) (body : dict) : dict :=
  if has_key key body then body else dict_set key (PInt 1024) body.

Definition set_opt (key : string) (v : option pyval) (body : dict) : dict :=
  match v with
  | Some x => dict_set key x body
  | None => body
  end.

Definition opt_str (s : option string) : pyval :=
  match s with
  | Some t => PStr t
  | None => PNone
  end.

Definition nonempty_str (s : option string) : option string :=
  match s with
  | Some EmptyString => None
  | _ => s
  end.

Definition max_tokens_key (provider : string) : option string :=
  if String.eqb provider "cohere" then Some "max_tokens"
  else if String.eqb provider "meta" then Some "max_gen_len"
  else if String.eqb provider "mistral" then Some "max_tokens"
  else if String.eqb provider "deepseek" then Some "max_tokens"
  else if String.eqb provider "writer" then Some "max_tokens"
  else None.

Section RequestBuilder.

(** [langchain_aws.utils.thinking_in_params]: not part of this module. *)
Variable thinking_in_params : dict -> bool.

(** The [if messages:] block of the anthropic branch. *)
Definition anthropic_messages (model_kwargs : dict) (system : option string)
    (messages : list pyval) (tools : option (list pyval)) (max_tokens : option Z)
    (body : dict) : result (dict * list pyval) :=
  let thinking_enabled := thinking_in_params model_kwargs in
  let body1 :=
    match tools with
    | Some (t :: ts) => dict_set "tools" (PList (t :: ts)) body
    | _ => body
    end in
  let body2 := dict_set "anthropic_version" (PStr "bedrock-2023-05-31") body1 in
  messages' <- (if thinking_enabled then thinking_first messages else Ok messages) ;;
  let body3 := dict_set "messages" (PList messages') body2 in
  let body4 :=
    match nonempty_str system with
    | Some s => dict_set "system" (PStr s) body3
    | None => body3
    end in
  Ok (set_max_tokens max_tokens "max_tokens" (default_1024 "max_tokens") body4,
      messages').

(** [LLMInputOutputAdapter.prepare_input] *)
Definition prepare_input (provider : string) (model_kwargs : dict)
    (prompt system : option string) (messages tools : option (list pyval))
    (max_tokens : option Z) (temperature : option pyval) : result prepared :=
  if String.eqb provider "anthropic" then
    st <-
      match messages with
      | Some (m :: ms) =>
          r <- anthropic_messages model_kwargs system (m :: ms) tools max_tokens
                 model_kwargs ;;
          Ok (fst r, Some (snd r))
      | _ => Ok (model_kwargs, messages)
      end ;;
    let '(body, messages') := st in
    let '(body', warned) :=
      match nonempty_str prompt with
      | Some p =>
          let '(formatted, ws) := _human_assistant_format p in
          (set_max_tokens max_tokens "max_tokens_to_sample"
             (default_1024 "max_tokens_to_sample")
             (dict_set "prompt" (PStr formatted) body), ws)
      | None => (body, [])
      end in
    Ok (mkPrepared (set_opt "temperature" temperature body') messages' warned)
  else if existsb (String.eqb provider)
            ["ai21"; "cohere"; "meta"; "mistral"; "deepseek"; "writer"] then
    let body := dict_set "prompt" (opt_str prompt) model_kwargs in
    let body' :=
      match nonzero max_tokens, max_tokens_key provider with
      | Some z, Some key => dict_set key (PInt z) body
      | _, _ => body
      end in
    Ok (mkPrepared (set_opt "temperature" temperature body') messages [])
  else if String.eqb provider "amazon" then
    let config :=
      set_opt "temperature" temperature
        (set_max_tokens max_tokens "maxTokenCount" (fun b => b) model_kwargs) in
    Ok (mkPrepared [("inputText", opt_str prompt);
                    ("textGenerationConfig", PDict config)] messages [])
  else
    Ok (mkPrepared (dict_set "inputText" (opt_str prompt) model_kwargs) messages []).

End RequestBuilder.

(** ** The statements of the specification, in its own words *)

(** A value that counts as empty for a stop reason: [None] or [""]. *)
Definition empty_value (v : pyval) : bool :=
  match v with
  | PNone => true
  | PStr EmptyString => true
  | _ => false
  end.

(** The specification's stop reason: the last non-empty value under
    [field] across the list, [""] when there is none. *)
Fixpoint spec_last_nonempty (field : string) (l : list dict) : option pyval :=
  match l with
  | [] => None
  | g :: rest =>
      match spec_last_nonempty field rest with
      | Some v => Some v
      | None =>
          match lookup field g with
          | Some v => if empty_value v then None else Some v
          | None => None
          end
      end
  end.

Definition spec_stop_reason (field : string) (l : list dict) : pyval :=
  match spec_last_nonempty field l with
  | Some v => v
  | None => PStr ""
  end.

(** The value under [field] in the last map that has [field] as a key,
    whatever that value is. *)
Fixpoint last_present (field : string) (l : list dict) : option pyval :=
  match l with
  | [] => None
  | g :: rest =>
      match last_present field rest with
      | Some v => Some v
      | None => lookup field g
      end
  end.

Definition last_stop_reason (provider_stop_code : option string) (l : list dict) : pyval :=
  match provider_stop_code with
  | Some field =>
      match last_present field l with
      | Some v => v
      | None => PStr ""
      end
  | None => PStr ""
  end.

(** A token count that is no iterable: [None], a boolean or an integer. *)
Definition is_scalar (v : pyval) : bool :=
  match v with
  | PNone | PBool _ | PInt _ => true
  | _ => false
  end.

(** What the parser reads for a header: [int] of its value, [0] when the
    header is absent. *)
Definition header_or_zero (hdrs : dict) (name : string) : result Z :=
  match lookup name hdrs with
  | Some v => py_int v
  | None => Ok 0
  end.


(** Whether a yielded chunk is an invocation metrics chunk. *)
Definition is_metrics (y : yield_site * chunk) : bool :=
  match fst y with
  | YieldMetrics => true
  | YieldConverted => false
  end.

Definition metrics_count (ys : list (yield_site * chunk)) : nat :=
  List.length (filter is_metrics ys).

(** The same body with more events at the end of its stream. *)
Definition extend (b : stream_body) (more : list event) : stream_body :=
  match b with
  | BodyAbsent => BodyAbsent
  | BodyList l => BodyList (l ++ more)
  | BodyEventStream l => BodyEventStream (l ++ more)
  end.

(** The output key [prepare_output_stream] settles on. *)
Definition sync_output_key (provider : string) (messages_api : bool) : string :=
  if messages_api then "message"
  else match output_key_of provider provider_to_output_key_map with
       | Some k => k
       | None => ""
       end.

(** ** Termination of a stream, read off the payload

    The two tests of [prepare_output_stream] that end a stream, stated on
    the structure of the decoded payload.  [None] stands for a test that
    raises: a key that is missing, a payload of the wrong shape. *)

(** [d.get(k, default)] on a dict. *)
Definition get_or (k : string) (default : pyval) (d : dict) : pyval :=
  match lookup k d with
  | Some v => v
  | None => default
  end.

(** [chunk_obj.get(output_key, [{}])[0]], when it is a dict. *)
Definition first_option (output_key : string) (d : dict) : option dict :=
  match lookup output_key d with
  | None => Some []
  | Some (PList (PDict o :: _)) => Some o
  | Some _ => None
  end.

(** A sentinel payload: the writer's ["[DONE]"], or a cohere payload whose
    [is_finished] is true or whose text is the end-of-sequence token. *)
Definition sentinel_value (provider output_key : string) (chunk_obj : pyval)
  : option bool :=
  if String.eqb provider "writer" && eq_str chunk_obj "[DONE]" then Some true
  else if String.eqb provider "cohere" then
    match chunk_obj with
    | PDict d =>
        match lookup "is_finished" d with
        | Some fin =>
            if truthy fin then Some true
            else match lookup output_key d with
                 | Some o => Some (eq_str o "<EOS_TOKEN>")
                 | None => None
                 end
        | None => None
        end
    | _ => None
    end
  else Some false.

(** A stop payload: for deepseek, a first choice whose stop_reason is
    "stop" or "length" or whose finish_reason is "eos_token"; for mistral,
    a first output whose stop_reason is "stop"; for meta, a stop_reason
    "stop"; and, for every provider but deepseek, the [message_stop] event
    of a messages stream. *)
Definition stop_value (provider output_key : string) (messages_api : bool)
    (chunk_obj : pyval) : option bool :=
  match chunk_obj with
  | PDict d =>
      if String.eqb provider "deepseek" then
        match first_option output_key d with
        | Some o =>
            Some (in_strs (get_or "stop_reason" PNone o) ["stop"; "length"]
                  || eq_str (get_or "finish_reason" PNone o) "eos_token")
        | None => None
        end
      else
        let message_stop :=
          messages_api && eq_str (get_or "type" PNone d) "message_stop" in
        if String.eqb provider "mistral" then
          match first_option output_key d with
          | Some o => Some (eq_str (get_or "stop_reason" (PStr "") o) "stop"
                            || message_stop)
          | None => None
          end
        else if String.eqb provider "meta" then
          Some (eq_str (get_or "stop_reason" (PStr "") d) "stop" || message_stop)
        else Some message_stop
  | _ =>
      if existsb (String.eqb provider) ["deepseek"; "mistral"; "meta"] || messages_api
      then None
      else Some false
  end.

(** An event the decoder goes past: one without a chunk, or one whose
    payload is neither a sentinel nor a stop and is converted without an
    exception. *)
Definition goes_by (provider output_key : string)
    (messages_api coerce_content_to_string : bool) (ev : event) : bool :=
  match ev with
  | None => true
  | Some (Decoded chunk_obj) =>
      match sentinel_value provider output_key chunk_obj,
            stop_value provider output_key messages_api chunk_obj,
            _stream_response_to_generation_chunk chunk_obj provider output_key
              messages_api coerce_content_to_string with
      | Some false, Some false, Ok _ => true
      | _, _, _ => false
      end
  | Some _ => false
  end.

(** A mistral stream: a text event, the stop event with its metrics, and
    an event after it. *)
Definition mistral_text_event : event :=
  Some (Decoded (PDict [("outputs", PList [PDict [("text", PStr "Hel")]])])).

Definition mistral_stop_payload : pyval :=
  PDict [("outputs", PList [PDict [("text", PStr "lo"); ("stop_reason", PStr "stop")]]);
         ("amazon-bedrock-invocationMetrics",
          PDict [("inputTokenCount", PInt 10); ("outputTokenCount", PInt 5)])].

(** The providers [prepare_input] has a branch for. *)
Definition request_providers : list string :=
  ["anthropic"; "ai21"; "cohere"; "meta"; "mistral"; "deepseek"; "writer"; "amazon"].

(** Sample data. *)
Definition sample_response : invoke_response :=
  mkResponse
    (Some (Decoded (PDict [("completion", PStr "Hi"); ("stop_reason", PStr "stop_sequence")])))
    (Some (PDict [("HTTPHeaders",
                   PDict [("x-amzn-bedrock-input-token-count", PStr "10");
                          ("x-amzn-bedrock-output-token-count", PStr "5")])])).

Definition sample_output : parsed_output :=
  mkOutput (PStr "Hi") [] []
    (PDict [("completion", PStr "Hi"); ("stop_reason", PStr "stop_sequence")])
    (mkParsedUsage 10 5 0 0 15) (PStr "stop_sequence").


Definition message_stop_event : event :=
  Some (Decoded (PDict [("type", PStr "message_stop");
                        ("amazon-bedrock-invocationMetrics",
                         PDict [("inputTokenCount", PInt 10);
                                ("outputTokenCount", PInt 5)])])).

Definition metrics_10_5 : chunk :=
  GenerationChunk (PStr "")
    [("usage_metadata",
      PDict [("input_tokens", PInt 10); ("output_tokens", PInt 5);
             ("total_tokens", PInt 15);
             ("input_token_details",
              PDict [("cache_creation", PInt 0); ("cache_read", PInt 0)])])].

Definition mistral_stop_event : event :=
  Some (Decoded (PDict [("outputs",
                         PList [PDict [("text", PStr "Hi");
                                       ("stop_reason", PStr "stop")]])])).

(** Vocabulary for the messages of a request. *)
Definition is_role (role : string) (msg : pyval) : bool :=
  match msg with
  | PDict d => match lookup "role" d with Some r => eq_str r role | None => false end
  | _ => false
  end.

Definition content_blocks (msg : pyval) : option (list pyval) :=
  match msg with
  | PDict d => match lookup "content" d with Some (PList l) => Some l | _ => None end
  | _ => None
  end.

Definition has_tool_result (msg : pyval) : bool :=
  match content_blocks msg with
  | Some items => existsb is_tool_result items
  | None => false
  end.

(** The message with its content replaced, every other key as it was. *)
Definition with_content (msg : pyval) (blocks : list pyval) : pyval :=
  match msg with
  | PDict d => PDict (dict_set "content" (PList blocks) d)
  | _ => msg
  end.

(** The blocks with the thinking blocks first, the order otherwise kept. *)
Definition thinking_blocks_first (blocks : list pyval) : list pyval :=
  filter is_thinking_block blocks ++ filter is_other_block blocks.

(** When the reorder takes place: the last message is a user turn with a
    tool_result block, the one before it an assistant turn whose content
    is a list that has a thinking block and starts with a dict that is
    none. *)
Definition reorder_applies (asst last : pyval) : bool :=
  is_role "user" last && is_role "assistant" asst && has_tool_result last
  && match content_blocks asst with
     | Some (first :: rest) =>
         existsb is_thinking_block (first :: rest)
         && is_dict first && negb (is_thinking_block first)
     | _ => false
     end.

(** [msg.get(k)] as an option, for a message that is a dict. *)
Definition field (k : string) (msg : pyval) : option pyval :=
  match msg with
  | PDict d => lookup k d
  | _ => None
  end.

(** An instance of [thinking_in_params] for the sample calls: thinking is
    on when the arguments have a "thinking" entry of type "enabled". *)
Definition thinking_type_enabled (params : dict) : bool :=
  match lookup "thinking" params with
  | Some t => eq_str (block_type t) "enabled"
  | None => false
  end.

Definition sample_kwargs : dict :=
  [("thinking", PDict [("type", PStr "enabled"); ("budget_tokens", PInt 1024)])].

Definition sample_text_block : pyval :=
  PDict [("type", PStr "text"); ("text", PStr "Let me check.")].

Definition sample_thinking_block : pyval :=
  PDict [("type", PStr "thinking"); ("thinking", PStr "I need the tool.");
         ("signature", PStr "sig")].

Definition sample_assistant : pyval :=
  PDict [("role", PStr "assistant");
         ("content", PList [sample_text_block; sample_thinking_block])].

Definition sample_tool_result : pyval :=
  PDict [("role", PStr "user");
         ("content", PList [PDict [("type", PStr "tool_result");
                                   ("tool_use_id", PStr "t1");
                                   ("content", PStr "42")]])].

Definition sample_question : pyval :=
  PDict [("role", PStr "user"); ("content", PStr "What is six times seven?")].

Definition sample_messages : list pyval :=
  [sample_question; sample_assistant; sample_tool_result].

(** ** Vocabulary for further properties *)

Definition is_exhausted (e : ending) : bool :=
  match e with
  | Exhausted => true
  | _ => false
  end.

Definition has_chunk (ev : event) : bool :=
  match ev with
  | Some _ => true
  | None => false
  end.

(** One run followed by another over the rest of the stream: the second
    one counts only when the first read its events to the end. *)
Definition then_run (r1 r2 : run) : run :=
  if is_exhausted (ended r1)
  then mkRun (yielded r1 ++ yielded r2) (consumed r1 + consumed r2) (ended r2)
  else r1.

(** The event types the messages branch of the chunk converter has a case
    for. *)
Definition handled_types : list string :=
  ["message_start"; "content_block_start"; "content_block_delta"; "message_delta"].

(** The keys the chunk converter leaves out of [generation_info]. *)
Definition dropped_keys (output_key : string) : list string :=
  [output_key; "prompt_token_count"; "generation_token_count"; "created"].

(** [metrics.get(k, 0)] when it is an integer. *)
Definition int_or_zero (k : string) (metrics : dict) : option Z :=
  match lookup k metrics with
  | Some (PInt z) => Some z
  | Some _ => None
  | None => Some 0
  end.

Definition sum_ints (l : list Z) : Z := fold_right Z.add 0 l.

(** The providers whose payloads the synchronous decoder inspects for a
    sentinel or a stop reason of their own. *)
Definition inspecting_providers : list string :=
  ["writer"; "cohere"; "deepseek"; "mistral"; "meta"].

(** The providers [prepare_output] has a branch for. *)
Definition parsed_providers : list string :=
  ["anthropic"; "deepseek"; "writer"; "ai21"; "cohere"; "meta"; "mistral"].

(** A content block of a messages response as the parser needs it: a
    dict with a "type", with a string under "text" when its type is
    "text", and with "name", "input" and "id" when its type is "tool_use". *)
Definition well_formed_block (b : pyval) : bool :=
  match b with
  | PDict d =>
      has_key "type" d
      && (if eq_str (block_type b) "text"
       then match lookup "text" d with Some (PStr _) => true | _ => false end
       else true)
      && (if eq_str (block_type b) "tool_use"
          then has_key "name" d && has_key "input" d && has_key "id" d
          else true)
  | _ => false
  end.

Definition has_type (ty : string) (b : pyval) : bool := eq_str (block_type b) ty.

Definition field_or (k : string) (default : pyval) (b : pyval) : pyval :=
  match field k b with
  | Some v => v
  | None => default
  end.

(** The text a block contributes: its "text" when it is a text block. *)
Definition text_of (b : pyval) : string :=
  if has_type "text" b
  then match field "text" b with Some (PStr s) => s | _ => EmptyString end
  else EmptyString.

Definition concat_texts (blocks : list pyval) : string :=
  fold_right (fun b acc => text_of b ++ acc) EmptyString blocks.

Definition tool_call_of (b : pyval) : ToolCall :=
  mkToolCall (field_or "name" PNone b) (field_or "input" PNone b) (field_or "id" PNone b).

Definition thinking_of (blocks : list pyval) : dict :=
  match filter (has_type "thinking") blocks with
  | [] => []
  | b :: _ => [("text", field_or "thinking" (PStr "") b);
               ("signature", field_or "signature" (PStr "") b)]
  end.

Definition sample_content : list pyval :=
  [sample_thinking_block;
   PDict [("type", PStr "text"); ("text", PStr "Let me ")];
   PDict [("type", PStr "tool_use"); ("id", PStr "t1"); ("name", PStr "multiply");
          ("input", PDict [("a", PInt 6); ("b", PInt 7)])];
   PDict [("type", PStr "text"); ("text", PStr "check.")]].

Definition sample_content_response : invoke_response :=
  mkResponse
    (Some (Decoded (PDict [("content", PList sample_content);
                           ("stop_reason", PStr "tool_use")])))
    None.

Definition sample_content_output : parsed_output :=
  mkOutput (PStr "Let me check.")
    [("text", PStr "I need the tool."); ("signature", PStr "sig")]
    [mkToolCall (PStr "multiply") (PDict [("a", PInt 6); ("b", PInt 7)]) (PStr "t1")]
    (PDict [("content", PList sample_content); ("stop_reason", PStr "tool_use")])
    (mkParsedUsage 0 0 0 0 0) (PStr "tool_use").

(** What the builder puts under a max-token key: the argument when it is
    given and not 0, else what the model arguments have under the key,
    else 1024. *)
Definition max_tokens_value (max_tokens : option Z) (key : string) (model_kwargs : dict)
  : pyval :=
  match nonzero max_tokens with
  | Some z => PInt z
  | None =>
      match lookup key model_kwargs with
      | Some v => v
      | None => PInt 1024
      end
  end.

(** ** Model identifiers *)

(** [s.split(sep, maxsplit)] for a separator of one character. *)
Fixpoint split_on (sep : ascii) (maxsplit : nat) (s : string) : list string :=
  match s with
  | EmptyString => [EmptyString]
  | String c s' =>
      if Ascii.eqb c sep then
        match maxsplit with
        | O => [s]
        | S m => EmptyString :: split_on sep m s'
        end
      else
        match split_on sep maxsplit s' with
        | part :: parts => String c part :: parts
        | [] => [String c EmptyString]
        end
  end.

(** [c.lower()] and [s.lower()], on ASCII. *)
Definition lower_char (c : ascii) : ascii :=
  let n := nat_of_ascii c in
  if (Nat.leb 65 n && Nat.leb n 90)%bool then ascii_of_nat (n + 32) else c.

Fixpoint lower (s : string) : string :=
  match s with
  | EmptyString => EmptyString
  | String c s' => String (lower_char c) (lower s')
  end.

Definition region_prefixes : list string := ["eu"; "us"; "us-gov"; "apac"; "sa"].

(** [BedrockBase._get_provider], from the [provider] and [model_id] fields. *)
Definition _get_provider (provider : option string) (model_id : string) : result string :=
  match nonempty_str provider with
  | Some p => Ok p
  | None =>
      if prefix "arn" model_id then Raise ValueError
      else
        match split_on "."%char 2 model_id with
        | p0 :: p1 :: _ =>
            if existsb (String.eqb (lower p0)) region_prefixes then Ok p1 else Ok p0
        | [p0] => Ok p0
        | [] => Raise IndexError
        end
  end.

(** [parts[-1]] *)
Fixpoint last_part (parts : list string) : result string :=
  match parts with
  | [] => Raise IndexError
  | [p] => Ok p
  | _ :: rest => last_part rest
  end.

(** [BedrockBase._get_base_model] *)
Definition _get_base_model (base_model_id : option string) (model_id : string)
  : result string :=
  match nonempty_str base_model_id with
  | Some b => Ok b
  | None => last_part (split_on "."%char 1 model_id)
  end.

(** [BedrockBase._model_is_anthropic] *)
Definition _model_is_anthropic (provider : option string) (model_id : string)
  : result bool :=
  p <- _get_provider provider model_id ;; Ok (String.eqb p "anthropic").

(** [BedrockLLM.validate_environment_llm]: [Ok tt] stands for returning
    [self]. *)
Definition validate_environment_llm (base_model_id : option string) (model_id : string)
  : result unit :=
  let model_id' :=
    match nonempty_str base_model_id with
    | Some b => b
    | None => model_id
    end in
  if prefix "anthropic.claude-3" model_id' then Raise ValueError else Ok tt.

(** A string without a dot. *)
Fixpoint no_dot (s : string) : bool :=
  match s with
  | EmptyString => true
  | String c s' => negb (Ascii.eqb c "."%char) && no_dot s'
  end.

(** ** Guardrails *)

Definition AMAZON_BEDROCK_TRACE_KEY : string := "amazon-bedrock-trace".
Definition GUARDRAILS_BODY_KEY : string := "amazon-bedrock-guardrailAction".

(** [BedrockBase._guardrails_enabled], from the [guardrails] field: the
    [KeyError] of a missing key is turned into a [TypeError]. *)
Definition _guardrails_enabled (guardrails : pyval) : result bool :=
  match guardrails with
  | PDict g =>
      match lookup "guardrailIdentifier" g with
      | None => Raise TypeError
      | Some i =>
          if truthy i then
            match lookup "guardrailVersion" g with
            | None => Raise TypeError
            | Some v => Ok (truthy v)
            end
          else Ok false
      end
  | _ => Ok false
  end.

(** [BedrockBase._is_guardrails_intervention] *)
Definition _is_guardrails_intervention (body : pyval) : result bool :=
  a <- py_get body GUARDRAILS_BODY_KEY PNone ;; Ok (eq_str a "INTERVENED").

Record services_signal : Type := mkSignal {
  signal : bool;
  reason : pyval;
  trace : pyval
}.

Definition no_signal : services_signal := mkSignal false PNone PNone.

(** [BedrockBase._get_bedrock_services_signal] *)
Definition _get_bedrock_services_signal (guardrails body : pyval)
  : result services_signal :=
  enabled <- _guardrails_enabled guardrails ;;
  if enabled then
    tr <- py_get guardrails "trace" PNone ;;
    if truthy tr then
      intervened <- _is_guardrails_intervention body ;;
      if intervened then
        t <- py_get body AMAZON_BEDROCK_TRACE_KEY PNone ;;
        Ok (mkSignal true (PStr "GUARDRAIL_INTERVENED") t)
      else Ok no_signal
    else Ok no_signal
  else Ok no_signal.

(** The guardrails a model has when none are given. *)
Definition default_guardrails : pyval :=
  PDict [("trace", PNone); ("guardrailIdentifier", PNone); ("guardrailVersion", PNone)].

(** ** Validation of the model arguments *)

(** [d.pop(k)] for a key that is there: the dict without it. *)
Definition dict_pop (k : string) (d : dict) : dict :=
  filter (fun kv => negb (String.eqb k (fst kv))) d.

(** The fields the validator reads and writes. *)
Record model_fields : Type := mkFields {
  f_model_kwargs : option dict;
  f_temperature : pyval;
  f_max_tokens : pyval
}.

Definition is_none (v : pyval) : bool :=
  match v with
  | PNone => true
  | _ => false
  end.

(** The part of [BedrockBase.validate_environment] that moves
    "temperature" and "max_tokens" out of [model_kwargs]. *)
Definition validate_environment (f : model_fields) : model_fields :=
  match f_model_kwargs f with
  | Some (kv :: rest) =>
      let kw := kv :: rest in
      let '(kw1, temperature) :=
        match lookup "temperature" kw with
        | Some v =>
            (dict_pop "temperature" kw,
             if is_none (f_temperature f) then v else f_temperature f)
        | None => (kw, f_temperature f)
        end in
      let '(kw2, max_tokens) :=
        match lookup "max_tokens" kw1 with
        | Some v =>
            (dict_pop "max_tokens" kw1,
             if negb (truthy (f_max_tokens f)) then v else f_max_tokens f)
        | None => (kw1, f_max_tokens f)
        end in
      mkFields (Some kw2) temperature max_tokens
  | _ => f
  end.

(** ** The caller's pre-processing of thinking blocks *)

(** [[j for j, item in enumerate(content) if isinstance(item, dict) and
    item.get("type") in ["thinking", "redacted_thinking"]]], counting
    from [k]. *)
Fixpoint thinking_indices_from (k : nat) (content : list pyval) : list nat :=
  match content with
  | [] => []
  | item :: rest =>
      if is_thinking_block item
      then k :: thinking_indices_from (S k) rest
      else thinking_indices_from (S k) rest
  end.

(** [[item for j, item in enumerate(content) if j not in thinking_blocks]],
    counting from [k]. *)
Fixpoint others_from (k : nat) (thinking_blocks : list nat) (content : list pyval)
  : list pyval :=
  match content with
  | [] => []
  | item :: rest =>
      if existsb (Nat.eqb k) thinking_blocks
      then others_from (S k) thinking_blocks rest
      else item :: others_from (S k) thinking_blocks rest
  end.

(** The content a message gets in the loop of [_prepare_input_and_invoke]:
    [None] when it is left as it is. *)
Definition ordered_content (content : list pyval) : option (list pyval) :=
  let thinking_blocks := thinking_indices_from 0 content in
  match thinking_blocks with
  | j0 :: _ =>
      if Nat.ltb 0 j0
      then Some (map (fun j => nth j content PNone) thinking_blocks
                 ++ others_from 0 thinking_blocks content)%list
      else None
  | [] => None
  end.



Definition not_thinking_block (b : pyval) : bool := negb (is_thinking_block b).

(** ** The arguments of a streaming call *)

Definition provider_stop_sequence_key_name_map : list (string * string) :=
  [("anthropic", "stop_sequences"); ("amazon", "stopSequences");
   ("ai21", "stop_sequences"); ("cohere", "stop_sequences");
   ("mistral", "stop_sequences")].

(** [{**a, **b}] *)
Definition dict_merge (a b : dict) : dict :=
  fold_left (fun d kv => dict_set (fst kv) (snd kv) d) b a.

(** The start of [_prepare_input_and_invoke_stream] and of
    [_aprepare_input_and_invoke_stream], up to [params]: the arguments
    sent, and the model's [model_kwargs] field as the call leaves it.
    [self.model_kwargs or {}] is the field's own dict when that is not
    empty, so what is written into it stays in the field. *)
Definition stream_params (self_model_kwargs : option dict) (provider : string)
    (stop : option (list string)) (kwargs : dict) : result (dict * option dict) :=
  let owned := match self_model_kwargs with Some (_ :: _) => true | _ => false end in
  let _model_kwargs := match self_model_kwargs with Some d => d | None => [] end in
  kw1 <-
    match stop with
    | Some (s :: ss) =>
        match output_key_of provider provider_stop_sequence_key_name_map with
        | None => Raise ValueError
        | Some k =>
            if String.eqb k "" then Ok _model_kwargs
            else Ok (dict_set k (PList (map PStr (s :: ss))) _model_kwargs)
        end
    | _ => Ok _model_kwargs
    end ;;
  let kw2 :=
    if String.eqb provider "cohere" then dict_set "stream" (PBool true) kw1 else kw1 in
  Ok (dict_merge kw2 kwargs, if owned then Some kw2 else self_model_kwargs).

(** The chunk of an event outside the messages protocol, for a provider
    that gives its text directly. *)
Definition plain_chunk (output_key : string) (d : dict) : chunk :=
  GenerationChunk (field_or output_key PNone (PDict d))
    (filter (not_in_keys (dropped_keys output_key)) d).

Definition decoded_event (d : dict) : event := Some (Decoded (PDict d)).

(** The event holds a str under the output key. *)
Definition has_text (output_key : string) (d : dict) : bool :=
  match lookup output_key d with
  | Some (PStr _) => true
  | _ => false
  end.

(** ** Prompts without a colon

    Both role markers end in a colon, so a text without one holds no
    marker, whatever else it holds (newlines included). *)

Fixpoint no_colon (s : string) : bool :=
  match s with
  | EmptyString => true
  | String c s' => negb (Ascii.eqb c ":") && no_colon s'
  end.

(** No colon among the first [n] characters. *)
Fixpoint colon_free (n : nat) (s : string) : bool :=
  match n, s with
  | S n', String c s' => negb (Ascii.eqb c ":") && colon_free n' s'
  | _, _ => true
  end.

(** The last character is a colon. *)
Fixpoint ends_colon (w : string) : bool :=
  match w with
  | EmptyString => false
  | String c EmptyString => Ascii.eqb c ":"
  | String _ w' => ends_colon w'
  end.

(** The alternation scan by recursion on the text that is left: [scan_at]
    is one iteration of the loop, seen from the index it stands at. *)
Definition scan_at (msg rest : string) (st : scan_state) : scan_state :=
  let st1 :=
    if prefix HUMAN_PROMPT rest
    then if Nat.eqb (Nat.modulo (scan_count st) 2) 0 then incr st else warn st msg
    else st in
  if prefix ASSISTANT_PROMPT rest
  then if Nat.eqb (Nat.modulo (scan_count st1) 2) 1 then incr st1 else warn st1 msg
  else st1.

Fixpoint scan_suffixes (msg rest : string) (st : scan_state) : scan_state :=
  match rest with
  | EmptyString => st
  | String _ rest' => scan_suffixes msg rest' (scan_at msg rest st)
  end.

(** ** The caller's messages as objects

    A Python list holds references to objects.  [heap] is the dict
    objects a caller has, by number; [refs] is the list: the number of an
    object at each position.  The same number at two positions is one
    object listed twice. *)
Definition deref (heap : list pyval) (r : nat) : pyval := nth r heap PNone.

(** The list as [for m in messages] sees it. *)
Definition listed (heap : list pyval) (refs : list nat) : list pyval :=
  map (deref heap) refs.

(** The object numbered [r] takes the value [v]. *)
Fixpoint store (r : nat) (v : pyval) (heap : list pyval) {struct heap} : list pyval :=
  match heap with
  | [] => []
  | x :: heap' =>
      match r with
      | O => v :: heap'
      | S r' => x :: store r' v heap'
      end
  end.

(** The block under [if thinking_enabled:] in [prepare_input] on such a
    list.  [messages[-2]["content"] = new_content] writes into the object
    at the second-to-last position; the result is the objects after the
    block has run.  [thinking_first] is this block on a list that holds
    every object once. *)
Definition thinking_first_objects (heap : list pyval) (refs : list nat)
  : result (list pyval) :=
  match split_last2 refs with
  | None => Ok heap
  | Some (_, a, l) =>
      let asst := deref heap a in
      let last := deref heap l in
      r1 <- py_item last "role" ;;
      if negb (eq_str r1 "user") then Ok heap
      else
        r2 <- py_item asst "role" ;;
        if negb (eq_str r2 "assistant") then Ok heap
        else
          last_user_msg <- py_get last "content" (PList []) ;;
          let tool_result :=
            match last_user_msg with
            | PList items => existsb is_tool_result items
            | _ => false
            end in
          if tool_result then
            asst_content <- py_get asst "content" (PList []) ;;
            new_content <- reordered_content asst_content ;;
            match new_content with
            | Some blocks =>
                asst' <- py_setitem asst "content" (PList blocks) ;;
                Ok (store a asst' heap)
            | None => Ok heap
            end
          else Ok heap
  end.

(** The position of [messages[-2]]. *)
Definition second_to_last (refs : list nat) : nat := (List.length refs - 2)%nat.

(** An assistant message listed twice, at the first and at the
    second-to-last position, before the user's tool result. *)
Definition shared_heap : list pyval := [sample_assistant; sample_tool_result].

Definition shared_refs : list nat := [0; 0; 1]%nat.

Definition shared_heap_after : list pyval :=
  [with_content sample_assistant [sample_thinking_block; sample_text_block];
   sample_tool_result].

(** * Properties *)

(** ** The alternation formatter *)

(** C6: on the input "Hello" the alternation formatter returns the human
    marker (two newlines, "Human:"), a space, the text and the assistant
    marker (two newlines, "Assistant:"), and issues no warning. *)
Theorem human_assistant_format_hello :
  _human_assistant_format "Hello"
  = (nl ++ nl ++ "Human: Hello" ++ nl ++ nl ++ "Assistant:", []).
Proof. vm_compute. reflexivity. Qed.

(** ** The usage aggregator *)

Lemma bind_ok {A B : Type} (m : result A) (k : A -> result B) (b : B) :
  bind m k = Ok b -> exists a, m = Ok a /\ k a = Ok b.
Proof. destruct m as [a|e]; simpl; intro H; [eauto | discriminate]. Qed.

Lemma bind_raise {A B : Type} (m : result A) (k : A -> result B) (e : exn) :
  bind m k = Raise e -> m = Raise e \/ exists a, m = Ok a /\ k a = Raise e.
Proof.
  destruct m as [a|e']; simpl; intro H; [right; eauto | left; congruence].
Qed.

(** The totals of the loop do not depend on the stop reason it carries. *)
Lemma combine_loop_counts (code : option string) (l : list dict) :
  forall st,
    combine_loop code st l
    = match combine_loop None (mkCombine (acc_prompt st) (acc_completion st) PNone) l with
      | Ok st' =>
          Ok (mkCombine (acc_prompt st') (acc_completion st')
                (match code with
                 | Some field =>
                     match last_present field l with
                     | Some v => v
                     | None => acc_stop st
                     end
                 | None => acc_stop st
                 end))
      | Raise e => Raise e
      end.
Proof.
  induction l as [|g rest IH]; intros [p c s]; simpl.
  - destruct code; reflexivity.
  - unfold combine_step; simpl.
    destruct (count_tokens g (p, c)) as [[p' c']|e]; simpl; [|reflexivity].
    rewrite IH; simpl.
    destruct (combine_loop None (mkCombine p' c' PNone) rest) as [st'|e];
      [|reflexivity].
    destruct code as [field|]; simpl; [|reflexivity].
    destruct (last_present field rest); [reflexivity|].
    destruct (lookup field g); reflexivity.
Qed.

(** C5, as the code has it: the stop reason is the value under the field
    name in the last map that has the field name as a key, empty or not,
    and the empty string when no map has it (or no field name is given);
    the aggregator returns exactly when the token counts add up, whatever
    the field name. *)
Theorem combine_stop_reason_last_present (l : list dict) (code : option string) :
  _combine_generation_info_for_llm_result l code
  = match _combine_generation_info_for_llm_result l None with
    | Ok r => Ok (mkInfo (usage r) (last_stop_reason code l))
    | Raise e => Raise e
    end.
Proof.
  unfold _combine_generation_info_for_llm_result.
  rewrite (combine_loop_counts None l (mkCombine 0 0 (PStr ""))).
  rewrite (combine_loop_counts code l (mkCombine 0 0 (PStr ""))); simpl.
  destruct (combine_loop None (mkCombine 0 0 PNone) l) as [st|e]; simpl;
    [|reflexivity].
  unfold last_stop_reason.
  destruct code as [field|]; [destruct (last_present field l)|]; reflexivity.
Qed.

(** C5 as stated fails: a later empty value under the field name replaces
    an earlier non-empty one. *)
Lemma combine_stop_reason_not_last_nonempty :
  let l := [[("stop_reason", PStr "end_turn")]; [("stop_reason", PStr "")]] in
  _combine_generation_info_for_llm_result l (Some "stop_reason")
  = Ok (mkInfo (mkUsage 0 0 0) (PStr ""))
  /\ spec_stop_reason "stop_reason" l = PStr "end_turn"
  /\ ~ (forall r, _combine_generation_info_for_llm_result l (Some "stop_reason") = Ok r ->
                  stop_reason r = spec_stop_reason "stop_reason" l).
Proof.
  simpl. split; [reflexivity|]. split; [reflexivity|].
  intro H. specialize (H _ eq_refl). discriminate H.
Qed.

(** C9: two metadata chunks with token counts 10/5 and 0/3, given as
    invocation metrics or as one-element arrays under "usage", combine to
    prompt_tokens 10, completion_tokens 8 and total_tokens 18; and whatever
    the aggregator returns has total_tokens = prompt_tokens +
    completion_tokens. *)
Theorem combine_usage_totals :
  (forall code,
      exists s,
        _combine_generation_info_for_llm_result
          [[("amazon-bedrock-invocationMetrics",
             PDict [("inputTokenCount", PInt 10); ("outputTokenCount", PInt 5)])];
           [("amazon-bedrock-invocationMetrics",
             PDict [("inputTokenCount", PInt 0); ("outputTokenCount", PInt 3)])]]
          code
        = Ok (mkInfo (mkUsage 10 8 18) s))
  /\ (forall code,
      exists s,
        _combine_generation_info_for_llm_result
          [[("usage", PDict [("input_tokens", PList [PInt 10]);
                             ("output_tokens", PList [PInt 5])])];
           [("usage", PDict [("input_tokens", PList [PInt 0]);
                             ("output_tokens", PList [PInt 3])])]]
          code
        = Ok (mkInfo (mkUsage 10 8 18) s))
  /\ (forall l code r,
      _combine_generation_info_for_llm_result l code = Ok r ->
      total_tokens (usage r) = prompt_tokens (usage r) + completion_tokens (usage r)).
Proof.
  split; [|split].
  - intro code. unfold _combine_generation_info_for_llm_result.
    rewrite (combine_loop_counts code). simpl. eauto.
  - intro code. unfold _combine_generation_info_for_llm_result.
    rewrite (combine_loop_counts code). simpl. eauto.
  - intros l code r H. unfold _combine_generation_info_for_llm_result in H.
    apply bind_ok in H. destruct H as [st [_ H]].
    injection H as <-. reflexivity.
Qed.

Lemma combine_usage_totals_witness :
  total_tokens (usage (mkInfo (mkUsage 10 5 15) (PStr "")))
  = prompt_tokens (usage (mkInfo (mkUsage 10 5 15) (PStr "")))
    + completion_tokens (usage (mkInfo (mkUsage 10 5 15) (PStr ""))).
Proof.
  apply (proj2 (proj2 combine_usage_totals)
           [[("amazon-bedrock-invocationMetrics",
              PDict [("inputTokenCount", PInt 10); ("outputTokenCount", PInt 5)])]]
           None).
  reflexivity.
Defined.

(** Every exception of the token-count blocks is a type error. *)
Lemma sum_from_error (l : list pyval) :
  forall acc e, sum_from acc l = Raise e -> e = TypeError.
Proof.
  induction l as [|x l IH]; intros acc e; simpl; [discriminate|].
  destruct x; simpl; try (intro H; congruence); apply IH.
Qed.

Lemma add_sum_error (total : Z) (v : pyval) (e : exn) :
  add_sum total v = Raise e -> e = TypeError.
Proof.
  unfold add_sum, py_sum.
  destruct v; simpl; try (intro H; congruence);
    match goal with
    | |- context [sum_from 0 ?l] =>
        destruct (sum_from 0 l) eqn:E; simpl; [discriminate|];
        intro H; injection H as <-; exact (sum_from_error _ _ _ E)
    end.
Qed.

Lemma int_add_error (total : Z) (v : pyval) (e : exn) :
  int_add total v = Raise e -> e = TypeError.
Proof. destruct v; simpl; intro H; congruence. Qed.

Lemma add_if_present_error (usage_info : pyval) (key : string)
    (amount : Z -> pyval -> result Z) (total : Z) (e : exn) :
  (forall t v e', amount t v = Raise e' -> e' = TypeError) ->
  add_if_present usage_info key amount total = Raise e -> e = TypeError.
Proof.
  intros Hamount. unfold add_if_present.
  destruct usage_info as [| | | s | l | d]; simpl; try (intro H; congruence).
  - destruct (PyStr.contains key s); simpl; intro H; congruence.
  - destruct (existsb _ l); simpl; intro H; congruence.
  - unfold has_key. destruct (lookup key d); simpl; [apply Hamount | discriminate].
Qed.

Lemma count_tokens_error (g : dict) (t : Z * Z) (e : exn) :
  count_tokens g t = Raise e -> e = TypeError.
Proof.
  unfold count_tokens. intro H.
  apply bind_raise in H. destruct H as [H | [t1 [_ H]]].
  - destruct (lookup "usage" g) as [ui|]; [|discriminate].
    apply bind_raise in H. destruct H as [H | [p [_ H]]];
      [exact (add_if_present_error _ _ _ _ _ add_sum_error H)|].
    apply bind_raise in H. destruct H as [H | [c [_ H]]];
      [exact (add_if_present_error _ _ _ _ _ add_sum_error H) | discriminate].
  - destruct (lookup "amazon-bedrock-invocationMetrics" g) as [ui|]; [|discriminate].
    apply bind_raise in H. destruct H as [H | [p [_ H]]];
      [exact (add_if_present_error _ _ _ _ _ int_add_error H)|].
    apply bind_raise in H. destruct H as [H | [c [_ H]]];
      [exact (add_if_present_error _ _ _ _ _ int_add_error H) | discriminate].
Qed.

Lemma add_sum_scalar (u : dict) (key : string) (v : pyval) (total : Z) :
  lookup key u = Some v -> is_scalar v = true ->
  add_if_present (PDict u) key add_sum total = Raise TypeError.
Proof.
  intros Hk Hv. unfold add_if_present; simpl. unfold has_key. rewrite Hk; simpl.
  destruct v; try discriminate; reflexivity.
Qed.

Lemma count_tokens_scalar (g u : dict) (key : string) (v : pyval) (t : Z * Z) :
  lookup "usage" g = Some (PDict u) ->
  key = "input_tokens" \/ key = "output_tokens" ->
  lookup key u = Some v -> is_scalar v = true ->
  count_tokens g t = Raise TypeError.
Proof.
  intros Hu Hkey Hk Hv. unfold count_tokens. rewrite Hu.
  destruct Hkey as [-> | ->].
  - rewrite (add_sum_scalar _ _ _ _ Hk Hv). reflexivity.
  - destruct (add_if_present (PDict u) "input_tokens" add_sum (fst t)) as [p|e] eqn:E;
      simpl.
    + rewrite (add_sum_scalar _ _ _ _ Hk Hv). reflexivity.
    + rewrite (add_if_present_error _ _ _ _ _ add_sum_error E). reflexivity.
Qed.

(** C10: a metadata map whose "usage" entry has a scalar under
    "input_tokens" or "output_tokens" makes the aggregator fail with a type
    error, wherever the map is in the list; scalar counts under
    "amazon-bedrock-invocationMetrics" are added. *)
Theorem combine_usage_scalar_type_error :
  (forall (l : list dict) (code : option string) (g u : dict) (key : string) (v : pyval),
      In g l ->
      lookup "usage" g = Some (PDict u) ->
      key = "input_tokens" \/ key = "output_tokens" ->
      lookup key u = Some v ->
      is_scalar v = true ->
      _combine_generation_info_for_llm_result l code = Raise TypeError)
  /\ (forall n m : Z,
      _combine_generation_info_for_llm_result
        [[("amazon-bedrock-invocationMetrics",
           PDict [("inputTokenCount", PInt n); ("outputTokenCount", PInt m)])]]
        None
      = Ok (mkInfo (mkUsage n m (n + m)) (PStr ""))).
Proof.
  split.
  - intros l code g u key v Hin Hu Hkey Hk Hv.
    unfold _combine_generation_info_for_llm_result.
    assert (H : forall st, combine_loop code st l = Raise TypeError).
    { induction l as [|g' rest IH]; [destruct Hin|].
      intros st. simpl. unfold combine_step.
      destruct (count_tokens g' (acc_prompt st, acc_completion st)) as [t|e] eqn:E;
        simpl.
      - destruct Hin as [-> | Hin].
        + rewrite (count_tokens_scalar _ _ _ _ _ Hu Hkey Hk Hv) in E. discriminate.
        + apply IH, Hin.
      - rewrite (count_tokens_error _ _ _ E). reflexivity. }
    rewrite H. reflexivity.
  - intros n m. reflexivity.
Qed.

Lemma combine_usage_scalar_type_error_witness :
  _combine_generation_info_for_llm_result
    [[("usage", PDict [("input_tokens", PInt 10); ("output_tokens", PInt 5)])]]
    (Some "stop_reason")
  = Raise TypeError.
Proof.
  apply (proj1 combine_usage_scalar_type_error
           [[("usage", PDict [("input_tokens", PInt 10); ("output_tokens", PInt 5)])]]
           (Some "stop_reason")
           [("usage", PDict [("input_tokens", PInt 10); ("output_tokens", PInt 5)])]
           [("input_tokens", PInt 10); ("output_tokens", PInt 5)]
           "input_tokens" (PInt 10)).
  - simpl. left. reflexivity.
  - reflexivity.
  - left. reflexivity.
  - reflexivity.
  - reflexivity.
Defined.

(** ** The response parser *)

Lemma header_count_dict (headers : pyval) (name : string) (z : Z) :
  header_count headers name = Ok z ->
  exists hdrs, headers = PDict hdrs /\ header_or_zero hdrs name = Ok z.
Proof.
  unfold header_count, header_or_zero.
  destruct headers as [| | | | |hdrs]; simpl; try discriminate.
  intro H. exists hdrs. split; [reflexivity|].
  destruct (lookup name hdrs); exact H.
Qed.

(** C8: whatever the provider, the usage record of a parsed response holds
    the four token-count headers of the response's header map, each read
    as an integer and taken as 0 when absent, and total_tokens is
    prompt_tokens + cache_read_input_tokens + completion_tokens. *)
Theorem prepare_output_usage_from_headers
    (provider : string) (response : invoke_response) (r : parsed_output) :
  prepare_output provider response = Ok r ->
  exists hdrs : dict,
    response_headers response = Ok (PDict hdrs)
    /\ header_or_zero hdrs "x-amzn-bedrock-input-token-count"
       = Ok (u_prompt_tokens (out_usage r))
    /\ header_or_zero hdrs "x-amzn-bedrock-output-token-count"
       = Ok (u_completion_tokens (out_usage r))
    /\ header_or_zero hdrs "x-amzn-bedrock-cache-read-input-token-count"
       = Ok (u_cache_read_input_tokens (out_usage r))
    /\ header_or_zero hdrs "x-amzn-bedrock-cache-write-input-token-count"
       = Ok (u_cache_write_input_tokens (out_usage r))
    /\ u_total_tokens (out_usage r)
       = u_prompt_tokens (out_usage r) + u_cache_read_input_tokens (out_usage r)
         + u_completion_tokens (out_usage r).
Proof.
  unfold prepare_output. intro H.
  apply bind_ok in H. destruct H as [response_body [_ H]].
  apply bind_ok in H. destruct H as [[[text thinking] tool_calls] [_ H]].
  apply bind_ok in H. destruct H as [headers [Hh H]].
  apply bind_ok in H. destruct H as [p [Hp H]].
  apply bind_ok in H. destruct H as [c [Hc H]].
  apply bind_ok in H. destruct H as [cr [Hcr H]].
  apply bind_ok in H. destruct H as [cw [Hcw H]].
  apply bind_ok in H. destruct H as [sr [_ H]].
  injection H as <-. simpl.
  destruct (header_count_dict _ _ _ Hp) as [hdrs [-> Hp']].
  exists hdrs. split; [exact Hh|]. split; [exact Hp'|].
  destruct (header_count_dict _ _ _ Hc) as [h1 [E1 Hc']]. injection E1 as <-.
  destruct (header_count_dict _ _ _ Hcr) as [h2 [E2 Hcr']]. injection E2 as <-.
  destruct (header_count_dict _ _ _ Hcw) as [h3 [E3 Hcw']]. injection E3 as <-.
  repeat split; assumption.
Qed.

Lemma prepare_output_usage_from_headers_witness :
  exists hdrs : dict,
    response_headers sample_response = Ok (PDict hdrs)
    /\ header_or_zero hdrs "x-amzn-bedrock-input-token-count" = Ok 10
    /\ header_or_zero hdrs "x-amzn-bedrock-output-token-count" = Ok 5
    /\ header_or_zero hdrs "x-amzn-bedrock-cache-read-input-token-count" = Ok 0
    /\ header_or_zero hdrs "x-amzn-bedrock-cache-write-input-token-count" = Ok 0
    /\ 15 = 10 + 0 + 5.
Proof.
  apply (prepare_output_usage_from_headers "anthropic" sample_response sample_output).
  vm_compute. reflexivity.
Defined.

(** ** The stream decoders *)

Lemma metrics_count_app (a b : list (yield_site * chunk)) :
  metrics_count (a ++ b) = (metrics_count a + metrics_count b)%nat.
Proof.
  unfold metrics_count. induction a as [|y a IH]; simpl; [reflexivity|].
  destruct (is_metrics y); simpl; rewrite IH; reflexivity.
Qed.

Lemma metrics_count_converted (g : option chunk) : metrics_count (converted g) = 0%nat.
Proof. destruct g; reflexivity. Qed.

(** A generator that ended before its stream ran out never looks at what
    comes later in the stream. *)
Lemma drain_extend (body : event -> step) (events more : list event) :
  ended (drain body events) <> Exhausted ->
  drain body (events ++ more) = drain body events.
Proof.
  induction events as [|ev rest IH]; simpl; intro H.
  - exfalso. apply H. reflexivity.
  - destruct (after (body ev)); simpl in *; try reflexivity.
    rewrite (IH H). reflexivity.
Qed.

Lemma drain_consumed (body : event -> step) (events : list event) :
  (consumed (drain body events) <= List.length events)%nat.
Proof.
  induction events as [|ev rest IH]; simpl; [lia|].
  destruct (after (body ev)); simpl; lia.
Qed.

(** The structural tests are the tests of the decoder. *)
Lemma sentinel_value_writer (provider output_key : string) (chunk_obj : pyval) :
  String.eqb provider "writer" && eq_str chunk_obj "[DONE]" = true ->
  sentinel_value provider output_key chunk_obj = Some true.
Proof. intro H. unfold sentinel_value. rewrite H. reflexivity. Qed.

Lemma sentinel_value_cohere (provider output_key : string) (chunk_obj : pyval) :
  String.eqb provider "writer" && eq_str chunk_obj "[DONE]" = false ->
  sentinel_value provider output_key chunk_obj
  = match (if String.eqb provider "cohere"
           then cohere_finished chunk_obj output_key else Ok false) with
    | Ok b => Some b
    | Raise _ => None
    end.
Proof.
  intro H. unfold sentinel_value. rewrite H.
  destruct (String.eqb provider "cohere"); [|reflexivity].
  unfold cohere_finished, py_item.
  destruct chunk_obj as [| | | | |d]; try reflexivity.
  destruct (lookup "is_finished" d) as [fin|]; [|reflexivity]. cbn [bind].
  destruct (truthy fin); [reflexivity|].
  destruct (lookup output_key d); reflexivity.
Qed.

Lemma first_option_output (output_key : string) (d : dict) :
  match first_option output_key d with
  | Some o => first_output (PDict d) output_key = Ok (PDict o)
  | None =>
      match first_output (PDict d) output_key with
      | Ok (PDict _) => False
      | _ => True
      end
  end.
Proof.
  unfold first_option, first_output, py_get. cbn [bind].
  destruct (lookup output_key d) as [[| | |s|l|]|]; try exact I; try reflexivity.
  - destruct s; exact I.
  - destruct l as [|[| | | | |o] l]; try exact I. reflexivity.
Qed.

Lemma stop_value_reached (provider output_key : string) (messages_api : bool)
    (chunk_obj : pyval) :
  stop_value provider output_key messages_api chunk_obj
  = match stop_reached provider chunk_obj output_key messages_api with
    | Ok b => Some b
    | Raise _ => None
    end.
Proof.
  unfold stop_value, stop_reached, mistral_stopped.
  destruct chunk_obj as [| | | | |d].
  1-5: cbn [existsb orb];
       destruct (String.eqb provider "deepseek"); [reflexivity|];
       destruct (String.eqb provider "mistral"); [reflexivity|];
       destruct (String.eqb provider "meta"); [reflexivity|];
       destruct messages_api; reflexivity.
  pose proof (first_option_output output_key d) as F.
  destruct (String.eqb provider "deepseek").
  { destruct (first_option output_key d) as [o|].
    - rewrite F. unfold py_get, get_or. cbn [bind].
      destruct (in_strs _ _); reflexivity.
    - destruct (first_output (PDict d) output_key) as [[| | | | |o]|];
        try reflexivity. contradiction. }
  destruct (String.eqb provider "mistral") eqn:M.
  { apply String.eqb_eq in M. subst provider.
    destruct (first_option output_key d) as [o|].
    - rewrite F. unfold py_get, get_or. cbn [bind].
      destruct (eq_str _ "stop"); [reflexivity|]. cbn [orb].
      destruct messages_api; reflexivity.
    - destruct (first_output (PDict d) output_key) as [[| | | | |o]|];
        try reflexivity. contradiction. }
  cbn [bind]. destruct (String.eqb provider "meta").
  - unfold py_get, get_or. cbn [bind].
    destruct (eq_str _ "stop"); [reflexivity|]. cbn [orb].
    destruct messages_api; reflexivity.
  - cbn [bind]. unfold py_get, get_or. destruct messages_api; reflexivity.
Qed.

(** A stop or a sentinel is met only where the decoder has an output
    key. *)
Lemma stop_value_has_key (provider : string) (messages_api : bool) (chunk_obj : pyval) :
  stop_value provider (sync_output_key provider messages_api) messages_api chunk_obj
  = Some true ->
  String.eqb (sync_output_key provider messages_api) "" = false.
Proof.
  unfold sync_output_key. destruct messages_api; [reflexivity|].
  unfold stop_value. cbn [andb orb existsb].
  destruct (String.eqb provider "deepseek") eqn:D.
  { apply String.eqb_eq in D. subst provider. reflexivity. }
  destruct (String.eqb provider "mistral") eqn:M.
  { apply String.eqb_eq in M. subst provider. reflexivity. }
  destruct (String.eqb provider "meta") eqn:T.
  { apply String.eqb_eq in T. subst provider. reflexivity. }
  destruct chunk_obj; discriminate.
Qed.

Lemma sentinel_value_has_key (provider : string) (messages_api : bool)
    (chunk_obj : pyval) :
  sentinel_value provider (sync_output_key provider messages_api) chunk_obj = Some true ->
  String.eqb (sync_output_key provider messages_api) "" = false.
Proof.
  unfold sync_output_key. destruct messages_api; [reflexivity|].
  unfold sentinel_value.
  destruct (String.eqb provider "writer") eqn:W.
  { apply String.eqb_eq in W. subst provider. reflexivity. }
  cbn [andb].
  destruct (String.eqb provider "cohere") eqn:C; [|discriminate].
  apply String.eqb_eq in C. subst provider. reflexivity.
Qed.

(** What the loop body of the synchronous decoder does with an event:
    the three ways it has of not raising. *)
Lemma sync_body_goes_by (provider output_key : string) (messages_api coerce : bool)
    (ev : event) :
  goes_by provider output_key messages_api coerce ev = true ->
  after (sync_body provider output_key messages_api coerce ev) = Next
  /\ metrics_count (emitted (sync_body provider output_key messages_api coerce ev))
     = 0%nat.
Proof.
  destruct ev as [[chunk_obj| |]|]; cbn [goes_by sync_body];
    try discriminate; [|split; reflexivity].
  destruct (String.eqb provider "writer" && eq_str chunk_obj "[DONE]") eqn:W.
  { rewrite (sentinel_value_writer _ _ _ W). discriminate. }
  rewrite (sentinel_value_cohere _ _ _ W), stop_value_reached.
  destruct (if String.eqb provider "cohere" then _ else _) as [[|]|];
    try discriminate.
  destruct (stop_reached provider chunk_obj output_key messages_api) as [[|]|];
    try discriminate.
  destruct (_stream_response_to_generation_chunk _ _ _ _ _) as [g|];
    try discriminate.
  intros _. split; [reflexivity | apply metrics_count_converted].
Qed.

Lemma sync_body_stop (provider output_key : string) (messages_api coerce : bool)
    (chunk_obj : pyval) (g : option chunk) (mc : chunk) :
  sentinel_value provider output_key chunk_obj = Some false ->
  stop_value provider output_key messages_api chunk_obj = Some true ->
  _stream_response_to_generation_chunk chunk_obj provider output_key messages_api coerce
  = Ok g ->
  _get_invocation_metrics_chunk chunk_obj = Ok mc ->
  sync_body provider output_key messages_api coerce (Some (Decoded chunk_obj))
  = mkStep (converted g ++ [(YieldMetrics, mc)]) (Return Terminal).
Proof.
  intros Hs Ht Hc Hm. cbn [sync_body].
  destruct (String.eqb provider "writer" && eq_str chunk_obj "[DONE]") eqn:W.
  { rewrite (sentinel_value_writer _ _ _ W) in Hs. discriminate. }
  rewrite (sentinel_value_cohere _ _ _ W) in Hs. rewrite stop_value_reached in Ht.
  destruct (if String.eqb provider "cohere" then _ else _) as [[|]|];
    try discriminate.
  rewrite Hc.
  destruct (stop_reached provider chunk_obj output_key messages_api) as [[|]|];
    try discriminate.
  rewrite Hm. reflexivity.
Qed.

Lemma sync_body_sentinel (provider output_key : string) (messages_api coerce : bool)
    (chunk_obj : pyval) :
  sentinel_value provider output_key chunk_obj = Some true ->
  sync_body provider output_key messages_api coerce (Some (Decoded chunk_obj))
  = mkStep [] (Return Sentinel).
Proof.
  intros Hs. cbn [sync_body].
  destruct (String.eqb provider "writer" && eq_str chunk_obj "[DONE]") eqn:W;
    [reflexivity|].
  rewrite (sentinel_value_cohere _ _ _ W) in Hs.
  destruct (if String.eqb provider "cohere" then _ else _) as [[|]|];
    try discriminate.
  reflexivity.
Qed.

(** What the loop body of the synchronous decoder can do with an event. *)
Lemma sync_body_shape (provider output_key : string) (messages_api coerce : bool)
    (ev : event) :
  let s := sync_body provider output_key messages_api coerce ev in
  match after s with
  | Next =>
      goes_by provider output_key messages_api coerce ev = true
      /\ metrics_count (emitted s) = 0%nat
  | Return Terminal =>
      exists chunk_obj g mc,
        ev = Some (Decoded chunk_obj)
        /\ sentinel_value provider output_key chunk_obj = Some false
        /\ stop_value provider output_key messages_api chunk_obj = Some true
        /\ _stream_response_to_generation_chunk chunk_obj provider output_key
             messages_api coerce = Ok g
        /\ _get_invocation_metrics_chunk chunk_obj = Ok mc
        /\ emitted s = (converted g ++ [(YieldMetrics, mc)])%list
  | Return Sentinel =>
      exists chunk_obj,
        ev = Some (Decoded chunk_obj)
        /\ sentinel_value provider output_key chunk_obj = Some true
        /\ emitted s = []
  | Return _ => False
  | Throw _ => metrics_count (emitted s) = 0%nat
  end.
Proof.
  destruct ev as [[chunk_obj| |]|]; cbn [sync_body goes_by after emitted];
    try reflexivity; [|split; reflexivity].
  destruct (String.eqb provider "writer" && eq_str chunk_obj "[DONE]") eqn:W.
  { cbn [after emitted]. exists chunk_obj.
    rewrite (sentinel_value_writer _ _ _ W). repeat split. }
  pose proof (sentinel_value_cohere provider output_key chunk_obj W) as SV.
  pose proof (stop_value_reached provider output_key messages_api chunk_obj) as TV.
  destruct (if String.eqb provider "cohere" then _ else _) as [[|]|e];
    cbn [after emitted]; try reflexivity.
  { exists chunk_obj. repeat split. exact SV. }
  rewrite SV.
  destruct (_stream_response_to_generation_chunk _ _ _ _ _) as [g|e] eqn:G;
    cbn [after emitted]; [|reflexivity].
  destruct (stop_reached provider chunk_obj output_key messages_api) as [[|]|e];
    cbn [after emitted]; try apply metrics_count_converted.
  - destruct (_get_invocation_metrics_chunk chunk_obj) as [mc|e] eqn:M;
      cbn [after emitted]; [|apply metrics_count_converted].
    exists chunk_obj, g, mc. repeat split; assumption.
  - rewrite TV. split; [reflexivity | apply metrics_count_converted].
Qed.

Section SyncDrain.

Variables provider output_key : string.
Variables messages_api coerce : bool.

Let body := sync_body provider output_key messages_api coerce.

(** Events the decoder goes past are read to the last one; what it does
    with the rest of the stream does not depend on them. *)
Lemma sync_drain_goes_by (pre tail : list event) :
  forallb (goes_by provider output_key messages_api coerce) pre = true ->
  drain body (pre ++ tail)
  = mkRun (yielded (drain body pre) ++ yielded (drain body tail))
          (List.length pre + consumed (drain body tail))
          (ended (drain body tail))
  /\ metrics_count (yielded (drain body pre)) = 0%nat
  /\ ended (drain body pre) = Exhausted.
Proof.
  induction pre as [|ev pre IH]; intro H.
  - cbn [app List.length Nat.add drain yielded]. destruct (drain body tail).
    repeat split.
  - cbn [forallb] in H. apply andb_prop in H. destruct H as [H1 H2].
    destruct (sync_body_goes_by _ _ _ _ _ H1) as [A M]. fold body in A, M.
    destruct (IH H2) as [E [P X]].
    cbn [app drain]. rewrite A, E. cbn [yielded consumed ended List.length].
    split; [|split].
    + rewrite app_assoc. reflexivity.
    + rewrite metrics_count_app, M, P. reflexivity.
    + exact X.
Qed.

(** How a run can have ended, and what the stream was like then. *)
Lemma sync_drain_cases (events : list event) :
  let r := drain body events in
  match ended r with
  | Exhausted =>
      forallb (goes_by provider output_key messages_api coerce) events = true
  | Terminal =>
      exists pre chunk_obj post g mc,
        events = (pre ++ Some (Decoded chunk_obj) :: post)%list
        /\ forallb (goes_by provider output_key messages_api coerce) pre = true
        /\ sentinel_value provider output_key chunk_obj = Some false
        /\ stop_value provider output_key messages_api chunk_obj = Some true
        /\ _stream_response_to_generation_chunk chunk_obj provider output_key
             messages_api coerce = Ok g
        /\ _get_invocation_metrics_chunk chunk_obj = Ok mc
  | Sentinel =>
      exists pre chunk_obj post,
        events = (pre ++ Some (Decoded chunk_obj) :: post)%list
        /\ forallb (goes_by provider output_key messages_api coerce) pre = true
        /\ sentinel_value provider output_key chunk_obj = Some true
  | Raised _ => metrics_count (yielded r) = 0%nat
  | NoStream | Quiet => False
  end.
Proof.
  induction events as [|ev rest IH]; [reflexivity|].
  pose proof (sync_body_shape provider output_key messages_api coerce ev) as S.
  cbn zeta in S. fold body in S. cbn [drain].
  destruct (after (body ev)) as [|why|e] eqn:A; cbn [ended yielded].
  - destruct S as [G M]. cbn zeta in IH.
    destruct (ended (drain body rest)) eqn:E.
    + cbn [forallb]. rewrite G, IH. reflexivity.
    + exact IH.
    + destruct IH as [pre [chunk_obj [post [E1 [E2 E3]]]]].
      exists (ev :: pre), chunk_obj, post. rewrite E1. cbn [forallb].
      rewrite G, E2. auto.
    + exact IH.
    + destruct IH as [pre [chunk_obj [post [g [mc [E1 [E2 E3]]]]]]].
      exists (ev :: pre), chunk_obj, post, g, mc. rewrite E1. cbn [forallb].
      rewrite G, E2. auto.
    + rewrite metrics_count_app, M, IH. reflexivity.
  - destruct why; try contradiction.
    + destruct S as [chunk_obj [-> [S1 S2]]]. exists [], chunk_obj, rest. auto.
    + destruct S as [chunk_obj [g [mc [-> [S1 [S2 [S3 [S4 S5]]]]]]]].
      exists [], chunk_obj, rest, g, mc. auto 10.
  - exact S.
Qed.

Lemma sync_drain_not_terminal (events : list event) :
  ended (drain body events) <> Terminal ->
  metrics_count (yielded (drain body events)) = 0%nat.
Proof.
  induction events as [|ev rest IH]; [reflexivity|].
  pose proof (sync_body_shape provider output_key messages_api coerce ev) as S.
  cbn zeta in S. fold body in S. cbn [drain].
  destruct (after (body ev)) as [|why|e] eqn:A; cbn [ended yielded].
  - intro N. destruct S as [_ M]. rewrite metrics_count_app, M, (IH N). reflexivity.
  - destruct why; try contradiction.
    intros _. destruct S as [c [_ [_ ->]]]. reflexivity.
  - intros _. exact S.
Qed.

End SyncDrain.

(** C4: the synchronous decoder yields at most one invocation metrics
    chunk, whatever the stream.  Where the first event that does not go by
    is a stop payload (a stop reason of the provider, or message_stop)
    that is converted and whose metrics are built without an exception,
    the run ends there having yielded exactly one metrics chunk, that of
    the stop payload, as its last chunk, after the chunks of the events
    before and the converted chunk of the stop payload.  Where it is a
    sentinel payload, the run ends there having yielded no metrics chunk
    and nothing for the sentinel.  In both cases the events after it are
    neither read nor turned into chunks.  Conversely a run that ended with
    a metrics chunk ended at such a stop payload, a run that ended at a
    sentinel or in any other way has yielded no metrics chunk, and a
    stream is read to its end only if every event of it went by. *)
Theorem prepare_output_stream_terminates_once
    (provider : string) (body : stream_body) (messages_api coerce : bool) :
  let r := prepare_output_stream provider body messages_api coerce in
  let output_key := sync_output_key provider messages_api in
  let run_of := fun events =>
    prepare_output_stream provider (BodyEventStream events) messages_api coerce in
  (metrics_count (yielded r) <= 1)%nat
  /\ (forall pre chunk_obj post g mc,
        body_events body = (pre ++ Some (Decoded chunk_obj) :: post)%list ->
        forallb (goes_by provider output_key messages_api coerce) pre = true ->
        sentinel_value provider output_key chunk_obj = Some false ->
        stop_value provider output_key messages_api chunk_obj = Some true ->
        _stream_response_to_generation_chunk chunk_obj provider output_key
          messages_api coerce = Ok g ->
        _get_invocation_metrics_chunk chunk_obj = Ok mc ->
        ended r = Terminal
        /\ consumed r = S (List.length pre)
        /\ yielded r
           = (yielded (run_of pre) ++ converted g ++ [(YieldMetrics, mc)])%list
        /\ metrics_count (yielded (run_of pre) ++ converted g) = 0%nat
        /\ metrics_count (yielded r) = 1%nat)
  /\ (forall pre chunk_obj post,
        body_events body = (pre ++ Some (Decoded chunk_obj) :: post)%list ->
        forallb (goes_by provider output_key messages_api coerce) pre = true ->
        sentinel_value provider output_key chunk_obj = Some true ->
        ended r = Sentinel
        /\ consumed r = S (List.length pre)
        /\ yielded r = yielded (run_of pre)
        /\ metrics_count (yielded r) = 0%nat)
  /\ (ended r = Terminal ->
      exists pre chunk_obj post g mc,
        body_events body = (pre ++ Some (Decoded chunk_obj) :: post)%list
        /\ forallb (goes_by provider output_key messages_api coerce) pre = true
        /\ sentinel_value provider output_key chunk_obj = Some false
        /\ stop_value provider output_key messages_api chunk_obj = Some true
        /\ _stream_response_to_generation_chunk chunk_obj provider output_key
             messages_api coerce = Ok g
        /\ _get_invocation_metrics_chunk chunk_obj = Ok mc)
  /\ (ended r = Sentinel ->
      exists pre chunk_obj post,
        body_events body = (pre ++ Some (Decoded chunk_obj) :: post)%list
        /\ forallb (goes_by provider output_key messages_api coerce) pre = true
        /\ sentinel_value provider output_key chunk_obj = Some true)
  /\ (ended r <> Terminal -> metrics_count (yielded r) = 0%nat)
  /\ (ended r = Exhausted ->
      forallb (goes_by provider output_key messages_api coerce) (body_events body)
      = true)
  /\ (consumed r <= List.length (body_events body))%nat
  /\ (ended r = Terminal \/ ended r = Sentinel ->
      forall more,
        prepare_output_stream provider (extend body more) messages_api coerce = r).
Proof.
  cbn zeta.
  set (output_key := sync_output_key provider messages_api).
  set (loop := sync_body provider output_key messages_api coerce).
  assert (Run : forall events,
             String.eqb output_key "" = false ->
             prepare_output_stream provider (BodyEventStream events) messages_api coerce
             = drain loop events).
  { intros events K. unfold prepare_output_stream.
    fold (sync_output_key provider messages_api). fold output_key.
    cbn [body_truthy negb body_events]. rewrite K. reflexivity. }
  assert (Here : forall pre ev post,
             body_events body = (pre ++ ev :: post)%list ->
             String.eqb output_key "" = false ->
             prepare_output_stream provider body messages_api coerce
             = drain loop (pre ++ ev :: post)).
  { intros pre ev post E K. unfold prepare_output_stream.
    fold (sync_output_key provider messages_api). fold output_key.
    assert (B : body_truthy body = true).
    { destruct body as [|l|l]; cbn [body_events] in E.
      - destruct pre; discriminate.
      - subst l. destruct pre; reflexivity.
      - reflexivity. }
    rewrite B, K, E. reflexivity. }
  assert (Stop : forall pre chunk_obj post g mc,
             body_events body = (pre ++ Some (Decoded chunk_obj) :: post)%list ->
             forallb (goes_by provider output_key messages_api coerce) pre = true ->
             sentinel_value provider output_key chunk_obj = Some false ->
             stop_value provider output_key messages_api chunk_obj = Some true ->
             _stream_response_to_generation_chunk chunk_obj provider output_key
               messages_api coerce = Ok g ->
             _get_invocation_metrics_chunk chunk_obj = Ok mc ->
             prepare_output_stream provider body messages_api coerce
             = mkRun (yielded (drain loop pre) ++ converted g ++ [(YieldMetrics, mc)])
                     (S (List.length pre)) Terminal
             /\ metrics_count (yielded (drain loop pre)) = 0%nat
             /\ String.eqb output_key "" = false).
  { intros pre chunk_obj post g mc E G Hs Ht Hc Hm.
    pose proof (stop_value_has_key provider messages_api chunk_obj Ht) as K.
    fold output_key in K.
    rewrite (Here _ _ _ E K).
    destruct (sync_drain_goes_by provider output_key messages_api coerce pre
                (Some (Decoded chunk_obj) :: post) G) as [D [M _]].
    fold loop in D, M. unfold event in *. rewrite D. cbn [drain].
    assert (L : loop (Some (Decoded chunk_obj))
                = mkStep (converted g ++ [(YieldMetrics, mc)]) (Return Terminal))
      by (apply sync_body_stop; assumption).
    rewrite L. cbn [after emitted yielded consumed ended].
    split; [|split; [exact M | exact K]]. f_equal. lia. }
  assert (Sent : forall pre chunk_obj post,
             body_events body = (pre ++ Some (Decoded chunk_obj) :: post)%list ->
             forallb (goes_by provider output_key messages_api coerce) pre = true ->
             sentinel_value provider output_key chunk_obj = Some true ->
             prepare_output_stream provider body messages_api coerce
             = mkRun (yielded (drain loop pre)) (S (List.length pre)) Sentinel
             /\ metrics_count (yielded (drain loop pre)) = 0%nat
             /\ String.eqb output_key "" = false).
  { intros pre chunk_obj post E G Hs.
    pose proof (sentinel_value_has_key provider messages_api chunk_obj Hs) as K.
    fold output_key in K.
    rewrite (Here _ _ _ E K).
    destruct (sync_drain_goes_by provider output_key messages_api coerce pre
                (Some (Decoded chunk_obj) :: post) G) as [D [M _]].
    fold loop in D, M. unfold event in *. rewrite D. cbn [drain].
    assert (L : loop (Some (Decoded chunk_obj)) = mkStep [] (Return Sentinel))
      by (apply sync_body_sentinel; assumption).
    rewrite L. cbn [after emitted yielded consumed ended]. rewrite app_nil_r.
    split; [|split; [exact M | exact K]]. f_equal. lia. }
  assert (Cases :
            match ended (prepare_output_stream provider body messages_api coerce) with
            | Exhausted =>
                forallb (goes_by provider output_key messages_api coerce)
                  (body_events body) = true
            | Terminal =>
                exists pre chunk_obj post g mc,
                  body_events body = (pre ++ Some (Decoded chunk_obj) :: post)%list
                  /\ forallb (goes_by provider output_key messages_api coerce) pre = true
                  /\ sentinel_value provider output_key chunk_obj = Some false
                  /\ stop_value provider output_key messages_api chunk_obj = Some true
                  /\ _stream_response_to_generation_chunk chunk_obj provider output_key
                       messages_api coerce = Ok g
                  /\ _get_invocation_metrics_chunk chunk_obj = Ok mc
            | Sentinel =>
                exists pre chunk_obj post,
                  body_events body = (pre ++ Some (Decoded chunk_obj) :: post)%list
                  /\ forallb (goes_by provider output_key messages_api coerce) pre = true
                  /\ sentinel_value provider output_key chunk_obj = Some true
            | Raised _ | NoStream =>
                metrics_count
                  (yielded (prepare_output_stream provider body messages_api coerce))
                = 0%nat
            | Quiet => False
            end).
  { unfold prepare_output_stream.
    fold (sync_output_key provider messages_api). fold output_key.
    destruct (body_truthy body); cbn [negb]; [|reflexivity].
    destruct (String.eqb output_key ""); [reflexivity|].
    pose proof (sync_drain_cases provider output_key messages_api coerce
                  (body_events body)) as C.
    cbn zeta in C. fold loop in C. fold loop.
    destruct (ended (drain loop (body_events body))); try exact C. contradiction. }
  set (r := prepare_output_stream provider body messages_api coerce) in *.
  assert (NotTerminal : ended r <> Terminal -> metrics_count (yielded r) = 0%nat).
  { subst r. unfold prepare_output_stream.
    fold (sync_output_key provider messages_api). fold output_key.
    destruct (body_truthy body); cbn [negb]; [|reflexivity].
    destruct (String.eqb output_key ""); [reflexivity|].
    apply sync_drain_not_terminal. }
  split; [|split; [|split; [|split; [|split; [|split; [|split; [|split]]]]]]].
  - destruct (ended r) eqn:E; try (rewrite NotTerminal; [lia | discriminate]).
    destruct Cases as [pre [chunk_obj [post [g [mc [E1 [E2 [E3 [E4 [E5 E6]]]]]]]]]].
    destruct (Stop pre chunk_obj post g mc E1 E2 E3 E4 E5 E6) as [H [M _]].
    rewrite H. cbn [yielded].
    rewrite !metrics_count_app, M, metrics_count_converted. cbn. lia.
  - intros pre chunk_obj post g mc E G Hs Ht Hc Hm.
    destruct (Stop pre chunk_obj post g mc E G Hs Ht Hc Hm) as [H [M K]].
    rewrite H, (Run pre K). cbn [ended consumed yielded].
    repeat split.
    + rewrite metrics_count_app, M, metrics_count_converted. reflexivity.
    + rewrite !metrics_count_app, M, metrics_count_converted. reflexivity.
  - intros pre chunk_obj post E G Hs.
    destruct (Sent pre chunk_obj post E G Hs) as [H [M K]].
    rewrite H, (Run pre K). cbn [ended consumed yielded]. repeat split. exact M.
  - intro T. rewrite T in Cases. exact Cases.
  - intro T. rewrite T in Cases. exact Cases.
  - exact NotTerminal.
  - intro T. rewrite T in Cases. exact Cases.
  - subst r. unfold prepare_output_stream.
    destruct (negb (body_truthy body)); [cbn; lia|].
    destruct (String.eqb _ ""); [cbn; lia|]. apply drain_consumed.
  - intros T more. subst r. unfold prepare_output_stream in T |- *.
    fold (sync_output_key provider messages_api) in T |- *.
    fold output_key in T |- *.
    destruct (body_truthy body) eqn:B; cbn [negb] in T |- *.
    2:{ destruct T as [T|T]; discriminate. }
    destruct (String.eqb output_key "") eqn:K.
    { destruct T as [T|T]; discriminate. }
    assert (Bx : body_truthy (extend body more) = true).
    { destruct body as [|l|l]; cbn in *; try discriminate; [|reflexivity].
      destruct l; [discriminate | reflexivity]. }
    rewrite Bx. cbn [negb].
    assert (Ex : body_events (extend body more) = (body_events body ++ more)%list).
    { destruct body; cbn in *; [discriminate | reflexivity | reflexivity]. }
    rewrite Ex. apply drain_extend.
    destruct T as [T|T]; rewrite T; discriminate.
Qed.

Lemma prepare_output_stream_terminates_once_witness :
  let r :=
    prepare_output_stream "mistral"
      (BodyEventStream ([mistral_text_event]
                        ++ Some (Decoded mistral_stop_payload) :: [mistral_text_event]))
      false true in
  ended r = Terminal
  /\ consumed r = 2%nat
  /\ yielded r
     = (yielded (prepare_output_stream "mistral" (BodyEventStream [mistral_text_event])
                   false true)
        ++ converted (Some (GenerationChunk (PStr "lo")
                              [("amazon-bedrock-invocationMetrics",
                                PDict [("inputTokenCount", PInt 10);
                                       ("outputTokenCount", PInt 5)])]))
        ++ [(YieldMetrics, metrics_10_5)])%list
  /\ metrics_count
       (yielded (prepare_output_stream "mistral" (BodyEventStream [mistral_text_event])
                   false true)
        ++ converted (Some (GenerationChunk (PStr "lo")
                              [("amazon-bedrock-invocationMetrics",
                                PDict [("inputTokenCount", PInt 10);
                                       ("outputTokenCount", PInt 5)])]))) = 0%nat
  /\ metrics_count (yielded r) = 1%nat.
Proof.
  apply (proj1 (proj2 (prepare_output_stream_terminates_once "mistral"
                         (BodyEventStream
                            ([mistral_text_event]
                             ++ Some (Decoded mistral_stop_payload)
                                :: [mistral_text_event]))
                         false true))
           [mistral_text_event] mistral_stop_payload [mistral_text_event]);
    reflexivity.
Defined.

(** C2, as the code has it: for a provider with no entry in the output key
    table, the synchronous decoder without the messages protocol, given a
    stream, raises a ValueError having read no event and yielded no chunk;
    the request builder does not fail for a provider it has no branch for:
    it returns the model arguments with "inputText" set to the prompt. *)
Theorem unknown_provider_decoder_fails_builder_falls_back :
  (forall (provider : string) (body : stream_body) (coerce : bool),
      output_key_of provider provider_to_output_key_map = None ->
      body_truthy body = true ->
      prepare_output_stream provider body false coerce = mkRun [] 0 (Raised ValueError))
  /\ (forall (thinking_in_params : dict -> bool) (provider : string)
             (model_kwargs : dict) (prompt system : option string)
             (messages tools : option (list pyval)) (max_tokens : option Z)
             (temperature : option pyval),
      existsb (String.eqb provider) request_providers = false ->
      prepare_input thinking_in_params provider model_kwargs prompt system messages
        tools max_tokens temperature
      = Ok (mkPrepared (dict_set "inputText" (opt_str prompt) model_kwargs) messages [])).
Proof.
  split.
  - intros provider body coerce K B. unfold prepare_output_stream.
    rewrite B, K. reflexivity.
  - intros tip provider model_kwargs prompt system messages tools max_tokens
      temperature H.
    unfold request_providers in H. simpl in H.
    repeat (apply orb_false_elim in H; destruct H as [? H]).
    unfold prepare_input. simpl.
    repeat match goal with
           | E : String.eqb provider _ = false |- _ => rewrite E; clear E
           end.
    reflexivity.
Qed.

Lemma unknown_provider_decoder_fails_builder_falls_back_witness :
  prepare_output_stream "unknown" (BodyEventStream [message_stop_event]) false true
  = mkRun [] 0 (Raised ValueError).
Proof.
  apply (proj1 unknown_provider_decoder_fails_builder_falls_back
           "unknown" (BodyEventStream [message_stop_event]) true);
    reflexivity.
Defined.

(** C2 as stated fails: the request builder returns a body for a provider
    that is in neither table. *)
Lemma unknown_provider_request_is_built :
  existsb (String.eqb "unknown") request_providers = false
  /\ output_key_of "unknown" provider_to_output_key_map = None
  /\ prepare_input thinking_type_enabled "unknown" [] (Some "Hi") None None None None None
     = Ok (mkPrepared [("inputText", PStr "Hi")] None []).
Proof. repeat split. Qed.

(** Where no stop and no writer sentinel can apply, the two decoders do
    the same with every event. *)
Lemma async_body_agrees (provider output_key : string) (coerce : bool) (ev : event) :
  existsb (String.eqb provider) ["writer"; "deepseek"; "mistral"; "meta"] = false ->
  async_body provider output_key false coerce ev
  = sync_body provider output_key false coerce ev.
Proof.
  simpl. intro H.
  repeat (apply orb_false_elim in H; destruct H as [? H]).
  destruct ev as [[chunk_obj| |]|]; simpl; try reflexivity.
  unfold stop_reached.
  repeat match goal with
         | E : String.eqb provider _ = false |- _ => rewrite E; clear E
         end.
  reflexivity.
Qed.

Lemma drain_ext (f g : event -> step) (events : list event) :
  (forall ev, f ev = g ev) -> drain f events = drain g events.
Proof.
  intro H. induction events as [|ev rest IH]; simpl; [reflexivity|].
  rewrite H, IH. reflexivity.
Qed.

(** The asynchronous decoder does what the synchronous one does for the
    providers without a stop reason of their own, outside the messages
    protocol. *)
Lemma aprepare_output_stream_agrees (provider : string) (body : stream_body)
    (coerce : bool) :
  existsb (String.eqb provider) ["writer"; "deepseek"; "mistral"; "meta"] = false ->
  aprepare_output_stream provider body false coerce
  = prepare_output_stream provider body false coerce.
Proof.
  intro H. unfold aprepare_output_stream, prepare_output_stream.
  destruct (negb (body_truthy body)); [reflexivity|].
  destruct (output_key_of provider provider_to_output_key_map) as [k|];
    [|reflexivity].
  destruct (String.eqb k ""); [reflexivity|].
  apply drain_ext. intro ev. apply async_body_agrees, H.
Qed.

(** C1 fails on the code: on a messages stream that ends with message_stop
    the synchronous decoder yields the invocation metrics chunk and the
    asynchronous one yields nothing; on a mistral stop the synchronous
    decoder yields the text and the metrics chunk and the asynchronous one
    yields nothing. *)
Theorem async_decoder_drops_terminal_chunk :
  chunks_of (prepare_output_stream "anthropic" (BodyEventStream [message_stop_event])
               true false)
  = [metrics_10_5]
  /\ chunks_of (aprepare_output_stream "anthropic" (BodyEventStream [message_stop_event])
                  true false)
     = []
  /\ chunks_of (prepare_output_stream "mistral" (BodyEventStream [mistral_stop_event])
                  false true)
     = [GenerationChunk (PStr "Hi") []; GenerationChunk (PStr "") []]
  /\ chunks_of (aprepare_output_stream "mistral" (BodyEventStream [mistral_stop_event])
                  false true)
     = [].
Proof. repeat split. Qed.

(** ** The request builder *)

Lemma lookup_dict_set_same (k : string) (v : pyval) (d : dict) :
  lookup k (dict_set k v d) = Some v.
Proof.
  induction d as [|[k' v'] d IH]; simpl.
  - rewrite String.eqb_refl. reflexivity.
  - destruct (String.eqb k k') eqn:E; simpl; rewrite E; [reflexivity | exact IH].
Qed.

Lemma lookup_dict_set_other (k k' : string) (v : pyval) (d : dict) :
  String.eqb k k' = false ->
  lookup k (dict_set k' v d) = lookup k d.
Proof.
  intro N. induction d as [|[k'' v''] d IH]; simpl.
  - rewrite N. reflexivity.
  - destruct (String.eqb k' k'') eqn:E; simpl.
    + apply String.eqb_eq in E. subst k''. rewrite N. reflexivity.
    + destruct (String.eqb k k''); [reflexivity | exact IH].
Qed.

Lemma split_last2_cons {A : Type} (x : A) (l : list A) :
  (2 <= List.length l)%nat ->
  split_last2 (x :: l)
  = match split_last2 l with
    | Some (front, a, b) => Some (x :: front, a, b)
    | None => None
    end.
Proof.
  destruct l as [|y [|z t]]; simpl; intro H; try lia; reflexivity.
Qed.

Lemma split_last2_app {A : Type} (front : list A) (a b : A) :
  split_last2 (front ++ [a; b]) = Some (front, a, b).
Proof.
  induction front as [|x front IH]; [reflexivity|].
  change ((x :: front) ++ [a; b])%list with (x :: (front ++ [a; b]))%list.
  rewrite split_last2_cons, IH; [reflexivity|].
  rewrite length_app. simpl. lia.
Qed.

Lemma filter_nonempty {A : Type} (p : A -> bool) (l : list A) :
  existsb p l = true -> filter p l <> [].
Proof.
  induction l as [|x l IH]; simpl; [discriminate|].
  destruct (p x); simpl; [discriminate | exact IH].
Qed.

Lemma reordered_content_moves (first : pyval) (rest : list pyval) :
  existsb is_thinking_block (first :: rest) = true ->
  is_dict first = true ->
  is_thinking_block first = false ->
  reordered_content (PList (first :: rest))
  = Ok (Some (thinking_blocks_first (first :: rest))).
Proof.
  intros Hsome Hdict Hfirst.
  unfold reordered_content, thinking_blocks_first.
  pose proof (filter_nonempty _ _ Hsome) as NE.
  destruct (filter is_thinking_block (first :: rest)) as [|t ts]; [congruence|].
  unfold is_thinking_block in Hfirst. rewrite Hdict in Hfirst.
  destruct first as [| | | | |df]; try discriminate.
  unfold py_get, bind. unfold block_type in Hfirst.
  cbn [andb] in Hfirst. rewrite Hfirst. reflexivity.
Qed.

Lemma thinking_first_reorders
    (front : list pyval) (da dl : dict) (r1 r2 first : pyval) (items rest : list pyval) :
  lookup "role" dl = Some r1 -> eq_str r1 "user" = true ->
  lookup "role" da = Some r2 -> eq_str r2 "assistant" = true ->
  lookup "content" dl = Some (PList items) ->
  existsb is_tool_result items = true ->
  lookup "content" da = Some (PList (first :: rest)) ->
  existsb is_thinking_block (first :: rest) = true ->
  is_dict first = true ->
  is_thinking_block first = false ->
  thinking_first (front ++ [PDict da; PDict dl])
  = Ok (front ++ [with_content (PDict da) (thinking_blocks_first (first :: rest));
                  PDict dl])%list.
Proof.
  intros R1 U R2 A C T B Hsome Hdict Hfirst.
  unfold thinking_first. rewrite split_last2_app.
  unfold py_item, py_get. rewrite R1, R2, C, B. cbn [bind]. rewrite U, A.
  cbn [negb]. rewrite T.
  rewrite (reordered_content_moves _ _ Hsome Hdict Hfirst). reflexivity.
Qed.

Lemma thinking_first_applies (front : list pyval) (asst last : pyval)
    (blocks : list pyval) :
  reorder_applies asst last = true ->
  content_blocks asst = Some blocks ->
  thinking_first (front ++ [asst; last])
  = Ok (front ++ [with_content asst (thinking_blocks_first blocks); last])%list.
Proof.
  unfold reorder_applies. intros H B. rewrite B in H.
  apply andb_prop in H. destruct H as [H Hc].
  apply andb_prop in H. destruct H as [H Ht].
  apply andb_prop in H. destruct H as [Hu Ha].
  destruct blocks as [|first rest]; [discriminate|].
  apply andb_prop in Hc. destruct Hc as [Hc Hn].
  apply andb_prop in Hc. destruct Hc as [Hs Hd].
  apply negb_true_iff in Hn.
  unfold has_tool_result in Ht.
  destruct last as [| | | | |dl]; try discriminate.
  destruct asst as [| | | | |da]; try discriminate.
  unfold is_role, content_blocks in *.
  destruct (lookup "role" dl) as [r1|] eqn:R1; [|discriminate].
  destruct (lookup "role" da) as [r2|] eqn:R2; [|discriminate].
  destruct (lookup "content" dl) as [[| | | |items|]|] eqn:C; try discriminate.
  destruct (lookup "content" da) as [[| | | |bs|]|] eqn:D; try discriminate.
  injection B as ->.
  apply (thinking_first_reorders front da dl r1 r2 first items rest); assumption.
Qed.

Lemma lookup_messages_set_max_tokens (max_tokens : option Z) (key : string) (body : dict) :
  String.eqb "messages" key = false ->
  lookup "messages" (set_max_tokens max_tokens key (default_1024 key) body)
  = lookup "messages" body.
Proof.
  intro N. unfold set_max_tokens, default_1024.
  destruct (nonzero max_tokens); [apply lookup_dict_set_other, N|].
  destruct (has_key key body); [reflexivity | apply lookup_dict_set_other, N].
Qed.

Lemma lookup_messages_set_opt (key : string) (v : option pyval) (body : dict) :
  String.eqb "messages" key = false ->
  lookup "messages" (set_opt key v body) = lookup "messages" body.
Proof.
  intro N. destruct v; simpl; [apply lookup_dict_set_other, N | reflexivity].
Qed.

(** With thinking enabled and the reorder applying, the builder returns,
    the caller's second-to-last message holds the reordered content after
    the call, and the body's "messages" entry is that same list. *)
Lemma prepare_input_reorders (thinking_in_params : dict -> bool) (model_kwargs : dict)
    (prompt system : option string) (tools : option (list pyval))
    (max_tokens : option Z) (temperature : option pyval)
    (front : list pyval) (asst last : pyval) (blocks : list pyval) :
  thinking_in_params model_kwargs = true ->
  reorder_applies asst last = true ->
  content_blocks asst = Some blocks ->
  let after_call :=
    (front ++ [with_content asst (thinking_blocks_first blocks); last])%list in
  exists r,
    prepare_input thinking_in_params "anthropic" model_kwargs prompt system
      (Some (front ++ [asst; last])%list) tools max_tokens temperature = Ok r
    /\ messages_after r = Some after_call
    /\ lookup "messages" (input_body r) = Some (PList after_call).
Proof.
  intros Hthink Happ Hblocks after_call.
  unfold prepare_input. cbn [String.eqb Ascii.eqb Bool.eqb].
  destruct (front ++ [asst; last])%list as [|m ms] eqn:E.
  { destruct front; discriminate. }
  rewrite <- E. unfold anthropic_messages. rewrite Hthink.
  rewrite (thinking_first_applies front asst last blocks Happ Hblocks).
  fold after_call. cbn [bind fst snd].
  destruct (nonempty_str prompt) as [p|].
  - destruct (_human_assistant_format p) as [formatted ws].
    eexists. split; [reflexivity|]. split; [reflexivity|]. cbn [input_body].
    rewrite lookup_messages_set_opt by reflexivity.
    rewrite lookup_messages_set_max_tokens by reflexivity.
    rewrite lookup_dict_set_other by reflexivity.
    rewrite lookup_messages_set_max_tokens by reflexivity.
    destruct (nonempty_str system);
      [rewrite lookup_dict_set_other by reflexivity|];
      apply lookup_dict_set_same.
  - eexists. split; [reflexivity|]. split; [reflexivity|]. cbn [input_body].
    rewrite lookup_messages_set_opt by reflexivity.
    rewrite lookup_messages_set_max_tokens by reflexivity.
    destruct (nonempty_str system);
      [rewrite lookup_dict_set_other by reflexivity|];
      apply lookup_dict_set_same.
Qed.

Lemma filter_head {A : Type} (p : A -> bool) (l : list A) (x : A) (xs : list A) :
  filter p l = x :: xs -> p x = true.
Proof.
  intro E. assert (I : In x (filter p l)) by (rewrite E; left; reflexivity).
  apply filter_In in I. apply I.
Qed.

Lemma thinking_blocks_first_differs (first : pyval) (rest : list pyval) :
  existsb is_thinking_block (first :: rest) = true ->
  is_thinking_block first = false ->
  thinking_blocks_first (first :: rest) <> first :: rest.
Proof.
  intros Hsome Hfirst E. unfold thinking_blocks_first in E.
  pose proof (filter_nonempty _ _ Hsome) as NE.
  destruct (filter is_thinking_block (first :: rest)) as [|t ts] eqn:F; [congruence|].
  apply filter_head in F. injection E as -> _. congruence.
Qed.

Lemma content_blocks_with_content (msg : pyval) (old new : list pyval) :
  content_blocks msg = Some old -> content_blocks (with_content msg new) = Some new.
Proof.
  destruct msg as [| | | | |d]; try discriminate. intros _.
  simpl. rewrite lookup_dict_set_same. reflexivity.
Qed.

(** C3, as the code has it: the reorder is done in place.  With thinking
    enabled, the last message a user turn with a tool_result block and the
    one before it an assistant turn whose content has a thinking block but
    starts with another block, the builder returns a body whose "messages"
    entry is the caller's own list, and after the call that list differs
    from what the caller passed: its second-to-last message holds the
    reordered content.  The other messages, and the other keys of that
    message, are as they were. *)
Theorem prepare_input_reorders_in_place
    (thinking_in_params : dict -> bool) (model_kwargs : dict)
    (prompt system : option string) (tools : option (list pyval))
    (max_tokens : option Z) (temperature : option pyval)
    (front : list pyval) (asst last : pyval) (blocks : list pyval) :
  thinking_in_params model_kwargs = true ->
  reorder_applies asst last = true ->
  content_blocks asst = Some blocks ->
  let asst' := with_content asst (thinking_blocks_first blocks) in
  exists r,
    prepare_input thinking_in_params "anthropic" model_kwargs prompt system
      (Some (front ++ [asst; last])%list) tools max_tokens temperature = Ok r
    /\ messages_after r = Some (front ++ [asst'; last])%list
    /\ lookup "messages" (input_body r) = Some (PList (front ++ [asst'; last]))
    /\ messages_after r <> Some (front ++ [asst; last])%list
    /\ content_blocks asst' = Some (thinking_blocks_first blocks)
    /\ (forall k, String.eqb k "content" = false -> field k asst' = field k asst).
Proof.
  intros Hthink Happ Hblocks asst'.
  destruct (prepare_input_reorders thinking_in_params model_kwargs prompt system tools
              max_tokens temperature front asst last blocks Hthink Happ Hblocks)
    as [r [Hr [Hafter Hbody]]].
  assert (Hc : content_blocks asst' = Some (thinking_blocks_first blocks))
    by exact (content_blocks_with_content asst blocks _ Hblocks).
  exists r. repeat split; try assumption.
  - rewrite Hafter. intro E. injection E as E. apply app_inv_head in E.
    injection E as E. fold asst' in E. rewrite E, Hblocks in Hc. injection Hc as Hc.
    unfold reorder_applies in Happ. rewrite Hblocks in Happ.
    apply andb_prop in Happ. destruct Happ as [_ Happ].
    destruct blocks as [|first rest]; [discriminate|].
    apply andb_prop in Happ. destruct Happ as [Happ Hn].
    apply andb_prop in Happ. destruct Happ as [Hs _].
    apply negb_true_iff in Hn.
    exact (thinking_blocks_first_differs first rest Hs Hn (eq_sym Hc)).
  - intros k N. unfold asst', with_content, field.
    destruct asst as [| | | | |d]; try reflexivity.
    apply lookup_dict_set_other, N.
Qed.

Lemma prepare_input_reorders_in_place_witness :
  exists r,
    prepare_input thinking_type_enabled "anthropic" sample_kwargs None None
      (Some ([sample_question] ++ [sample_assistant; sample_tool_result])%list)
      None None None = Ok r
    /\ messages_after r
       = Some ([sample_question]
               ++ [with_content sample_assistant
                     (thinking_blocks_first [sample_text_block; sample_thinking_block]);
                   sample_tool_result])%list
    /\ lookup "messages" (input_body r)
       = Some (PList ([sample_question]
                      ++ [with_content sample_assistant
                            (thinking_blocks_first
                               [sample_text_block; sample_thinking_block]);
                          sample_tool_result]))
    /\ messages_after r
       <> Some ([sample_question] ++ [sample_assistant; sample_tool_result])%list
    /\ content_blocks
         (with_content sample_assistant
            (thinking_blocks_first [sample_text_block; sample_thinking_block]))
       = Some (thinking_blocks_first [sample_text_block; sample_thinking_block])
    /\ (forall k, String.eqb k "content" = false ->
                  field k (with_content sample_assistant
                             (thinking_blocks_first
                                [sample_text_block; sample_thinking_block]))
                  = field k sample_assistant).
Proof.
  apply (prepare_input_reorders_in_place thinking_type_enabled sample_kwargs None None None None None
           [sample_question] sample_assistant sample_tool_result
           [sample_text_block; sample_thinking_block]);
    reflexivity.
Defined.

(** C3 as stated fails: after the call the caller's second-to-last message
    holds the reordered content, not the content that was passed. *)
Lemma prepare_input_changes_caller_messages :
  match prepare_input thinking_type_enabled "anthropic" sample_kwargs None None (Some sample_messages)
          None None None with
  | Ok r =>
      messages_after r
      = Some [sample_question;
              PDict [("role", PStr "assistant");
                     ("content", PList [sample_thinking_block; sample_text_block])];
              sample_tool_result]
      /\ messages_after r <> Some sample_messages
  | Raise _ => False
  end.
Proof. vm_compute. split; [reflexivity | discriminate]. Qed.



(** ** Further properties of the stream decoders *)

Lemma drain_app (body : event -> step) (e1 e2 : list event) :
  (forall ev, after (body ev) <> Return Exhausted) ->
  drain body (e1 ++ e2) = then_run (drain body e1) (drain body e2).
Proof.
  intro H. unfold then_run. induction e1 as [|ev rest IH]; simpl.
  - destruct (drain body e2); reflexivity.
  - specialize (H ev). destruct (after (body ev)) as [|why|e]; simpl.
    + rewrite IH. destruct (is_exhausted (ended (drain body rest))); simpl.
      * rewrite app_assoc. reflexivity.
      * reflexivity.
    + destruct why; try reflexivity. exfalso. apply H. reflexivity.
    + reflexivity.
Qed.

Lemma sync_body_returns (provider output_key : string) (messages_api coerce : bool)
    (ev : event) :
  after (sync_body provider output_key messages_api coerce ev) <> Return Exhausted.
Proof.
  pose proof (sync_body_shape provider output_key messages_api coerce ev) as S.
  simpl in S. intro E. rewrite E in S. exact S.
Qed.

Lemma async_body_returns (provider output_key : string) (messages_api coerce : bool)
    (ev : event) :
  after (async_body provider output_key messages_api coerce ev) <> Return Exhausted.
Proof.
  destruct ev as [[chunk_obj| |]|]; simpl; try discriminate.
  destruct (if String.eqb provider "cohere" then _ else _) as [[|]|]; try discriminate.
  destruct (if String.eqb provider "mistral" then _ else _) as [[|]|]; try discriminate.
  destruct (_stream_response_to_generation_chunk _ _ _ _ _); discriminate.
Qed.

Lemma prepare_output_stream_app
    (provider : string) (e1 e2 : list event) (messages_api coerce : bool) :
  prepare_output_stream provider (BodyEventStream (e1 ++ e2)) messages_api coerce
  = then_run (prepare_output_stream provider (BodyEventStream e1) messages_api coerce)
             (prepare_output_stream provider (BodyEventStream e2) messages_api coerce).
Proof.
  unfold prepare_output_stream. cbn [body_truthy negb body_events].
  destruct (String.eqb _ ""); [reflexivity|].
  apply drain_app, sync_body_returns.
Qed.

(** X1: both decoders work through the stream in one pass: the run over a
    stream cut in two is the run over the first part followed, when that
    one read its part to the end, by the run over the second part; a run
    that ended early is the whole run. *)
Theorem decoders_run_in_one_pass
    (provider : string) (e1 e2 : list event) (messages_api coerce : bool) :
  prepare_output_stream provider (BodyEventStream (e1 ++ e2)) messages_api coerce
  = then_run (prepare_output_stream provider (BodyEventStream e1) messages_api coerce)
             (prepare_output_stream provider (BodyEventStream e2) messages_api coerce)
  /\ aprepare_output_stream provider (BodyEventStream (e1 ++ e2)) messages_api coerce
     = then_run (aprepare_output_stream provider (BodyEventStream e1) messages_api coerce)
                (aprepare_output_stream provider (BodyEventStream e2) messages_api coerce).
Proof.
  unfold prepare_output_stream, aprepare_output_stream.
  cbn [body_truthy negb body_events]. split.
  - destruct (String.eqb _ ""); [reflexivity|].
    apply drain_app, sync_body_returns.
  - destruct (output_key_of provider provider_to_output_key_map) as [k|];
      [|reflexivity].
    destruct (String.eqb k ""); [reflexivity|].
    apply drain_app, async_body_returns.
Qed.

Lemma drain_skips (body : event -> step) (events : list event) :
  body None = mkStep [] Next ->
  yielded (drain body events) = yielded (drain body (filter has_chunk events))
  /\ ended (drain body events) = ended (drain body (filter has_chunk events))
  /\ (consumed (drain body (filter has_chunk events)) <= consumed (drain body events))%nat.
Proof.
  intro H. induction events as [|ev rest IH]; simpl.
  - repeat split. lia.
  - destruct IH as [IHy [IHe IHc]]. destruct ev as [p|]; simpl.
    + destruct (after (body (Some p))); simpl;
        [rewrite IHy, IHe | | ]; repeat split; lia.
    + rewrite H. simpl. rewrite IHy, IHe. repeat split. lia.
Qed.

(** X2: events without a chunk leave no trace: with them taken out of the
    stream both decoders yield the same chunks and end the same way. *)
Theorem events_without_chunk_are_skipped
    (provider : string) (events : list event) (messages_api coerce : bool) :
  let r := prepare_output_stream provider (BodyEventStream events) messages_api coerce in
  let r' := prepare_output_stream provider (BodyEventStream (filter has_chunk events))
              messages_api coerce in
  let a := aprepare_output_stream provider (BodyEventStream events) messages_api coerce in
  let a' := aprepare_output_stream provider (BodyEventStream (filter has_chunk events))
              messages_api coerce in
  yielded r = yielded r' /\ ended r = ended r' /\ (consumed r' <= consumed r)%nat
  /\ yielded a = yielded a' /\ ended a = ended a' /\ (consumed a' <= consumed a)%nat.
Proof.
  unfold prepare_output_stream, aprepare_output_stream.
  cbn [body_truthy negb body_events].
  split; [|split; [|split]].
  - destruct (String.eqb _ ""); [reflexivity|]. apply drain_skips. reflexivity.
  - destruct (String.eqb _ ""); [reflexivity|]. apply drain_skips. reflexivity.
  - destruct (String.eqb _ ""); [simpl; lia|]. apply drain_skips. reflexivity.
  - destruct (output_key_of provider provider_to_output_key_map) as [k|];
      [|repeat split; simpl; lia].
    destruct (String.eqb k ""); [repeat split; simpl; lia|].
    apply drain_skips. reflexivity.
Qed.

(** X3: a chunk whose bytes cannot be decoded ends the run with an
    exception at that event: a JSONDecodeError when the bytes are text
    that is no JSON, a UnicodeDecodeError when they are no UTF-8 text.
    The chunks of the events before it have been yielded, and no event
    after it is read. *)
Theorem malformed_payload_is_fatal
    (provider : string) (e1 e2 : list event) (messages_api coerce : bool) :
  let r1 := prepare_output_stream provider (BodyEventStream e1) messages_api coerce in
  ended r1 = Exhausted ->
  prepare_output_stream provider (BodyEventStream (e1 ++ Some Malformed :: e2))
    messages_api coerce
  = mkRun (yielded r1) (S (consumed r1)) (Raised JSONDecodeError)
  /\ prepare_output_stream provider (BodyEventStream (e1 ++ Some Undecodable :: e2))
       messages_api coerce
     = mkRun (yielded r1) (S (consumed r1)) (Raised UnicodeDecodeError).
Proof.
  intros r1 E.
  rewrite (prepare_output_stream_app provider e1 (Some Malformed :: e2)
             messages_api coerce).
  rewrite (prepare_output_stream_app provider e1 (Some Undecodable :: e2)
             messages_api coerce).
  fold r1. unfold then_run. rewrite E. simpl.
  unfold prepare_output_stream in *. simpl in *.
  destruct (String.eqb _ ""); [subst r1; discriminate|]. simpl.
  rewrite app_nil_r. split; f_equal; lia.
Qed.

Lemma malformed_payload_is_fatal_witness :
  prepare_output_stream "meta"
    (BodyEventStream ([Some (Decoded (PDict [("generation", PStr "Hi")]))]
                      ++ Some Malformed :: [message_stop_event]))
    false true
  = mkRun [(YieldConverted, GenerationChunk (PStr "Hi") [])] 2 (Raised JSONDecodeError)
  /\ prepare_output_stream "meta"
       (BodyEventStream ([Some (Decoded (PDict [("generation", PStr "Hi")]))]
                         ++ Some Undecodable :: [message_stop_event]))
       false true
     = mkRun [(YieldConverted, GenerationChunk (PStr "Hi") [])] 2
         (Raised UnicodeDecodeError).
Proof.
  apply (malformed_payload_is_fatal "meta"
           [Some (Decoded (PDict [("generation", PStr "Hi")]))]
           [message_stop_event] false true).
  reflexivity.
Defined.

Lemma unhandled_type_converts_to_none (d : dict) (provider output_key : string)
    (coerce : bool) :
  in_strs (block_type (PDict d)) handled_types = false ->
  _stream_response_to_generation_chunk (PDict d) provider output_key true coerce
  = Ok None.
Proof.
  unfold _stream_response_to_generation_chunk, in_strs, handled_types, block_type.
  simpl. destruct (lookup "type" d) as [t|]; simpl; intro H.
  - repeat (apply orb_false_elim in H; destruct H as [? H]).
    repeat match goal with E : eq_str t _ = false |- _ => rewrite E; clear E end.
    reflexivity.
  - reflexivity.
Qed.

(** X4: in a messages stream, an event whose type is none of
    message_start, content_block_start, content_block_delta, message_delta
    and message_stop gives no chunk and does not end the run: with the
    event taken out the synchronous decoder yields the same chunks and
    ends the same way. *)
Theorem unhandled_event_type_is_passed_over
    (provider : string) (d : dict) (e1 e2 : list event) (coerce : bool) :
  existsb (String.eqb provider) inspecting_providers = false ->
  in_strs (block_type (PDict d)) ("message_stop" :: handled_types) = false ->
  let r := prepare_output_stream provider
             (BodyEventStream (e1 ++ Some (Decoded (PDict d)) :: e2)) true coerce in
  let r' := prepare_output_stream provider (BodyEventStream (e1 ++ e2)) true coerce in
  yielded r = yielded r' /\ ended r = ended r'.
Proof.
  intros Hp Ht r r'. subst r r'.
  assert (Hs : prepare_output_stream provider
                 (BodyEventStream [Some (Decoded (PDict d))]) true coerce
               = mkRun [] 1 Exhausted).
  { unfold inspecting_providers in Hp. simpl in Hp.
    repeat (apply orb_false_elim in Hp; destruct Hp as [? Hp]).
    simpl in Ht. apply orb_false_elim in Ht. destruct Ht as [Hstop Ht].
    unfold prepare_output_stream. cbn [body_truthy negb body_events String.eqb].
    cbn [drain sync_body].
    rewrite (unhandled_type_converts_to_none d provider "message" coerce Ht).
    unfold stop_reached.
    repeat match goal with
           | E : String.eqb provider _ = false |- _ => rewrite E; clear E
           end.
    cbn [andb bind py_get]. unfold block_type in Hstop.
    destruct (lookup "type" d); cbn [bind]; [rewrite Hstop|]; reflexivity. }
  pose proof (prepare_output_stream_app provider e1
                (Some (Decoded (PDict d)) :: e2) true coerce) as H1.
  pose proof (prepare_output_stream_app provider [Some (Decoded (PDict d))] e2
                true coerce) as H2.
  cbn [app] in H2.
  pose proof (prepare_output_stream_app provider e1 e2 true coerce) as H3.
  unfold event in *. rewrite H1, H2, H3.
  rewrite Hs. unfold then_run. simpl.
  destruct (is_exhausted (ended (prepare_output_stream provider (BodyEventStream e1)
                                   true coerce))); split; reflexivity.
Qed.

Lemma unhandled_event_type_is_passed_over_witness :
  yielded (prepare_output_stream "anthropic"
             (BodyEventStream ([] ++ Some (Decoded (PDict [("type", PStr "ping")]))
                               :: [message_stop_event])) true true)
  = yielded (prepare_output_stream "anthropic"
               (BodyEventStream ([] ++ [message_stop_event])) true true)
  /\ ended (prepare_output_stream "anthropic"
              (BodyEventStream ([] ++ Some (Decoded (PDict [("type", PStr "ping")]))
                                :: [message_stop_event])) true true)
     = ended (prepare_output_stream "anthropic"
                (BodyEventStream ([] ++ [message_stop_event])) true true).
Proof.
  apply (unhandled_event_type_is_passed_over "anthropic" [("type", PStr "ping")]
           [] [message_stop_event] true);
    reflexivity.
Defined.

Lemma lookup_filter_dropped (keys : list string) (k : string) (d : dict) :
  lookup k (filter (not_in_keys keys) d)
  = if existsb (String.eqb k) keys then None else lookup k d.
Proof.
  induction d as [|[k' v] d IH]; simpl.
  - destruct (existsb _ keys); reflexivity.
  - unfold not_in_keys at 1. cbn [fst].
    destruct (existsb (String.eqb k') keys) eqn:X'; cbn [negb].
    + rewrite IH. destruct (String.eqb k k') eqn:E; [|reflexivity].
      apply String.eqb_eq in E. subst k'. rewrite X'. reflexivity.
    + cbn [lookup]. rewrite IH. destruct (String.eqb k k') eqn:E; [|reflexivity].
      apply String.eqb_eq in E. subst k'. rewrite X'. reflexivity.
Qed.

(** X5: outside the messages protocol, for a provider that gives its text
    directly, an event whose value under the output key is a str gives a
    chunk with that str as its text, whose generation_info is the event
    without the output key, prompt_token_count, generation_token_count and
    created: every other key is kept with its value.  A value that is not
    a str (a number, null, a list) gives no chunk: the chunk constructor
    raises a ValidationError. *)
Theorem generation_info_is_the_rest_of_the_event
    (d : dict) (provider output_key : string) (v : pyval) (coerce : bool) :
  existsb (String.eqb provider) ["mistral"; "deepseek"; "writer"] = false ->
  lookup output_key d = Some v ->
  (forall s, v = PStr s ->
     exists info,
       _stream_response_to_generation_chunk (PDict d) provider output_key false coerce
       = Ok (Some (GenerationChunk (PStr s) info))
       /\ forall k,
           lookup k info
           = if existsb (String.eqb k) (dropped_keys output_key) then None
             else lookup k d)
  /\ ((forall s, v <> PStr s) ->
      _stream_response_to_generation_chunk (PDict d) provider output_key false coerce
      = Raise ValidationError).
Proof.
  intros Hp Hv. unfold _stream_response_to_generation_chunk, provider_chunk.
  rewrite Hp. cbn [negb py_item]. rewrite Hv. cbn [bind]. split.
  - intros s ->. cbn [valid_text].
    eexists. split; [reflexivity|]. intro k. apply lookup_filter_dropped.
  - intro N. destruct v; try reflexivity. exfalso. exact (N s eq_refl).
Qed.

Lemma generation_info_is_the_rest_of_the_event_witness :
  (exists info,
      _stream_response_to_generation_chunk
        (PDict [("generation", PStr "Hi"); ("prompt_token_count", PInt 3);
                ("stop_reason", PNone)])
        "meta" "generation" false true
      = Ok (Some (GenerationChunk (PStr "Hi") info))
      /\ forall k,
          lookup k info
          = if existsb (String.eqb k) (dropped_keys "generation") then None
            else lookup k [("generation", PStr "Hi"); ("prompt_token_count", PInt 3);
                           ("stop_reason", PNone)])
  /\ _stream_response_to_generation_chunk
       (PDict [("outputText", PInt 5)]) "amazon" "outputText" false true
     = Raise ValidationError.
Proof.
  split.
  - apply (proj1 (generation_info_is_the_rest_of_the_event
                    [("generation", PStr "Hi"); ("prompt_token_count", PInt 3);
                     ("stop_reason", PNone)]
                    "meta" "generation" (PStr "Hi") true eq_refl eq_refl) "Hi").
    reflexivity.
  - apply (proj2 (generation_info_is_the_rest_of_the_event
                    [("outputText", PInt 5)] "amazon" "outputText" (PInt 5) true
                    eq_refl eq_refl)).
    intros s H. discriminate H.
Defined.

(** ** Further properties of the usage aggregator *)

Lemma add_sum_shift (t : Z) (v : pyval) :
  add_sum t v = match add_sum 0 v with Ok d => Ok (t + d) | Raise e => Raise e end.
Proof. unfold add_sum. destruct (py_sum v); reflexivity. Qed.

Lemma int_add_shift (t : Z) (v : pyval) :
  int_add t v = match int_add 0 v with Ok d => Ok (t + d) | Raise e => Raise e end.
Proof. destruct v; reflexivity. Qed.

Lemma add_if_present_shift (usage_info : pyval) (key : string)
    (amount : Z -> pyval -> result Z) (total : Z) :
  (forall t v,
      amount t v = match amount 0 v with Ok d => Ok (t + d) | Raise e => Raise e end) ->
  add_if_present usage_info key amount total
  = match add_if_present usage_info key amount 0 with
    | Ok d => Ok (total + d)
    | Raise e => Raise e
    end.
Proof.
  intro H. unfold add_if_present.
  destruct (py_in key usage_info) as [[|]|]; simpl; try reflexivity.
  - destruct (py_item usage_info key); simpl; [apply H | reflexivity].
  - f_equal. lia.
Qed.

Lemma count_tokens_shift (g : dict) (p c : Z) :
  count_tokens g (p, c)
  = match count_tokens g (0, 0) with
    | Ok d => Ok (p + fst d, c + snd d)
    | Raise e => Raise e
    end.
Proof.
  unfold count_tokens. cbn [fst snd].
  destruct (lookup "usage" g) as [u|];
    destruct (lookup "amazon-bedrock-invocationMetrics" g) as [m|];
    cbn [bind fst snd].
  - rewrite (add_if_present_shift u "input_tokens" add_sum p add_sum_shift).
    rewrite (add_if_present_shift u "output_tokens" add_sum c add_sum_shift).
    destruct (add_if_present u "input_tokens" add_sum 0) as [dp|]; [|reflexivity].
    destruct (add_if_present u "output_tokens" add_sum 0) as [dc|]; [|reflexivity].
    cbn [bind fst snd].
    rewrite (add_if_present_shift m "inputTokenCount" int_add (p + dp) int_add_shift).
    rewrite (add_if_present_shift m "outputTokenCount" int_add (c + dc) int_add_shift).
    rewrite (add_if_present_shift m "inputTokenCount" int_add dp int_add_shift).
    rewrite (add_if_present_shift m "outputTokenCount" int_add dc int_add_shift).
    destruct (add_if_present m "inputTokenCount" int_add 0) as [ep|]; [|reflexivity].
    destruct (add_if_present m "outputTokenCount" int_add 0) as [ec|]; [|reflexivity].
    cbn [bind fst snd]. f_equal. f_equal; lia.
  - rewrite (add_if_present_shift u "input_tokens" add_sum p add_sum_shift).
    rewrite (add_if_present_shift u "output_tokens" add_sum c add_sum_shift).
    destruct (add_if_present u "input_tokens" add_sum 0) as [dp|]; [|reflexivity].
    destruct (add_if_present u "output_tokens" add_sum 0) as [dc|]; reflexivity.
  - rewrite (add_if_present_shift m "inputTokenCount" int_add p int_add_shift).
    rewrite (add_if_present_shift m "outputTokenCount" int_add c int_add_shift).
    destruct (add_if_present m "inputTokenCount" int_add 0) as [ep|]; [|reflexivity].
    destruct (add_if_present m "outputTokenCount" int_add 0) as [ec|]; reflexivity.
  - cbn [fst snd]. f_equal. f_equal; lia.
Qed.

Lemma combine_loop_shift (l : list dict) :
  forall p c s,
    combine_loop None (mkCombine p c s) l
    = match combine_loop None (mkCombine 0 0 s) l with
      | Ok st => Ok (mkCombine (p + acc_prompt st) (c + acc_completion st) (acc_stop st))
      | Raise e => Raise e
      end.
Proof.
  induction l as [|g rest IH]; intros p c s; simpl.
  - f_equal. f_equal; lia.
  - unfold combine_step. cbn [acc_prompt acc_completion acc_stop next_stop].
    rewrite (count_tokens_shift g p c).
    destruct (count_tokens g (0, 0)) as [[dp dc]|e]; cbn [bind fst snd]; [|reflexivity].
    rewrite (IH (p + dp) (c + dc) s), (IH dp dc s).
    destruct (combine_loop None (mkCombine 0 0 s) rest) as [st|e]; [|reflexivity].
    cbn [acc_prompt acc_completion acc_stop]. f_equal. f_equal; lia.
Qed.

Lemma combine_loop_app (code : option string) (l1 l2 : list dict) :
  forall st,
    combine_loop code st (l1 ++ l2)
    = (st' <- combine_loop code st l1 ;; combine_loop code st' l2).
Proof.
  induction l1 as [|g rest IH]; intro st; simpl; [reflexivity|].
  destruct (combine_step code st g); simpl; [apply IH | reflexivity].
Qed.

Lemma last_present_app (field : string) (l1 l2 : list dict) :
  last_present field (l1 ++ l2)
  = match last_present field l2 with
    | Some v => Some v
    | None => last_present field l1
    end.
Proof.
  induction l1 as [|g rest IH]; simpl.
  - destruct (last_present field l2); reflexivity.
  - rewrite IH. destruct (last_present field l2); reflexivity.
Qed.

(** The totals of a list, from zero, whatever the stop code. *)
Lemma combine_totals (l : list dict) (code : option string) :
  _combine_generation_info_for_llm_result l code
  = match combine_loop None (mkCombine 0 0 PNone) l with
    | Ok st =>
        Ok (mkInfo (mkUsage (acc_prompt st) (acc_completion st)
                      (acc_prompt st + acc_completion st))
              (last_stop_reason code l))
    | Raise e => Raise e
    end.
Proof.
  unfold _combine_generation_info_for_llm_result.
  rewrite (combine_loop_counts code l (mkCombine 0 0 (PStr ""))).
  cbn [acc_prompt acc_completion acc_stop].
  destruct (combine_loop None (mkCombine 0 0 PNone) l) as [st|e]; [|reflexivity].
  cbn [bind acc_prompt acc_completion acc_stop]. unfold last_stop_reason.
  destruct code as [field|]; [destruct (last_present field l)|]; reflexivity.
Qed.

(** X7: aggregating a list in two parts and adding up gives the same as
    aggregating it in one go: the token counts of the two parts add, the
    stop reason is that of the second part when the second part has the
    field and that of the first part otherwise, and the whole fails when
    either part does. *)
Theorem combine_of_appended_lists (l1 l2 : list dict) (code : option string) :
  _combine_generation_info_for_llm_result (l1 ++ l2) code
  = match _combine_generation_info_for_llm_result l1 code with
    | Raise e => Raise e
    | Ok r1 =>
        match _combine_generation_info_for_llm_result l2 code with
        | Raise e => Raise e
        | Ok r2 =>
            Ok (mkInfo
                  (mkUsage (prompt_tokens (usage r1) + prompt_tokens (usage r2))
                           (completion_tokens (usage r1) + completion_tokens (usage r2))
                           (prompt_tokens (usage r1) + prompt_tokens (usage r2)
                            + (completion_tokens (usage r1)
                               + completion_tokens (usage r2))))
                  (match code with
                   | Some field =>
                       match last_present field l2 with
                       | Some _ => stop_reason r2
                       | None => stop_reason r1
                       end
                   | None => stop_reason r1
                   end))
        end
    end.
Proof.
  rewrite !combine_totals. rewrite combine_loop_app.
  destruct (combine_loop None (mkCombine 0 0 PNone) l1) as [[p1 c1 s1]|e];
    cbn [bind]; [|reflexivity].
  rewrite (combine_loop_shift l2 p1 c1 s1).
  rewrite (combine_loop_counts None l2 (mkCombine 0 0 s1)).
  cbn [acc_prompt acc_completion acc_stop].
  destruct (combine_loop None (mkCombine 0 0 PNone) l2) as [[p2 c2 s2]|e];
    [|reflexivity].
  cbn [acc_prompt acc_completion acc_stop usage prompt_tokens completion_tokens
       stop_reason].
  f_equal. f_equal. unfold last_stop_reason.
  destruct code as [field|]; [|reflexivity].
  rewrite last_present_app. destruct (last_present field l2); reflexivity.
Qed.

Lemma sum_from_ints (xs : list Z) :
  forall acc, sum_from acc (map PInt xs) = Ok (acc + sum_ints xs).
Proof.
  induction xs as [|x xs IH]; intro acc; simpl.
  - f_equal. lia.
  - rewrite IH. f_equal. unfold sum_ints. simpl. lia.
Qed.

(** X8: a metadata map that has both a "usage" entry with arrays of counts
    and an "amazon-bedrock-invocationMetrics" entry with scalar counts is
    counted from both: every element of each array is added, and the
    scalars are added on top. *)
Theorem usage_and_invocation_metrics_both_count
    (xs ys : list Z) (n m : Z) (code : option string) :
  _combine_generation_info_for_llm_result
    [[("usage", PDict [("input_tokens", PList (map PInt xs));
                       ("output_tokens", PList (map PInt ys))]);
      ("amazon-bedrock-invocationMetrics",
       PDict [("inputTokenCount", PInt n); ("outputTokenCount", PInt m)])]]
    code
  = Ok (mkInfo (mkUsage (sum_ints xs + n) (sum_ints ys + m)
                        (sum_ints xs + n + (sum_ints ys + m)))
               (last_stop_reason code
                  [[("usage", PDict [("input_tokens", PList (map PInt xs));
                                     ("output_tokens", PList (map PInt ys))]);
                    ("amazon-bedrock-invocationMetrics",
                     PDict [("inputTokenCount", PInt n);
                            ("outputTokenCount", PInt m)])]])).
Proof.
  rewrite combine_totals. cbn [combine_loop].
  unfold combine_step, count_tokens, add_if_present, add_sum, py_sum. simpl.
  rewrite !sum_from_ints. simpl. reflexivity.
Qed.

(** X9: the invocation metrics chunk of the decoder adds nothing to the
    aggregated usage: its generation_info has neither a "usage" nor an
    "amazon-bedrock-invocationMetrics" entry, so appending it to a list
    leaves the aggregator's result as it was (for a stop-reason field other
    than "usage_metadata"). *)
Theorem metrics_chunk_is_not_aggregated
    (chunk_obj text : pyval) (info : dict) (l : list dict) (field : string) :
  _get_invocation_metrics_chunk chunk_obj = Ok (GenerationChunk text info) ->
  String.eqb field "usage_metadata" = false ->
  _combine_generation_info_for_llm_result (l ++ [info]) (Some field)
  = _combine_generation_info_for_llm_result l (Some field).
Proof.
  intros H N.
  assert (I : info = [] \/ exists u, info = [("usage_metadata", u)]).
  { unfold _get_invocation_metrics_chunk in H.
    apply bind_ok in H. destruct H as [metrics [_ H]].
    destruct (truthy metrics).
    - repeat (apply bind_ok in H; destruct H as [? [_ H]]).
      injection H as _ <-. right. eauto.
    - injection H as _ <-. left. reflexivity. }
  assert (C : _combine_generation_info_for_llm_result [info] (Some field)
              = Ok (mkInfo (mkUsage 0 0 0) (PStr ""))
              /\ last_present field [info] = None).
  { destruct I as [-> | [u ->]]; [split; reflexivity|].
    unfold _combine_generation_info_for_llm_result. simpl. rewrite N.
    split; reflexivity. }
  destruct C as [_ L].
  rewrite !combine_totals. rewrite combine_loop_app.
  unfold last_stop_reason. rewrite last_present_app, L.
  destruct (combine_loop None (mkCombine 0 0 PNone) l) as [[p c s]|e];
    cbn [bind]; [|reflexivity].
  assert (T : count_tokens info (p, c) = Ok (p, c)).
  { destruct I as [-> | [u ->]]; reflexivity. }
  cbn [combine_loop]. unfold combine_step. cbn [acc_prompt acc_completion].
  rewrite T. reflexivity.
Qed.

Lemma metrics_chunk_is_not_aggregated_witness :
  _combine_generation_info_for_llm_result
    ([[("stop_reason", PStr "stop")]]
     ++ [[("usage_metadata",
           PDict [("input_tokens", PInt 10); ("output_tokens", PInt 5);
                  ("total_tokens", PInt 15);
                  ("input_token_details",
                   PDict [("cache_creation", PInt 0); ("cache_read", PInt 0)])])]])
    (Some "stop_reason")
  = _combine_generation_info_for_llm_result [[("stop_reason", PStr "stop")]]
      (Some "stop_reason").
Proof.
  apply (metrics_chunk_is_not_aggregated
           (PDict [("type", PStr "message_stop");
                   ("amazon-bedrock-invocationMetrics",
                    PDict [("inputTokenCount", PInt 10);
                           ("outputTokenCount", PInt 5)])])
           (PStr "")
           [("usage_metadata",
             PDict [("input_tokens", PInt 10); ("output_tokens", PInt 5);
                    ("total_tokens", PInt 15);
                    ("input_token_details",
                     PDict [("cache_creation", PInt 0); ("cache_read", PInt 0)])])]
           [[("stop_reason", PStr "stop")]] "stop_reason");
    reflexivity.
Defined.

(** X6: for invocation metrics with integer input and output counts, the
    metrics chunk has an empty text and a usage_metadata entry whose
    total_tokens is input_tokens + output_tokens, a count that is missing
    being 0; the cache counts are reported beside it and are no part of
    the total. *)
Theorem metrics_chunk_total_is_input_plus_output
    (d metrics : dict) (i o : Z) :
  lookup "amazon-bedrock-invocationMetrics" d = Some (PDict metrics) ->
  metrics <> [] ->
  int_or_zero "inputTokenCount" metrics = Some i ->
  int_or_zero "outputTokenCount" metrics = Some o ->
  exists cache_write cache_read,
    _get_invocation_metrics_chunk (PDict d)
    = Ok (GenerationChunk (PStr "")
            [("usage_metadata",
              PDict [("input_tokens", PInt i); ("output_tokens", PInt o);
                     ("total_tokens", PInt (i + o));
                     ("input_token_details",
                      PDict [("cache_creation", cache_write);
                             ("cache_read", cache_read)])])])
    /\ py_get (PDict metrics) "cacheWriteInputTokenCount" (PInt 0) = Ok cache_write
    /\ py_get (PDict metrics) "cacheReadInputTokenCount" (PInt 0) = Ok cache_read.
Proof.
  intros Hm Hne Hi Ho. unfold _get_invocation_metrics_chunk.
  cbn [py_get bind]. rewrite Hm. cbn [truthy].
  destruct metrics as [|kv rest]; [congruence|].
  unfold int_or_zero in Hi, Ho. cbn [py_get bind].
  destruct (lookup "inputTokenCount" (kv :: rest)) as [[| |zi| | |]|];
    try discriminate; injection Hi as <-;
    destruct (lookup "outputTokenCount" (kv :: rest)) as [[| |zo| | |]|];
    try discriminate; injection Ho as <-;
    cbn [py_add int_add bind]; eexists; eexists; repeat split.
Qed.

Lemma metrics_chunk_total_is_input_plus_output_witness :
  exists cache_write cache_read,
    _get_invocation_metrics_chunk
      (PDict [("amazon-bedrock-invocationMetrics",
               PDict [("inputTokenCount", PInt 10);
                      ("cacheReadInputTokenCount", PInt 7)])])
    = Ok (GenerationChunk (PStr "")
            [("usage_metadata",
              PDict [("input_tokens", PInt 10); ("output_tokens", PInt 0);
                     ("total_tokens", PInt (10 + 0));
                     ("input_token_details",
                      PDict [("cache_creation", cache_write);
                             ("cache_read", cache_read)])])])
    /\ py_get (PDict [("inputTokenCount", PInt 10);
                      ("cacheReadInputTokenCount", PInt 7)])
         "cacheWriteInputTokenCount" (PInt 0) = Ok cache_write
    /\ py_get (PDict [("inputTokenCount", PInt 10);
                      ("cacheReadInputTokenCount", PInt 7)])
         "cacheReadInputTokenCount" (PInt 0) = Ok cache_read.
Proof.
  apply (metrics_chunk_total_is_input_plus_output
           [("amazon-bedrock-invocationMetrics",
             PDict [("inputTokenCount", PInt 10);
                    ("cacheReadInputTokenCount", PInt 7)])]
           [("inputTokenCount", PInt 10); ("cacheReadInputTokenCount", PInt 7)]
           10 0);
    [reflexivity | discriminate | reflexivity | reflexivity].
Defined.

(** ** Further properties of the response parser *)

(** X10: a provider the parser has no branch for is not rejected: its
    response is parsed the way an "amazon" response is, from
    results[0].outputText. *)
Theorem unlisted_provider_is_parsed_as_amazon
    (provider : string) (response : invoke_response) :
  existsb (String.eqb provider) parsed_providers = false ->
  prepare_output provider response = prepare_output "amazon" response.
Proof.
  unfold parsed_providers. simpl. intro H.
  repeat (apply orb_false_elim in H; destruct H as [? H]).
  unfold prepare_output, provider_text.
  repeat match goal with
         | E : String.eqb provider _ = false |- _ => rewrite E; clear E
         end.
  reflexivity.
Qed.

Lemma unlisted_provider_is_parsed_as_amazon_witness :
  prepare_output "unknown"
    (mkResponse (Some (Decoded (PDict [("results",
                                        PList [PDict [("outputText", PStr "Hi")]])])))
       None)
  = prepare_output "amazon"
      (mkResponse (Some (Decoded (PDict [("results",
                                          PList [PDict [("outputText", PStr "Hi")]])])))
         None).
Proof.
  apply (unlisted_provider_is_parsed_as_amazon "unknown"); reflexivity.
Defined.

Lemma type_is_dict (ty : string) (d : dict) :
  type_is ty (PDict d) = Ok (has_type ty (PDict d)).
Proof. unfold type_is, has_type, block_type. simpl. destruct (lookup "type" d); reflexivity. Qed.

Lemma text_blocks_of_content (blocks : list pyval) :
  forallb well_formed_block blocks = true ->
  exists texts,
    comprehension (type_is "text") (fun b => py_item b "text") blocks = Ok texts
    /\ join_strs texts = Ok (concat_texts blocks)
    /\ (texts = [] -> concat_texts blocks = EmptyString).
Proof.
  induction blocks as [|b rest IH]; simpl; intro W.
  - exists []. repeat split.
  - apply andb_prop in W. destruct W as [Wb Wr].
    destruct (IH Wr) as [texts [C [J E]]].
    destruct b as [| | | | |d]; try discriminate.
    rewrite type_is_dict. cbn [bind]. unfold concat_texts. cbn [fold_right].
    fold (concat_texts rest). unfold text_of.
    unfold well_formed_block in Wb. fold (has_type "text" (PDict d)) in Wb.
    apply andb_prop in Wb. destruct Wb as [Wb _].
    apply andb_prop in Wb. destruct Wb as [_ Wt].
    destruct (has_type "text" (PDict d)).
    + cbn [field py_item].
      destruct (lookup "text" d) as [[| | |s| |]|]; try discriminate.
      cbn [bind]. rewrite C. cbn [bind]. exists (PStr s :: texts).
      split; [reflexivity|]. split; [|discriminate].
      cbn [join_strs]. rewrite J. reflexivity.
    + exists texts. repeat split; assumption.
Qed.

Lemma thinking_blocks_of_content (blocks : list pyval) :
  forallb well_formed_block blocks = true ->
  comprehension (type_is "thinking") (fun b => Ok b) blocks
  = Ok (filter (has_type "thinking") blocks).
Proof.
  induction blocks as [|b rest IH]; simpl; intro W; [reflexivity|].
  apply andb_prop in W. destruct W as [Wb Wr].
  destruct b as [| | | | |d]; try discriminate.
  rewrite type_is_dict. cbn [bind]. rewrite (IH Wr).
  destruct (has_type "thinking" (PDict d)); reflexivity.
Qed.

Lemma uses_tools_of_content (blocks : list pyval) :
  forallb well_formed_block blocks = true ->
  anyM (type_is "tool_use") blocks = Ok (existsb (has_type "tool_use") blocks).
Proof.
  induction blocks as [|b rest IH]; simpl; intro W; [reflexivity|].
  apply andb_prop in W. destruct W as [Wb Wr].
  destruct b as [| | | | |d]; try discriminate.
  rewrite type_is_dict. cbn [bind].
  destruct (has_type "tool_use" (PDict d)); [reflexivity | apply IH, Wr].
Qed.

Lemma tool_calls_of_content (blocks : list pyval) :
  forallb well_formed_block blocks = true ->
  extract_blocks blocks = Ok (map tool_call_of (filter (has_type "tool_use") blocks)).
Proof.
  induction blocks as [|b rest IH]; simpl; intro W; [reflexivity|].
  apply andb_prop in W. destruct W as [Wb Wr].
  destruct b as [| | | | |d]; try discriminate.
  unfold well_formed_block in Wb.
  apply andb_prop in Wb. destruct Wb as [Wb Wt].
  apply andb_prop in Wb. destruct Wb as [Wk _].
  unfold has_type in *. unfold block_type in *. unfold has_key in Wk. cbn [py_item].
  destruct (lookup "type" d) as [ty|] eqn:T; [|discriminate]. cbn [bind].
  destruct (eq_str ty "tool_use") eqn:U; cbn [negb].
  - unfold has_key in Wt.
    destruct (lookup "name" d) as [n|] eqn:N; [|discriminate].
    destruct (lookup "input" d) as [a|] eqn:A; [|discriminate].
    destruct (lookup "id" d) as [i|] eqn:I; [|discriminate].
    cbn [bind]. rewrite (IH Wr). cbn [bind map]. unfold tool_call_of, field_or.
    cbn [field]. rewrite N, A, I. reflexivity.
  - apply IH, Wr.
Qed.

Lemma filter_none {A : Type} (p : A -> bool) (l : list A) :
  existsb p l = false -> filter p l = [].
Proof.
  induction l as [|x l IH]; simpl; [reflexivity|].
  destruct (p x); simpl; [discriminate | exact IH].
Qed.

Lemma anthropic_output_of_content (d : dict) (blocks : list pyval) :
  lookup "completion" d = None ->
  lookup "content" d = Some (PList blocks) ->
  forallb well_formed_block blocks = true ->
  anthropic_output (PDict d)
  = Ok (PStr (concat_texts blocks), thinking_of blocks,
        map tool_call_of (filter (has_type "tool_use") blocks)).
Proof.
  intros Hc Hb W. unfold anthropic_output.
  cbn [py_in py_get bind]. unfold has_key. rewrite Hc, Hb. cbn [bind py_iter].
  destruct (text_blocks_of_content blocks W) as [texts [C [J E]]].
  rewrite C. cbn [bind].
  assert (T : match texts with
              | [] => Ok (PStr "")
              | _ :: _ => t <- join_strs texts ;; Ok (PStr t)
              end = Ok (PStr (concat_texts blocks))).
  { destruct texts as [|t ts]; [rewrite (E eq_refl); reflexivity|].
    rewrite J. reflexivity. }
  rewrite T. cbn [bind]. rewrite (thinking_blocks_of_content blocks W). cbn [bind].
  assert (K : match filter (has_type "thinking") blocks with
              | [] => Ok []
              | thinking_block :: _ =>
                  t <- py_get thinking_block "thinking" (PStr "") ;;
                  sg <- py_get thinking_block "signature" (PStr "") ;;
                  Ok [("text", t); ("signature", sg)]
              end = Ok (thinking_of blocks)).
  { unfold thinking_of.
    destruct (filter (has_type "thinking") blocks) as [|b bs] eqn:F; [reflexivity|].
    assert (I : In b blocks).
    { assert (I' : In b (filter (has_type "thinking") blocks))
        by (rewrite F; left; reflexivity).
      apply filter_In in I'. apply I'. }
    rewrite forallb_forall in W. specialize (W b I).
    destruct b as [| | | | |db]; try discriminate.
    unfold field_or. cbn [py_get field bind].
    destruct (lookup "thinking" db); destruct (lookup "signature" db); reflexivity. }
  rewrite K. cbn [bind]. rewrite (uses_tools_of_content blocks W). cbn [bind].
  destruct (existsb (has_type "tool_use") blocks) eqn:X.
  - unfold extract_tool_calls. cbn [py_iter bind].
    rewrite (tool_calls_of_content blocks W). reflexivity.
  - rewrite (filter_none _ _ X). reflexivity.
Qed.

(** X11: from a messages response whose content blocks are well formed
    and that has no "completion" key, the parser takes as text the texts
    of the text blocks joined in order, as thinking the text and signature
    of the first thinking block (nothing when there is none), and as tool
    calls one call per tool_use block, in the order of the blocks. *)
Theorem parsed_content_keeps_block_order
    (response : invoke_response) (d : dict) (blocks : list pyval) (r : parsed_output) :
  resp_body response = Some (Decoded (PDict d)) ->
  lookup "completion" d = None ->
  lookup "content" d = Some (PList blocks) ->
  forallb well_formed_block blocks = true ->
  prepare_output "anthropic" response = Ok r ->
  out_text r = PStr (concat_texts blocks)
  /\ out_thinking r = thinking_of blocks
  /\ out_tool_calls r = map tool_call_of (filter (has_type "tool_use") blocks)
  /\ out_body r = PDict d.
Proof.
  intros Hbody Hc Hb W H. unfold prepare_output in H. rewrite Hbody in H.
  cbn [bind String.eqb Ascii.eqb Bool.eqb] in H.
  rewrite (anthropic_output_of_content d blocks Hc Hb W) in H. cbn [bind] in H.
  repeat (apply bind_ok in H; destruct H as [? [_ H]]).
  injection H as <-. repeat split.
Qed.

Lemma parsed_content_keeps_block_order_witness :
  out_text sample_content_output = PStr (concat_texts sample_content)
  /\ out_thinking sample_content_output = thinking_of sample_content
  /\ out_tool_calls sample_content_output
     = map tool_call_of (filter (has_type "tool_use") sample_content)
  /\ out_body sample_content_output
     = PDict [("content", PList sample_content); ("stop_reason", PStr "tool_use")].
Proof.
  apply (parsed_content_keeps_block_order sample_content_response
           [("content", PList sample_content); ("stop_reason", PStr "tool_use")]
           sample_content sample_content_output);
    reflexivity.
Defined.

(** ** Further properties of the request builder *)

Lemma lookup_set_max_tokens_same (max_tokens : option Z) (key : string) (body : dict) :
  lookup key (set_max_tokens max_tokens key (default_1024 key) body)
  = Some (max_tokens_value max_tokens key body).
Proof.
  unfold set_max_tokens, default_1024, max_tokens_value, has_key.
  destruct (nonzero max_tokens); [apply lookup_dict_set_same|].
  destruct (lookup key body) eqn:E; [exact E | apply lookup_dict_set_same].
Qed.

Lemma lookup_set_max_tokens_other (max_tokens : option Z) (k key : string) (body : dict) :
  String.eqb k key = false ->
  lookup k (set_max_tokens max_tokens key (default_1024 key) body) = lookup k body.
Proof.
  intro N. unfold set_max_tokens, default_1024.
  destruct (nonzero max_tokens); [apply lookup_dict_set_other, N|].
  destruct (has_key key body); [reflexivity | apply lookup_dict_set_other, N].
Qed.

Lemma lookup_set_opt_other (k key : string) (v : option pyval) (body : dict) :
  String.eqb k key = false ->
  lookup k (set_opt key v body) = lookup k body.
Proof.
  intro N. destruct v; simpl; [apply lookup_dict_set_other, N | reflexivity].
Qed.

(** X12: on the anthropic path the max-token field of the body is the
    max_tokens argument when that is given and not 0, else the value the
    model arguments already have under the field, else 1024: the field is
    "max_tokens" when messages are given and "max_tokens_to_sample" when a
    prompt is given, and the prompt in the body is the formatted one. *)
Theorem anthropic_max_tokens_default
    (thinking_in_params : dict -> bool) (model_kwargs : dict)
    (prompt system : option string) (messages tools : option (list pyval))
    (max_tokens : option Z) (temperature : option pyval) (r : prepared) :
  prepare_input thinking_in_params "anthropic" model_kwargs prompt system messages
    tools max_tokens temperature = Ok r ->
  (forall m ms, messages = Some (m :: ms) ->
     lookup "max_tokens" (input_body r)
     = Some (max_tokens_value max_tokens "max_tokens" model_kwargs))
  /\ (forall p, nonempty_str prompt = Some p ->
        lookup "max_tokens_to_sample" (input_body r)
        = Some (max_tokens_value max_tokens "max_tokens_to_sample" model_kwargs)
        /\ lookup "prompt" (input_body r) = Some (PStr (fst (_human_assistant_format p)))
        /\ warnings r = snd (_human_assistant_format p)).
Proof.
  unfold prepare_input. cbn [String.eqb Ascii.eqb Bool.eqb]. intro H.
  apply bind_ok in H. destruct H as [[body messages'] [Hst H]].
  assert (B1 : forall m ms, messages = Some (m :: ms) ->
                 lookup "max_tokens" body
                 = Some (max_tokens_value max_tokens "max_tokens" model_kwargs)).
  { intros m ms ->. apply bind_ok in Hst. destruct Hst as [[b l] [Ha Hst]].
    injection Hst as <- _. unfold anthropic_messages in Ha.
    apply bind_ok in Ha. destruct Ha as [l' [_ Ha]]. injection Ha as <- _.
    cbn [fst]. rewrite lookup_set_max_tokens_same. f_equal.
    unfold max_tokens_value. destruct (nonzero max_tokens); [reflexivity|].
    assert (L : forall (b0 : dict),
               lookup "max_tokens"
                 match nonempty_str system with
                 | Some s => dict_set "system" (PStr s) b0
                 | None => b0
                 end = lookup "max_tokens" b0).
    { intro b0. destruct (nonempty_str system);
        [apply lookup_dict_set_other|]; reflexivity. }
    rewrite L. rewrite !lookup_dict_set_other by reflexivity.
    destruct tools as [[|t ts]|]; try reflexivity.
    rewrite lookup_dict_set_other by reflexivity. reflexivity. }
  assert (B2 : lookup "max_tokens_to_sample" body
               = lookup "max_tokens_to_sample" model_kwargs).
  { destruct messages as [[|m ms]|]; try (injection Hst as <- _; reflexivity).
    apply bind_ok in Hst. destruct Hst as [[b l] [Ha Hst]].
    injection Hst as <- _. unfold anthropic_messages in Ha.
    apply bind_ok in Ha. destruct Ha as [l' [_ Ha]]. injection Ha as <- _.
    cbn [fst]. rewrite lookup_set_max_tokens_other by reflexivity.
    destruct (nonempty_str system);
      [rewrite lookup_dict_set_other by reflexivity|];
      rewrite !lookup_dict_set_other by reflexivity;
      (destruct tools as [[|t ts]|]; try reflexivity;
       rewrite lookup_dict_set_other by reflexivity; reflexivity). }
  destruct (nonempty_str prompt) as [p|] eqn:P.
  - destruct (_human_assistant_format p) as [formatted ws] eqn:F.
    injection H as <-. cbn [input_body warnings]. split.
    + intros m ms E. rewrite lookup_set_opt_other by reflexivity.
      rewrite lookup_set_max_tokens_other by reflexivity.
      rewrite lookup_dict_set_other by reflexivity. exact (B1 m ms E).
    + intros p' E. injection E as <-. rewrite F. cbn [fst snd].
      split; [|split; [|reflexivity]].
      * rewrite lookup_set_opt_other by reflexivity.
        rewrite lookup_set_max_tokens_same. f_equal.
        unfold max_tokens_value. destruct (nonzero max_tokens); [reflexivity|].
        rewrite lookup_dict_set_other by reflexivity. rewrite B2. reflexivity.
      * rewrite lookup_set_opt_other by reflexivity.
        rewrite lookup_set_max_tokens_other by reflexivity.
        apply lookup_dict_set_same.
  - injection H as <-. cbn [input_body]. split; [|discriminate].
    intros m ms E. rewrite lookup_set_opt_other by reflexivity. exact (B1 m ms E).
Qed.

Lemma anthropic_max_tokens_default_witness :
  lookup "max_tokens"
    (input_body
       (mkPrepared [("anthropic_version", PStr "bedrock-2023-05-31");
                    ("messages", PList [sample_question]);
                    ("max_tokens", PInt 1024)]
          (Some [sample_question]) []))
  = Some (max_tokens_value (Some 0) "max_tokens" []).
Proof.
  refine (proj1 (anthropic_max_tokens_default thinking_type_enabled [] None None
                   (Some [sample_question]) None (Some 0) None
                   (mkPrepared [("anthropic_version", PStr "bedrock-2023-05-31");
                                ("messages", PList [sample_question]);
                                ("max_tokens", PInt 1024)]
                      (Some [sample_question]) []) _)
            sample_question [] eq_refl).
  vm_compute. reflexivity.
Defined.

Lemma nonzero_some (z : Z) : z <> 0 -> nonzero (Some z) = Some z.
Proof. intro H. unfold nonzero. apply Z.eqb_neq in H. rewrite H. reflexivity. Qed.

(** X13: a max_tokens argument that is not 0 reaches the body under the
    provider's own field: "max_tokens" for cohere, mistral, deepseek and
    writer, "max_gen_len" for meta, "maxTokenCount" inside
    "textGenerationConfig" for amazon; for ai21 it is dropped, the body
    being the one built without it. *)
Theorem max_tokens_field_by_provider
    (thinking_in_params : dict -> bool) (provider : string) (model_kwargs : dict)
    (prompt system : option string) (messages tools : option (list pyval))
    (z : Z) (temperature : option pyval) :
  z <> 0 ->
  let built := prepare_input thinking_in_params provider model_kwargs prompt system
                 messages tools (Some z) temperature in
  (existsb (String.eqb provider) ["cohere"; "mistral"; "deepseek"; "writer"] = true ->
   exists r, built = Ok r /\ lookup "max_tokens" (input_body r) = Some (PInt z))
  /\ (provider = "meta" ->
      exists r, built = Ok r /\ lookup "max_gen_len" (input_body r) = Some (PInt z))
  /\ (provider = "amazon" ->
      exists r config,
        built = Ok r
        /\ lookup "textGenerationConfig" (input_body r) = Some (PDict config)
        /\ lookup "maxTokenCount" config = Some (PInt z))
  /\ (provider = "ai21" ->
      built = prepare_input thinking_in_params provider model_kwargs prompt system
                messages tools None temperature).
Proof.
  intros Hz built. subst built.
  assert (R : forall key body,
             lookup key (set_opt "temperature" temperature (dict_set key (PInt z) body))
             = Some (PInt z) \/ key = "temperature").
  { intros key body. destruct (String.eqb key "temperature") eqn:E.
    - right. apply String.eqb_eq, E.
    - left. rewrite lookup_set_opt_other by exact E. apply lookup_dict_set_same. }
  split; [|split; [|split]].
  - simpl. intro H.
    repeat (apply orb_prop in H; destruct H as [H|H]); try discriminate;
      apply String.eqb_eq in H; subst provider;
      unfold prepare_input; cbn [String.eqb Ascii.eqb Bool.eqb existsb orb];
      rewrite (nonzero_some z Hz); cbn [max_tokens_key String.eqb Ascii.eqb Bool.eqb];
      eexists; (split; [reflexivity|]); cbn [input_body];
      (destruct (R "max_tokens" (dict_set "prompt" (opt_str prompt) model_kwargs))
        as [L|L]; [exact L | discriminate]).
  - intros ->. unfold prepare_input. cbn [String.eqb Ascii.eqb Bool.eqb existsb orb].
    rewrite (nonzero_some z Hz). cbn [max_tokens_key String.eqb Ascii.eqb Bool.eqb].
    eexists. split; [reflexivity|]. cbn [input_body].
    destruct (R "max_gen_len" (dict_set "prompt" (opt_str prompt) model_kwargs))
      as [L|L]; [exact L | discriminate].
  - intros ->. unfold prepare_input. cbn [String.eqb Ascii.eqb Bool.eqb existsb orb].
    unfold set_max_tokens. rewrite (nonzero_some z Hz).
    eexists. eexists. split; [reflexivity|]. cbn [input_body]. split; [reflexivity|].
    destruct (R "maxTokenCount" model_kwargs) as [L|L]; [exact L | discriminate].
  - intros ->. unfold prepare_input. cbn [String.eqb Ascii.eqb Bool.eqb existsb orb].
    rewrite (nonzero_some z Hz). reflexivity.
Qed.

Lemma max_tokens_field_by_provider_witness :
  exists r,
    prepare_input thinking_type_enabled "meta" [] (Some "Hi") None None None (Some 256)
      None = Ok r
    /\ lookup "max_gen_len" (input_body r) = Some (PInt 256).
Proof.
  apply (proj1 (proj2 (max_tokens_field_by_provider thinking_type_enabled "meta" []
                         (Some "Hi") None None None 256 None ltac:(discriminate)))).
  reflexivity.
Defined.

Lemma split_last2_inv {A : Type} (l : list A) :
  forall front a b, split_last2 l = Some (front, a, b) -> l = (front ++ [a; b])%list.
Proof.
  induction l as [|x l IH]; intros front a b H; [discriminate|].
  destruct l as [|y [|z t]].
  - discriminate.
  - injection H as <- <- <-. reflexivity.
  - change (split_last2 (x :: y :: z :: t))
      with (match split_last2 (y :: z :: t) with
            | Some (front, a, b) => Some (x :: front, a, b)
            | None => None
            end) in H.
    destruct (split_last2 (y :: z :: t)) as [[[f' a'] b']|]; [|discriminate].
    injection H as <- <- <-. rewrite (IH f' a' b' eq_refl). reflexivity.
Qed.

Lemma length_store (r : nat) (v : pyval) (heap : list pyval) :
  List.length (store r v heap) = List.length heap.
Proof.
  revert r. induction heap as [|x heap IH]; intro r; [reflexivity|].
  destruct r; cbn [store List.length]; [reflexivity|]. rewrite IH. reflexivity.
Qed.

Lemma deref_store_other (r r' : nat) (v : pyval) (heap : list pyval) :
  r' <> r -> deref (store r v heap) r' = deref heap r'.
Proof.
  unfold deref. revert r r'. induction heap as [|x heap IH]; intros r r' N.
  - reflexivity.
  - destruct r as [|r]; destruct r' as [|r']; cbn [store nth]; try reflexivity.
    + congruence.
    + apply IH. congruence.
Qed.

Lemma deref_store_same (r : nat) (v : pyval) (heap : list pyval) :
  (r < List.length heap)%nat -> deref (store r v heap) r = v.
Proof.
  unfold deref. revert r. induction heap as [|x heap IH]; intros r L.
  - cbn in L. lia.
  - destruct r as [|r]; cbn [store nth]; [reflexivity|].
    apply IH. cbn in L. lia.
Qed.

Lemma deref_dict_valid (heap : list pyval) (r : nat) :
  is_dict (deref heap r) = true -> (r < List.length heap)%nat.
Proof.
  unfold deref. intro H. destruct (Nat.lt_ge_cases r (List.length heap)) as [L|G];
    [exact L|].
  rewrite (nth_overflow heap PNone G) in H. discriminate.
Qed.

Lemma split_last2_map {A B : Type} (f : A -> B) (l : list A) :
  split_last2 (map f l)
  = match split_last2 l with
    | Some (front, a, b) => Some (map f front, f a, f b)
    | None => None
    end.
Proof.
  induction l as [|x l IH]; [reflexivity|].
  destruct l as [|y [|z t]]; try reflexivity.
  change (split_last2 (map f (x :: y :: z :: t)))
    with (match split_last2 (map f (y :: z :: t)) with
          | Some (front, a, b) => Some (f x :: front, a, b)
          | None => None
          end).
  rewrite IH.
  change (split_last2 (x :: y :: z :: t))
    with (match split_last2 (y :: z :: t) with
          | Some (front, a, b) => Some (x :: front, a, b)
          | None => None
          end).
  destruct (split_last2 (y :: z :: t)) as [[[fr a] b]|]; reflexivity.
Qed.

(** The block on objects and the block on values: the same decisions, and
    the value written into the object is the one the value-level block
    puts at the second-to-last position. *)
Lemma thinking_first_objects_view (heap : list pyval) (refs : list nat)
    (heap' : list pyval) :
  thinking_first_objects heap refs = Ok heap' ->
  (heap' = heap /\ thinking_first (listed heap refs) = Ok (listed heap refs))
  \/ exists front a l asst',
      refs = (front ++ [a; l])%list
      /\ heap' = store a asst' heap
      /\ (a < List.length heap)%nat
      /\ thinking_first (listed heap refs)
         = Ok (listed heap front ++ [asst'; deref heap l])%list.
Proof.
  unfold thinking_first_objects, thinking_first, listed.
  rewrite split_last2_map.
  destruct (split_last2 refs) as [[[front a] l]|] eqn:S;
    [|intro H; injection H as <-; left; split; reflexivity].
  apply split_last2_inv in S. intro H.
  apply bind_ok in H. destruct H as [r1 [E1 H]]. rewrite E1. cbn [bind].
  destruct (negb (eq_str r1 "user"));
    [injection H as <-; left; split; reflexivity|].
  apply bind_ok in H. destruct H as [r2 [E2 H]]. rewrite E2. cbn [bind].
  destruct (negb (eq_str r2 "assistant"));
    [injection H as <-; left; split; reflexivity|].
  apply bind_ok in H. destruct H as [last_user_msg [E3 H]]. rewrite E3. cbn [bind].
  destruct (match last_user_msg with
            | PList items => existsb is_tool_result items
            | _ => false
            end); [|injection H as <-; left; split; reflexivity].
  apply bind_ok in H. destruct H as [asst_content [E4 H]]. rewrite E4. cbn [bind].
  apply bind_ok in H. destruct H as [new_content [E5 H]]. rewrite E5. cbn [bind].
  destruct new_content as [blocks|];
    [|injection H as <-; left; split; reflexivity].
  apply bind_ok in H. destruct H as [asst' [E6 H]]. rewrite E6. cbn [bind].
  injection H as <-. right. exists front, a, l, asst'.
  repeat split; try assumption.
  apply deref_dict_valid. destruct (deref heap a); try discriminate. reflexivity.
Qed.

(** X14: the reorder of the request builder writes into one object.  On a
    list of references to dict objects, which may hold an object more than
    once, the block leaves every object but the one at the second-to-last
    position as it was; the positions that hold that object all show what
    the second-to-last position shows, and the positions that hold
    another object show what they showed before.  When no object is listed
    twice, the list after the block is the list the value-level block
    gives. *)
Theorem reorder_writes_one_object
    (heap : list pyval) (refs : list nat) (heap' : list pyval) :
  thinking_first_objects heap refs = Ok heap' ->
  exists messages',
    thinking_first (listed heap refs) = Ok messages'
    /\ List.length heap' = List.length heap
    /\ nth_error (listed heap' refs) (second_to_last refs)
       = nth_error messages' (second_to_last refs)
    /\ (forall r,
          nth_error refs (second_to_last refs) <> Some r ->
          deref heap' r = deref heap r)
    /\ (forall i r,
          nth_error refs i = Some r ->
          nth_error refs (second_to_last refs) <> Some r ->
          nth_error (listed heap' refs) i = nth_error (listed heap refs) i)
    /\ (forall i r,
          nth_error refs i = Some r ->
          nth_error refs (second_to_last refs) = Some r ->
          nth_error (listed heap' refs) i
          = nth_error messages' (second_to_last refs))
    /\ (NoDup refs -> listed heap' refs = messages').
Proof.
  intro H.
  assert (At : forall h i r, nth_error refs i = Some r ->
                 nth_error (listed h refs) i = Some (deref h r)).
  { intros h i r E. unfold listed. rewrite nth_error_map, E. reflexivity. }
  destruct (thinking_first_objects_view heap refs heap' H)
    as [[-> V] | [front [a [l [asst' [R [-> [L V]]]]]]]].
  - exists (listed heap refs). split; [exact V|]. repeat split.
    + intros i r E1 E2. rewrite (At heap i r E1), (At heap _ r E2). reflexivity.
  - exists (listed heap front ++ [asst'; deref heap l])%list. split; [exact V|].
    assert (P : second_to_last refs = List.length front).
    { unfold second_to_last. rewrite R, length_app. cbn [List.length]. lia. }
    assert (Pa : nth_error refs (List.length front) = Some a).
    { rewrite R, nth_error_app2 by lia. rewrite Nat.sub_diag. reflexivity. }
    assert (Pm : nth_error (listed heap front ++ [asst'; deref heap l])
                   (List.length front) = Some asst').
    { rewrite nth_error_app2 by (unfold listed; rewrite length_map; lia).
      unfold listed. rewrite length_map, Nat.sub_diag. reflexivity. }
    rewrite P, Pa, Pm.
    split; [apply length_store|].
    split; [rewrite (At _ _ a Pa), (deref_store_same a asst' heap L); reflexivity|].
    split; [|split; [|split]].
    + intros r N. apply deref_store_other. congruence.
    + intros i r E N. rewrite (At _ i r E), (At heap i r E).
      rewrite deref_store_other by congruence. reflexivity.
    + intros i r E Er. injection Er as <-.
      rewrite (At _ i a E), (deref_store_same a asst' heap L). reflexivity.
    + intro D. rewrite R in D |- *. unfold listed. rewrite map_app. cbn [map].
      apply NoDup_remove in D. destruct D as [D Na].
      rewrite (deref_store_same a asst' heap L).
      assert (Nl : l <> a).
      { intro E. subst l. apply Na. apply in_or_app. right. left. reflexivity. }
      rewrite (deref_store_other a l asst' heap Nl).
      f_equal. apply map_ext_in. intros r I. apply deref_store_other.
      intro E. subst r. apply Na. apply in_or_app. left. exact I.
Qed.

Lemma reorder_writes_one_object_witness :
  exists messages',
    thinking_first (listed shared_heap shared_refs) = Ok messages'
    /\ List.length shared_heap_after = List.length shared_heap
    /\ nth_error (listed shared_heap_after shared_refs) (second_to_last shared_refs)
       = nth_error messages' (second_to_last shared_refs)
    /\ (forall r,
          nth_error shared_refs (second_to_last shared_refs) <> Some r ->
          deref shared_heap_after r = deref shared_heap r)
    /\ (forall i r,
          nth_error shared_refs i = Some r ->
          nth_error shared_refs (second_to_last shared_refs) <> Some r ->
          nth_error (listed shared_heap_after shared_refs) i
          = nth_error (listed shared_heap shared_refs) i)
    /\ (forall i r,
          nth_error shared_refs i = Some r ->
          nth_error shared_refs (second_to_last shared_refs) = Some r ->
          nth_error (listed shared_heap_after shared_refs) i
          = nth_error messages' (second_to_last shared_refs))
    /\ (NoDup shared_refs -> listed shared_heap_after shared_refs = messages').
Proof.
  apply (reorder_writes_one_object shared_heap shared_refs shared_heap_after).
  reflexivity.
Defined.

Lemma partition_permutation {A : Type} (p q : A -> bool) (l : list A) :
  (forall x, In x l -> q x = negb (p x)) ->
  Permutation l (filter p l ++ filter q l).
Proof.
  induction l as [|x l IH]; simpl; intro H; [constructor|].
  assert (IH' : Permutation l (filter p l ++ filter q l)) by (apply IH; auto).
  rewrite (H x (or_introl eq_refl)). destruct (p x); simpl.
  - constructor. exact IH'.
  - apply Permutation_cons_app. exact IH'.
Qed.

(** X15: the content the builder gives the assistant message is the
    thinking blocks in their order followed by the other dict blocks in
    theirs.  When every block is a dict this is a rearrangement of the
    blocks, none lost and none twice; a block that is no dict is left
    out. *)
Theorem reordered_content_partitions (blocks new_content : list pyval) :
  reordered_content (PList blocks) = Ok (Some new_content) ->
  new_content = thinking_blocks_first blocks
  /\ (forallb is_dict blocks = true -> Permutation blocks new_content)
  /\ (forall b, In b new_content -> In b blocks /\ is_dict b = true).
Proof.
  intro H.
  assert (E : new_content = thinking_blocks_first blocks).
  { unfold reordered_content in H. destruct blocks as [|first rest]; [discriminate|].
    destruct (filter is_thinking_block (first :: rest)) eqn:F; [discriminate|].
    apply bind_ok in H. destruct H as [t [_ H]].
    destruct (negb (in_strs t thinking_types)); [|discriminate].
    injection H as <-. unfold thinking_blocks_first. rewrite F. reflexivity. }
  subst new_content. split; [reflexivity|]. split.
  - intro D. apply partition_permutation. intros x I.
    rewrite forallb_forall in D. unfold is_other_block, is_thinking_block.
    rewrite (D x I). reflexivity.
  - intros b I. unfold thinking_blocks_first in I. apply in_app_or in I.
    destruct I as [I|I]; apply filter_In in I; destruct I as [I P]; split; try exact I.
    + unfold is_thinking_block in P. apply andb_prop in P. apply P.
    + unfold is_other_block in P. apply andb_prop in P. apply P.
Qed.

Lemma reordered_content_partitions_witness :
  [sample_thinking_block; sample_text_block]
  = thinking_blocks_first [sample_text_block; PStr "stray"; sample_thinking_block]
  /\ (forallb is_dict [sample_text_block; PStr "stray"; sample_thinking_block] = true ->
      Permutation [sample_text_block; PStr "stray"; sample_thinking_block]
        [sample_thinking_block; sample_text_block])
  /\ (forall b, In b [sample_thinking_block; sample_text_block] ->
                In b [sample_text_block; PStr "stray"; sample_thinking_block]
                /\ is_dict b = true).
Proof.
  apply (reordered_content_partitions
           [sample_text_block; PStr "stray"; sample_thinking_block]
           [sample_thinking_block; sample_text_block]).
  reflexivity.
Defined.

(** ** Model identifiers *)

Lemma split_on_no_dot (a : string) (n : nat) :
  no_dot a = true -> split_on "."%char n a = [a].
Proof.
  induction a as [|c a IH]; simpl; intro H; [reflexivity|].
  apply andb_prop in H. destruct H as [Hc Ha].
  apply negb_true_iff in Hc. rewrite Hc, (IH Ha). reflexivity.
Qed.

Lemma split_on_first (a rest : string) (n : nat) :
  no_dot a = true ->
  split_on "."%char (S n) (a ++ String "."%char rest)
  = a :: split_on "."%char n rest.
Proof.
  induction a as [|c a IH]; simpl; intro H; [reflexivity|].
  apply andb_prop in H. destruct H as [Hc Ha].
  apply negb_true_iff in Hc. rewrite Hc, (IH Ha). reflexivity.
Qed.

Lemma split_on_nonempty (sep : ascii) (n : nat) (s : string) :
  split_on sep n s <> [].
Proof.
  revert n. induction s as [|c s IH]; intro n; simpl; [discriminate|].
  destruct (Ascii.eqb c sep).
  - destruct n; discriminate.
  - destruct (split_on sep n s); discriminate.
Qed.

Lemma prefix_cons (c d : ascii) (s1 s2 : string) :
  prefix (String c s1) (String d s2) = if ascii_dec c d then prefix s1 s2 else false.
Proof. reflexivity. Qed.

(** X16: how the provider is found.  A provider that is given wins over
    the model id; without one, an ARN is refused with a ValueError;
    otherwise the provider is the part of the model id before its first
    dot, unless that part is a region prefix (eu, us, us-gov, apac, sa, in
    any case) and something follows it, in which case it is the part after
    it; a model id without a dot is its own provider. *)
Theorem provider_of_model_id :
  (forall p model_id, p <> EmptyString -> _get_provider (Some p) model_id = Ok p)
  /\ (forall provider model_id,
        nonempty_str provider = None ->
        prefix "arn" model_id = true ->
        _get_provider provider model_id = Raise ValueError)
  /\ (forall a b rest,
        no_dot a = true -> no_dot b = true ->
        prefix "arn" a = false ->
        existsb (String.eqb (lower a)) region_prefixes = true ->
        _get_provider None (a ++ "." ++ b) = Ok b
        /\ _get_provider None (a ++ "." ++ b ++ "." ++ rest) = Ok b
        /\ _get_provider None a = Ok a)
  /\ (forall a rest,
        no_dot a = true ->
        prefix "arn" a = false ->
        existsb (String.eqb (lower a)) region_prefixes = false ->
        _get_provider None (a ++ "." ++ rest) = Ok a
        /\ _get_provider None a = Ok a).
Proof.
  assert (Arn : forall a rest, prefix "arn" a = false ->
                  prefix "arn" (a ++ String "."%char rest) = false).
  { intros a rest H.
    destruct a as [|c1 a]; [reflexivity|].
    change (String c1 a ++ String "."%char rest)
      with (String c1 (a ++ String "."%char rest)).
    rewrite prefix_cons in *. destruct (ascii_dec "a" c1); [|reflexivity].
    destruct a as [|c2 a]; [reflexivity|].
    change (String c2 a ++ String "."%char rest)
      with (String c2 (a ++ String "."%char rest)).
    rewrite prefix_cons in *. destruct (ascii_dec "r" c2); [|reflexivity].
    destruct a as [|c3 a]; [reflexivity|].
    change (String c3 a ++ String "."%char rest)
      with (String c3 (a ++ String "."%char rest)).
    rewrite prefix_cons in *. destruct (ascii_dec "n" c3); [|reflexivity].
    exfalso. destruct a; discriminate H. }
  split; [|split; [|split]].
  - intros p model_id H. unfold _get_provider. destruct p; [congruence | reflexivity].
  - intros provider model_id N A. unfold _get_provider. rewrite N, A. reflexivity.
  - intros a b rest Ha Hb Harn Hreg. unfold _get_provider. cbn [nonempty_str].
    split; [|split].
    + change (a ++ "." ++ b) with (a ++ String "."%char b).
      rewrite (Arn a b Harn), (split_on_first a b 1 Ha), (split_on_no_dot b 1 Hb), Hreg.
      reflexivity.
    + change (a ++ "." ++ b ++ "." ++ rest)
        with (a ++ String "."%char (b ++ String "."%char rest)).
      rewrite (Arn a _ Harn), (split_on_first a _ 1 Ha), (split_on_first b rest 0 Hb),
        Hreg.
      reflexivity.
    + rewrite Harn, (split_on_no_dot a 2 Ha). reflexivity.
  - intros a rest Ha Harn Hreg. unfold _get_provider. cbn [nonempty_str]. split.
    + change (a ++ "." ++ rest) with (a ++ String "."%char rest).
      rewrite (Arn a rest Harn), (split_on_first a rest 1 Ha), Hreg.
      destruct (split_on "."%char 1 rest) eqn:E; [|reflexivity].
      exfalso. exact (split_on_nonempty _ _ _ E).
    + rewrite Harn, (split_on_no_dot a 2 Ha). reflexivity.
Qed.

Lemma provider_of_model_id_witness :
  _get_provider None ("US" ++ "." ++ "anthropic") = Ok "anthropic"
  /\ _get_provider None ("US" ++ "." ++ "anthropic" ++ "." ++ "claude-v2:1")
     = Ok "anthropic"
  /\ _get_provider None "US" = Ok "US".
Proof.
  apply (proj1 (proj2 (proj2 provider_of_model_id)) "US" "anthropic" "claude-v2:1");
    reflexivity.
Defined.

Lemma split_on_zero (sep : ascii) (s : string) : split_on sep 0 s = [s].
Proof.
  induction s as [|c s IH]; simpl; [reflexivity|].
  destruct (Ascii.eqb c sep); [reflexivity|]. rewrite IH. reflexivity.
Qed.

(** X17: the base model is the base model id when one is given, else what
    follows the first dot of the model id, further dots included, else the
    model id itself when it has no dot. *)
Theorem base_model_of_model_id :
  (forall b model_id, b <> EmptyString -> _get_base_model (Some b) model_id = Ok b)
  /\ (forall a rest, no_dot a = true ->
        _get_base_model None (a ++ "." ++ rest) = Ok rest)
  /\ (forall a, no_dot a = true -> _get_base_model None a = Ok a).
Proof.
  split; [|split].
  - intros b model_id H. unfold _get_base_model. destruct b; [congruence | reflexivity].
  - intros a rest H. unfold _get_base_model. cbn [nonempty_str].
    change (a ++ "." ++ rest) with (a ++ String "."%char rest).
    rewrite (split_on_first a rest 0 H), split_on_zero. reflexivity.
  - intros a H. unfold _get_base_model. cbn [nonempty_str].
    rewrite (split_on_no_dot a 1 H). reflexivity.
Qed.

Lemma base_model_of_model_id_witness :
  _get_base_model None ("us" ++ "." ++ "anthropic.claude-3-haiku-20240307-v1:0")
  = Ok "anthropic.claude-3-haiku-20240307-v1:0".
Proof.
  apply (proj1 (proj2 base_model_of_model_id) "us"
           "anthropic.claude-3-haiku-20240307-v1:0").
  reflexivity.
Defined.

Lemma arn_prefix_app (a rest : string) :
  prefix "arn" a = false -> prefix "arn" (a ++ String "."%char rest) = false.
Proof.
  intro H.
  destruct a as [|c1 a]; [reflexivity|].
  change (String c1 a ++ String "."%char rest)
    with (String c1 (a ++ String "."%char rest)).
  rewrite prefix_cons in *. destruct (ascii_dec "a" c1); [|reflexivity].
  destruct a as [|c2 a]; [reflexivity|].
  change (String c2 a ++ String "."%char rest)
    with (String c2 (a ++ String "."%char rest)).
  rewrite prefix_cons in *. destruct (ascii_dec "r" c2); [|reflexivity].
  destruct a as [|c3 a]; [reflexivity|].
  change (String c3 a ++ String "."%char rest)
    with (String c3 (a ++ String "."%char rest)).
  rewrite prefix_cons in *. destruct (ascii_dec "n" c3); [|reflexivity].
  exfalso. destruct a; discriminate H.
Qed.

Lemma provider_after_region (a b rest : string) :
  no_dot a = true -> no_dot b = true ->
  prefix "arn" a = false ->
  existsb (String.eqb (lower a)) region_prefixes = true ->
  _get_provider None (a ++ "." ++ b ++ "." ++ rest) = Ok b.
Proof.
  intros Ha Hb Harn Hreg. unfold _get_provider. cbn [nonempty_str].
  change (a ++ "." ++ b ++ "." ++ rest)
    with (a ++ String "."%char (b ++ String "."%char rest)).
  rewrite (arn_prefix_app a _ Harn), (split_on_first a _ 1 Ha),
    (split_on_first b rest 0 Hb), Hreg.
  reflexivity.
Qed.

Lemma prefix_app (s t : string) : prefix s (s ++ t) = true.
Proof.
  induction s as [|c s IH]; [destruct t; reflexivity|].
  change (String c s ++ t) with (String c (s ++ t)). rewrite prefix_cons.
  destruct (ascii_dec c c); [exact IH | congruence].
Qed.

(** X18: the completion model refuses a Claude 3 model id only when the
    id starts with "anthropic.claude-3".  With a region prefix in front
    the same model passes the check, although the provider found for it
    is still anthropic. *)
Theorem region_prefix_passes_claude3_check (region rest : string) :
  In region region_prefixes ->
  validate_environment_llm None ("anthropic.claude-3" ++ rest) = Raise ValueError
  /\ validate_environment_llm None (region ++ ".anthropic.claude-3" ++ rest) = Ok tt
  /\ _get_provider None (region ++ ".anthropic.claude-3" ++ rest) = Ok "anthropic"
  /\ _model_is_anthropic None (region ++ ".anthropic.claude-3" ++ rest) = Ok true.
Proof.
  intro H. split.
  { unfold validate_environment_llm. cbn [nonempty_str].
    rewrite prefix_app. reflexivity. }
  assert (P : _get_provider None (region ++ ".anthropic.claude-3" ++ rest)
              = Ok "anthropic").
  { assert (D : no_dot region = true /\ prefix "arn" region = false
                /\ existsb (String.eqb (lower region)) region_prefixes = true).
    { simpl in H.
      repeat (destruct H as [<- | H]; [repeat split|]). destruct H. }
    destruct D as [D1 [D2 D3]].
    exact (provider_after_region region "anthropic" ("claude-3" ++ rest)
             D1 eq_refl D2 D3). }
  split; [|split; [exact P|]].
  - simpl in H.
    repeat (destruct H as [<- | H]; [reflexivity|]). destruct H.
  - unfold _model_is_anthropic. rewrite P. reflexivity.
Qed.

Lemma region_prefix_passes_claude3_check_witness :
  validate_environment_llm None ("anthropic.claude-3" ++ "-haiku") = Raise ValueError
  /\ validate_environment_llm None ("us" ++ ".anthropic.claude-3" ++ "-haiku") = Ok tt
  /\ _get_provider None ("us" ++ ".anthropic.claude-3" ++ "-haiku") = Ok "anthropic"
  /\ _model_is_anthropic None ("us" ++ ".anthropic.claude-3" ++ "-haiku") = Ok true.
Proof.
  apply (region_prefix_passes_claude3_check "us" "-haiku").
  simpl. right. left. reflexivity.
Defined.

(** ** Guardrails *)

(** X19: guardrails count as enabled exactly when they are a dict with a
    true "guardrailIdentifier" and a true "guardrailVersion".  The check
    fails, with a TypeError, only for a dict that lacks the identifier, or
    that has a true identifier and lacks the version: with an identifier
    that is false the version is not looked at, and the default guardrails
    are not enabled. *)
Theorem guardrails_enabled_when_both_set (guardrails : pyval) :
  match _guardrails_enabled guardrails with
  | Ok b =>
      b = is_dict guardrails
          && truthy (field_or "guardrailIdentifier" PNone guardrails)
          && truthy (field_or "guardrailVersion" PNone guardrails)
  | Raise e =>
      e = TypeError
      /\ is_dict guardrails = true
      /\ (field "guardrailIdentifier" guardrails = None
          \/ (truthy (field_or "guardrailIdentifier" PNone guardrails) = true
              /\ field "guardrailVersion" guardrails = None))
  end
  /\ (forall g i, lookup "guardrailIdentifier" g = Some i -> truthy i = false ->
        _guardrails_enabled (PDict g) = Ok false)
  /\ _guardrails_enabled default_guardrails = Ok false.
Proof.
  split; [|split; [|reflexivity]].
  - destruct guardrails as [| | | | |g]; try reflexivity.
    unfold _guardrails_enabled, field_or, field. cbn [is_dict andb].
    destruct (lookup "guardrailIdentifier" g) as [i|]; [|auto].
    destruct (truthy i) eqn:T; [|reflexivity].
    destruct (lookup "guardrailVersion" g) as [v|]; [reflexivity | auto].
  - intros g i L T. unfold _guardrails_enabled. rewrite L, T. reflexivity.
Qed.

Lemma guardrails_enabled_when_both_set_witness :
  _guardrails_enabled (PDict [("guardrailIdentifier", PStr "")]) = Ok false.
Proof.
  apply (proj1 (proj2 (guardrails_enabled_when_both_set PNone))
           [("guardrailIdentifier", PStr "")] (PStr ""));
    reflexivity.
Defined.

(** X20: the services signal is raised only when the guardrails are
    enabled, their "trace" is true and the body's guardrail action is
    "INTERVENED"; it then carries the reason GUARDRAIL_INTERVENED and the
    body's trace.  With guardrails that are not enabled there is no
    signal, whatever the body is, a body that is no dict included. *)
Theorem services_signal_needs_enabled_traced_intervention
    (guardrails body : pyval) :
  (forall s, _get_bedrock_services_signal guardrails body = Ok s ->
     signal s = true ->
     _guardrails_enabled guardrails = Ok true
     /\ truthy (field_or "trace" PNone guardrails) = true
     /\ field GUARDRAILS_BODY_KEY body = Some (PStr "INTERVENED")
     /\ reason s = PStr "GUARDRAIL_INTERVENED"
     /\ trace s = field_or AMAZON_BEDROCK_TRACE_KEY PNone body)
  /\ (_guardrails_enabled guardrails = Ok false ->
      _get_bedrock_services_signal guardrails body = Ok no_signal)
  /\ (forall e, _guardrails_enabled guardrails = Raise e ->
        _get_bedrock_services_signal guardrails body = Raise e).
Proof.
  unfold _get_bedrock_services_signal. split; [|split].
  - intros s H Hs.
    destruct (_guardrails_enabled guardrails) as [[|]|e] eqn:G;
      cbn [bind] in H; try discriminate;
      [|injection H as <-; discriminate].
    destruct guardrails as [| | | | |g]; try discriminate.
    unfold field_or, field. cbn [py_get bind] in H.
    destruct (truthy match lookup "trace" g with Some x => x | None => PNone end) eqn:T;
      [|injection H as <-; discriminate].
    unfold _is_guardrails_intervention in H.
    destruct body as [| | | | |b]; try discriminate.
    cbn [py_get bind] in H.
    destruct (lookup GUARDRAILS_BODY_KEY b) as [a|] eqn:A; cbn [eq_str] in H;
      [|injection H as <-; discriminate].
    destruct (eq_str a "INTERVENED") eqn:I; [|injection H as <-; discriminate].
    injection H as <-. cbn [reason trace].
    destruct a as [| | |sa| |]; try discriminate.
    apply String.eqb_eq in I. subst sa. repeat split.
  - intros ->. reflexivity.
  - intros e ->. reflexivity.
Qed.

Lemma services_signal_needs_enabled_traced_intervention_witness :
  _get_bedrock_services_signal default_guardrails (PStr "no dict") = Ok no_signal.
Proof.
  apply (proj1 (proj2 (services_signal_needs_enabled_traced_intervention
                         default_guardrails (PStr "no dict")))).
  reflexivity.
Defined.

(** ** Validation of the model arguments *)

Lemma lookup_dict_pop_same (k : string) (d : dict) : lookup k (dict_pop k d) = None.
Proof.
  unfold dict_pop. induction d as [|[k' v] d IH]; simpl; [reflexivity|].
  destruct (String.eqb k k') eqn:E; simpl; [exact IH | rewrite E; exact IH].
Qed.

Lemma lookup_dict_pop_other (k k' : string) (d : dict) :
  String.eqb k k' = false -> lookup k (dict_pop k' d) = lookup k d.
Proof.
  intro N. unfold dict_pop. induction d as [|[k'' v] d IH]; simpl; [reflexivity|].
  destruct (String.eqb k' k'') eqn:E; simpl.
  - apply String.eqb_eq in E. subst k''. rewrite N. exact IH.
  - destruct (String.eqb k k''); [reflexivity | exact IH].
Qed.

(** X21: after validation the model arguments hold neither "temperature"
    nor "max_tokens", and every other key as before.  The temperature
    field keeps a value given for it and otherwise takes the one of the
    model arguments; the max_tokens field keeps a value that is true and
    otherwise (None or 0) takes the one of the model arguments. *)
Theorem validation_moves_sampling_arguments (f : model_fields) (kw : dict) :
  f_model_kwargs f = Some kw ->
  let f' := validate_environment f in
  exists kw',
    f_model_kwargs f' = Some kw'
    /\ lookup "temperature" kw' = None
    /\ lookup "max_tokens" kw' = None
    /\ (forall k, String.eqb k "temperature" = false ->
                  String.eqb k "max_tokens" = false ->
                  lookup k kw' = lookup k kw)
    /\ f_temperature f'
       = (if is_none (f_temperature f)
          then match lookup "temperature" kw with Some v => v | None => PNone end
          else f_temperature f)
    /\ f_max_tokens f'
       = (if negb (truthy (f_max_tokens f))
          then match lookup "max_tokens" kw with
               | Some v => v
               | None => f_max_tokens f
               end
          else f_max_tokens f).
Proof.
  intros K f'. subst f'. unfold validate_environment. rewrite K.
  destruct kw as [|kv rest].
  { exists []. rewrite K. repeat split.
    - destruct (is_none (f_temperature f)) eqn:N; [|reflexivity].
      destruct (f_temperature f); try discriminate. reflexivity.
    - destruct (negb (truthy (f_max_tokens f))); reflexivity. }
  set (kw := kv :: rest).
  assert (T : exists kw1,
             (let '(kw1, temperature) :=
                match lookup "temperature" kw with
                | Some v =>
                    (dict_pop "temperature" kw,
                     if is_none (f_temperature f) then v else f_temperature f)
                | None => (kw, f_temperature f)
                end in
              (kw1, temperature))
             = (kw1,
                if is_none (f_temperature f)
                then match lookup "temperature" kw with Some v => v | None => PNone end
                else f_temperature f)
             /\ lookup "temperature" kw1 = None
             /\ forall k, String.eqb k "temperature" = false ->
                          lookup k kw1 = lookup k kw).
  { destruct (lookup "temperature" kw) as [v|] eqn:L.
    - exists (dict_pop "temperature" kw). split; [reflexivity|].
      split; [apply lookup_dict_pop_same|]. intros k N. apply lookup_dict_pop_other, N.
    - exists kw. split; [|split; [exact L | reflexivity]].
      destruct (is_none (f_temperature f)) eqn:N; [|reflexivity].
      destruct (f_temperature f); try discriminate. reflexivity. }
  destruct T as [kw1 [E1 [T1 O1]]].
  destruct (match lookup "temperature" kw with
            | Some v =>
                (dict_pop "temperature" kw,
                 if is_none (f_temperature f) then v else f_temperature f)
            | None => (kw, f_temperature f)
            end) as [kw1' temperature]. injection E1 as -> ->.
  destruct (lookup "max_tokens" kw1) as [v|] eqn:L.
  - exists (dict_pop "max_tokens" kw1). cbn [f_model_kwargs f_temperature f_max_tokens].
    split; [reflexivity|]. split.
    { rewrite lookup_dict_pop_other by reflexivity. exact T1. }
    split; [apply lookup_dict_pop_same|]. split.
    { intros k N1 N2. rewrite lookup_dict_pop_other by exact N2. apply O1, N1. }
    split; [reflexivity|].
    rewrite <- (O1 "max_tokens" eq_refl), L. reflexivity.
  - exists kw1. cbn [f_model_kwargs f_temperature f_max_tokens].
    split; [reflexivity|]. split; [exact T1|]. split; [exact L|]. split.
    { intros k N1 _. apply O1, N1. }
    split; [reflexivity|].
    rewrite <- (O1 "max_tokens" eq_refl), L.
    destruct (negb (truthy (f_max_tokens f))); reflexivity.
Qed.

Lemma validation_moves_sampling_arguments_witness :
  exists kw',
    f_model_kwargs
      (validate_environment
         (mkFields (Some [("temperature", PInt 1); ("top_k", PInt 5)]) PNone (PInt 0)))
    = Some kw'
    /\ lookup "temperature" kw' = None
    /\ lookup "max_tokens" kw' = None
    /\ (forall k, String.eqb k "temperature" = false ->
                  String.eqb k "max_tokens" = false ->
                  lookup k kw' = lookup k [("temperature", PInt 1); ("top_k", PInt 5)])
    /\ f_temperature
         (validate_environment
            (mkFields (Some [("temperature", PInt 1); ("top_k", PInt 5)]) PNone (PInt 0)))
       = PInt 1
    /\ f_max_tokens
         (validate_environment
            (mkFields (Some [("temperature", PInt 1); ("top_k", PInt 5)]) PNone (PInt 0)))
       = PInt 0.
Proof.
  apply (validation_moves_sampling_arguments
           (mkFields (Some [("temperature", PInt 1); ("top_k", PInt 5)]) PNone (PInt 0))
           [("temperature", PInt 1); ("top_k", PInt 5)]).
  reflexivity.
Defined.

(** ** The caller's pre-processing of thinking blocks *)

Lemma thinking_content_is_filter (l : list pyval) :
  forall pre,
    map (fun j => nth j (pre ++ l) PNone) (thinking_indices_from (List.length pre) l)
    = filter is_thinking_block l.
Proof.
  induction l as [|x r IH]; intro pre; simpl; [reflexivity|].
  assert (E : (pre ++ x :: r = (pre ++ [x]) ++ r)%list)
    by (rewrite <- app_assoc; reflexivity).
  assert (L : S (List.length pre) = List.length (pre ++ [x]))
    by (rewrite length_app; simpl; lia).
  destruct (is_thinking_block x); simpl.
  - rewrite nth_middle. f_equal. rewrite E, L. apply IH.
  - rewrite E, L. apply IH.
Qed.

Lemma in_thinking_indices (l : list pyval) :
  forall k j,
    In j (thinking_indices_from k l)
    <-> (k <= j < k + List.length l)%nat /\ is_thinking_block (nth (j - k) l PNone) = true.
Proof.
  induction l as [|x r IH]; intros k j.
  - cbn. split; [intros [] | intros [H _]; lia].
  - cbn [thinking_indices_from List.length].
    destruct (Nat.lt_trichotomy j k) as [Lt|[->|Gt]].
    + split.
      * intro H. exfalso.
        destruct (is_thinking_block x); cbn [In] in H;
          [destruct H as [H|H]; [lia|]|]; apply IH in H; lia.
      * intros [H _]. lia.
    + rewrite Nat.sub_diag. cbn [nth]. destruct (is_thinking_block x) eqn:P.
      * split; [intros _; split; [lia | reflexivity] | intros _; left; reflexivity].
      * rewrite IH. split; [intros [H _]; lia | intros [_ H]; discriminate].
    + replace (j - k)%nat with (S (j - S k)) by lia. cbn [nth].
      destruct (is_thinking_block x); cbn [In]; rewrite IH; split.
      * intros [H|[H1 H2]]; [lia | split; [lia | exact H2]].
      * intros [H1 H2]. right. split; [lia | exact H2].
      * intros [H1 H2]. split; [lia | exact H2].
      * intros [H1 H2]. split; [lia | exact H2].
Qed.

Lemma others_is_filter (l : list pyval) :
  forall pre,
    others_from (List.length pre) (thinking_indices_from 0 (pre ++ l)) l
    = filter not_thinking_block l.
Proof.
  induction l as [|x r IH]; intro pre; simpl; [reflexivity|].
  assert (E : (pre ++ x :: r = (pre ++ [x]) ++ r)%list)
    by (rewrite <- app_assoc; reflexivity).
  assert (L : S (List.length pre) = List.length (pre ++ [x]))
    by (rewrite length_app; simpl; lia).
  assert (M : existsb (Nat.eqb (List.length pre))
                (thinking_indices_from 0 (pre ++ x :: r))
              = is_thinking_block x).
  { destruct (is_thinking_block x) eqn:P.
    - apply existsb_exists. exists (List.length pre). split; [|apply Nat.eqb_refl].
      apply in_thinking_indices. rewrite Nat.sub_0_r, nth_middle, length_app. simpl.
      split; [lia | exact P].
    - apply not_true_is_false. intro H. apply existsb_exists in H.
      destruct H as [j [I J]]. apply Nat.eqb_eq in J. subst j.
      apply in_thinking_indices in I. rewrite Nat.sub_0_r, nth_middle in I.
      destruct I as [_ I]. congruence. }
  rewrite M. unfold not_thinking_block at 1.
  destruct (is_thinking_block x); simpl; rewrite E, L; [|f_equal]; apply IH.
Qed.

Lemma ordered_content_is_partition (content new_content : list pyval) :
  ordered_content content = Some new_content ->
  new_content
  = (filter is_thinking_block content ++ filter not_thinking_block content)%list.
Proof.
  unfold ordered_content. intro H.
  destruct (thinking_indices_from 0 content) as [|j0 js] eqn:I; [discriminate|].
  destruct (Nat.ltb 0 j0); [|discriminate]. injection H as <-.
  rewrite <- I.
  pose proof (thinking_content_is_filter content []) as A.
  pose proof (others_is_filter content []) as B.
  cbn [app List.length] in A, B. rewrite B, <- A, I. reflexivity.
Qed.

(** X22: the pre-processing of the non-streaming call gives a message the
    thinking blocks in their order followed by all the other content items
    in theirs, a rearrangement of the content in which nothing is lost,
    items that are no dicts included.  Content that went through it is
    left alone by a second pass, and by the reorder of the request
    builder. *)
Theorem ordered_content_keeps_every_item (content : list pyval) :
  (forall new_content,
      ordered_content content = Some new_content ->
      new_content
      = (filter is_thinking_block content ++ filter not_thinking_block content)%list
      /\ Permutation content new_content)
  /\ (let content' :=
        match ordered_content content with
        | Some new_content => new_content
        | None => content
        end in
      ordered_content content' = None
      /\ reordered_content (PList content') = Ok None).
Proof.
  split.
  - intros new_content H. apply ordered_content_is_partition in H. subst new_content.
    split; [reflexivity|]. apply partition_permutation. intros x _. reflexivity.
  - assert (Head : forall b rest,
               is_thinking_block b = true ->
               ordered_content (b :: rest) = None
               /\ reordered_content (PList (b :: rest)) = Ok None).
    { intros b rest P. split.
      - unfold ordered_content. cbn [thinking_indices_from]. rewrite P. reflexivity.
      - unfold reordered_content. cbn [filter]. rewrite P.
        unfold is_thinking_block in P. apply andb_prop in P. destruct P as [D T].
        destruct b as [| | | | |d]; try discriminate.
        cbn [py_get bind]. unfold block_type in T. rewrite T. reflexivity. }
    assert (Nothing : forall l,
               thinking_indices_from 0 l = [] ->
               ordered_content l = None /\ reordered_content (PList l) = Ok None).
    { intros l I. unfold ordered_content. rewrite I. split; [reflexivity|].
      assert (F : filter is_thinking_block l = []).
      { rewrite <- (thinking_content_is_filter l []). simpl. rewrite I. reflexivity. }
      unfold reordered_content. destruct l as [|first rest]; [reflexivity|].
      rewrite F. reflexivity. }
    destruct (ordered_content content) as [new_content|] eqn:O.
    + pose proof (ordered_content_is_partition _ _ O) as E.
      unfold ordered_content in O.
      destruct (thinking_indices_from 0 content) as [|j0 js] eqn:I; [discriminate|].
      assert (F : filter is_thinking_block content <> []).
      { rewrite <- (thinking_content_is_filter content []). simpl. rewrite I.
        discriminate. }
      destruct (filter is_thinking_block content) as [|b bs] eqn:Fb; [congruence|].
      rewrite E. simpl. apply Head. exact (filter_head _ _ _ _ Fb).
    + unfold ordered_content in O.
      destruct (thinking_indices_from 0 content) as [|j0 js] eqn:I;
        [apply Nothing, I|].
      destruct (Nat.ltb 0 j0) eqn:Lt; [discriminate|].
      apply Nat.ltb_ge in Lt. assert (j0 = 0%nat) by lia. subst j0.
      destruct content as [|b rest]; [discriminate|].
      simpl in I. destruct (is_thinking_block b) eqn:P; [apply Head, P|].
      exfalso.
      assert (J : In 0%nat (thinking_indices_from 1 rest)) by (rewrite I; left; reflexivity).
      apply in_thinking_indices in J. lia.
Qed.

Lemma ordered_content_keeps_every_item_witness :
  [sample_thinking_block; sample_text_block; PStr "stray"]
  = (filter is_thinking_block [sample_text_block; PStr "stray"; sample_thinking_block]
     ++ filter not_thinking_block
          [sample_text_block; PStr "stray"; sample_thinking_block])%list
  /\ Permutation [sample_text_block; PStr "stray"; sample_thinking_block]
       [sample_thinking_block; sample_text_block; PStr "stray"].
Proof.
  apply (proj1 (ordered_content_keeps_every_item
                  [sample_text_block; PStr "stray"; sample_thinking_block])).
  reflexivity.
Defined.




(** ** The arguments of a streaming call *)

Lemma lookup_dict_merge_absent (k : string) (b : dict) :
  forall a, has_key k b = false -> lookup k (dict_merge a b) = lookup k a.
Proof.
  unfold dict_merge, has_key.
  induction b as [|[k' v] b IH]; intros a H; simpl in *; [reflexivity|].
  destruct (String.eqb k k') eqn:E; [discriminate|].
  rewrite (IH _ H). apply lookup_dict_set_other, E.
Qed.

Lemma dict_set_twice (k : string) (v : pyval) (d : dict) :
  dict_set k v (dict_set k v d) = dict_set k v d.
Proof.
  induction d as [|[k' v'] d IH]; simpl.
  - rewrite String.eqb_refl. reflexivity.
  - destruct (String.eqb k k') eqn:E; simpl; rewrite E; [reflexivity|].
    rewrite IH. reflexivity.
Qed.

Lemma stop_key_is_named (provider k : string) :
  output_key_of provider provider_stop_sequence_key_name_map = Some k ->
  k = "stop_sequences" \/ k = "stopSequences".
Proof.
  unfold provider_stop_sequence_key_name_map. simpl.
  repeat match goal with
         | |- context [String.eqb provider ?p] => destruct (String.eqb provider p)
         end;
    intro H; try discriminate; injection H as <-; auto.
Qed.

(** X24: stop sequences of a streaming call.  For a provider without a
    stop-sequence key (meta, deepseek, writer and any other) a call with
    stop sequences fails with a ValueError.  Otherwise the stop sequences
    are sent under the provider's key, and when the model has arguments of
    its own they are written into those: they stay in the model's
    arguments after the call, and a later call without stop sequences
    sends them again.  A model without arguments of its own is left as it
    was. *)
Theorem stop_sequences_stay_in_model_arguments :
  (forall self_model_kwargs provider s ss kwargs,
      output_key_of provider provider_stop_sequence_key_name_map = None ->
      stream_params self_model_kwargs provider (Some (s :: ss)) kwargs
      = Raise ValueError)
  /\ (forall provider k kv rest s ss kwargs,
        output_key_of provider provider_stop_sequence_key_name_map = Some k ->
        has_key k kwargs = false ->
        exists params kw',
          stream_params (Some (kv :: rest)) provider (Some (s :: ss)) kwargs
          = Ok (params, Some kw')
          /\ lookup k params = Some (PList (map PStr (s :: ss)))
          /\ lookup k kw' = Some (PList (map PStr (s :: ss)))
          /\ exists params2,
              stream_params (Some kw') provider None kwargs = Ok (params2, Some kw')
              /\ lookup k params2 = Some (PList (map PStr (s :: ss))))
  /\ (forall provider k s ss kwargs,
        output_key_of provider provider_stop_sequence_key_name_map = Some k ->
        exists params,
          stream_params None provider (Some (s :: ss)) kwargs = Ok (params, None)
          /\ stream_params (Some []) provider (Some (s :: ss)) kwargs
             = Ok (params, Some [])).
Proof.
  split; [|split].
  - intros self provider s ss kwargs H. unfold stream_params. rewrite H. reflexivity.
  - intros provider k kv rest s ss kwargs Hk Habs.
    assert (Nk : String.eqb k "" = false /\ String.eqb k "stream" = false).
    { destruct (stop_key_is_named _ _ Hk) as [-> | ->]; split; reflexivity. }
    destruct Nk as [Nk Ns].
    unfold stream_params. rewrite Hk, Nk. cbn [bind].
    set (stop := PList (map PStr (s :: ss))).
    set (kw1 := dict_set k stop (kv :: rest)).
    set (kw2 := if String.eqb provider "cohere"
                then dict_set "stream" (PBool true) kw1 else kw1).
    assert (L2 : lookup k kw2 = Some stop).
    { unfold kw2. destruct (String.eqb provider "cohere");
        [rewrite lookup_dict_set_other by exact Ns|]; apply lookup_dict_set_same. }
    assert (N2 : exists x xs, kw2 = x :: xs).
    { unfold kw2, kw1. destruct kv as [k0 v0]. cbn [dict_set].
      destruct (String.eqb provider "cohere"); destruct (String.eqb k k0);
        cbn [dict_set];
        repeat match goal with
               | |- context [String.eqb ?a ?b] => destruct (String.eqb a b)
               end; eauto. }
    exists (dict_merge kw2 kwargs), kw2. split; [reflexivity|].
    split; [rewrite (lookup_dict_merge_absent k kwargs kw2 Habs); exact L2|].
    split; [exact L2|].
    destruct N2 as [x [xs E2]].
    assert (I : (if String.eqb provider "cohere"
                 then dict_set "stream" (PBool true) kw2 else kw2) = kw2).
    { subst kw2. destruct (String.eqb provider "cohere");
        [apply dict_set_twice | reflexivity]. }
    exists (dict_merge kw2 kwargs). rewrite E2 at 1. cbn [bind]. rewrite <- E2.
    rewrite I. split; [rewrite E2 at 2; reflexivity|].
    rewrite (lookup_dict_merge_absent k kwargs kw2 Habs). exact L2.
  - intros provider k s ss kwargs Hk.
    assert (Nk : String.eqb k "" = false).
    { destruct (stop_key_is_named _ _ Hk) as [-> | ->]; reflexivity. }
    unfold stream_params. rewrite Hk, Nk. cbn [bind]. eexists. split; reflexivity.
Qed.

Lemma stop_sequences_stay_in_model_arguments_witness :
  stream_params (Some [("temperature", PInt 0)]) "meta" (Some ["END"]) []
  = Raise ValueError.
Proof.
  apply (proj1 stop_sequences_stay_in_model_arguments
           (Some [("temperature", PInt 0)]) "meta" "END" [] []).
  reflexivity.
Defined.

(** X25: for anthropic (completion protocol) and amazon, whose payloads
    the decoders never inspect for a stop, a stream of events that all
    hold a str under the output key gives exactly one chunk per event, in
    the order of the events, and is read to its end.  An event that holds
    another value there (a number, null) ends the run at that event with
    the ValidationError of the chunk constructor, after the chunks of the
    events before it.  The asynchronous decoder does the same. *)
Theorem plain_stream_gives_one_chunk_per_event
    (provider output_key : string) (ds : list dict) (coerce : bool) :
  provider = "anthropic" \/ provider = "amazon" ->
  output_key_of provider provider_to_output_key_map = Some output_key ->
  forallb (has_text output_key) ds = true ->
  let run_of := fun events =>
    prepare_output_stream provider (BodyEventStream (map decoded_event events))
      false coerce in
  let arun_of := fun events =>
    aprepare_output_stream provider (BodyEventStream (map decoded_event events))
      false coerce in
  (chunks_of (run_of ds) = map (plain_chunk output_key) ds
   /\ ended (run_of ds) = Exhausted
   /\ consumed (run_of ds) = List.length ds
   /\ arun_of ds = run_of ds)
  /\ (forall d v rest,
        lookup output_key d = Some v ->
        (forall s, v <> PStr s) ->
        chunks_of (run_of (ds ++ d :: rest)%list) = map (plain_chunk output_key) ds
        /\ ended (run_of (ds ++ d :: rest)%list) = Raised ValidationError
        /\ consumed (run_of (ds ++ d :: rest)%list) = S (List.length ds)
        /\ arun_of (ds ++ d :: rest)%list = run_of (ds ++ d :: rest)%list).
Proof.
  intros Hp Hk Hd run_of arun_of.
  assert (A : forall events, arun_of events = run_of events).
  { intro events. apply aprepare_output_stream_agrees.
    destruct Hp as [-> | ->]; reflexivity. }
  set (body := sync_body provider output_key false coerce).
  assert (B : forall d, has_text output_key d = true ->
                body (decoded_event d)
                = mkStep [(YieldConverted, plain_chunk output_key d)] Next).
  { intros d H. unfold body, decoded_event, sync_body, stop_reached.
    unfold _stream_response_to_generation_chunk, provider_chunk, plain_chunk,
      field_or, dropped_keys.
    unfold has_text in H. cbn [py_item field].
    destruct (lookup output_key d) as [[| | |s| |]|]; try discriminate.
    destruct Hp as [-> | ->]; reflexivity. }
  assert (V : forall d v, lookup output_key d = Some v -> (forall s, v <> PStr s) ->
                body (decoded_event d) = mkStep [] (Throw ValidationError)).
  { intros d v L N. unfold body, decoded_event, sync_body.
    unfold _stream_response_to_generation_chunk, provider_chunk. cbn [py_item].
    rewrite L.
    destruct v as [| | |s| |]; try (destruct Hp as [-> | ->]; reflexivity).
    exfalso. exact (N s eq_refl). }
  assert (K : String.eqb output_key "" = false).
  { destruct Hp as [-> | ->]; injection Hk as <-; reflexivity. }
  assert (D : forall tail,
             drain body (map decoded_event ds ++ tail)%list
             = mkRun (map (fun d => (YieldConverted, plain_chunk output_key d)) ds
                        ++ yielded (drain body tail))%list
                     (List.length ds + consumed (drain body tail))
                     (ended (drain body tail))).
  { intro tail. clear A. induction ds as [|d ds IH].
    - cbn [map app List.length Nat.add]. destruct (drain body tail); reflexivity.
    - cbn [forallb] in Hd. apply andb_prop in Hd. destruct Hd as [H1 H2].
      cbn [map app drain]. rewrite (B d H1). cbn [after emitted].
      rewrite (IH H2). reflexivity. }
  assert (R : forall events,
             run_of events = drain body (map decoded_event events)).
  { intro events. unfold run_of, prepare_output_stream.
    cbn [body_truthy negb body_events]. rewrite Hk, K. reflexivity. }
  split.
  - pose proof (D []) as D0. rewrite app_nil_r in D0. cbn [drain yielded consumed ended] in D0.
    rewrite app_nil_r, Nat.add_0_r in D0.
    split; [|split; [|split; [|apply A]]]; rewrite R, D0; try reflexivity.
    unfold chunks_of. cbn [yielded]. rewrite map_map. reflexivity.
  - intros d v rest L N.
    assert (T : drain body (decoded_event d :: map decoded_event rest)
                = mkRun [] 1 (Raised ValidationError)).
    { cbn [drain]. rewrite (V d v L N). reflexivity. }
    pose proof (D (decoded_event d :: map decoded_event rest)) as D1.
    rewrite T in D1. cbn [yielded consumed ended] in D1.
    rewrite app_nil_r in D1.
    assert (M : map decoded_event (ds ++ d :: rest)%list
                = (map decoded_event ds ++ decoded_event d :: map decoded_event rest)%list).
    { rewrite map_app. reflexivity. }
    split; [|split; [|split; [|apply A]]]; rewrite R, M, D1; cbn [ended consumed];
      try reflexivity; [|lia].
    unfold chunks_of. cbn [yielded]. rewrite map_map. reflexivity.
Qed.

Lemma plain_stream_gives_one_chunk_per_event_witness :
  chunks_of
    (prepare_output_stream "amazon"
       (BodyEventStream (map decoded_event
                           [[("outputText", PStr "Hel")];
                            [("outputText", PStr "lo"); ("completionReason", PStr "FINISH")]]))
       false true)
  = map (plain_chunk "outputText")
      [[("outputText", PStr "Hel")];
       [("outputText", PStr "lo"); ("completionReason", PStr "FINISH")]]
  /\ ended
       (prepare_output_stream "amazon"
          (BodyEventStream (map decoded_event
                              [[("outputText", PStr "Hel")];
                               [("outputText", PStr "lo");
                                ("completionReason", PStr "FINISH")]]))
          false true)
     = Exhausted
  /\ consumed
       (prepare_output_stream "amazon"
          (BodyEventStream (map decoded_event
                              [[("outputText", PStr "Hel")];
                               [("outputText", PStr "lo");
                                ("completionReason", PStr "FINISH")]]))
          false true)
     = List.length [[("outputText", PStr "Hel")];
                    [("outputText", PStr "lo"); ("completionReason", PStr "FINISH")]]
  /\ aprepare_output_stream "amazon"
       (BodyEventStream (map decoded_event
                           [[("outputText", PStr "Hel")];
                            [("outputText", PStr "lo");
                             ("completionReason", PStr "FINISH")]]))
       false true
     = prepare_output_stream "amazon"
         (BodyEventStream (map decoded_event
                             [[("outputText", PStr "Hel")];
                              [("outputText", PStr "lo");
                               ("completionReason", PStr "FINISH")]]))
         false true.
Proof.
  apply (proj1 (plain_stream_gives_one_chunk_per_event "amazon" "outputText"
                  [[("outputText", PStr "Hel")];
                   [("outputText", PStr "lo"); ("completionReason", PStr "FINISH")]] true
                  (or_intror eq_refl) eq_refl eq_refl)).
Defined.

(** ** The alternation formatter on a prompt without role markers *)

Lemma colon_free_S (n : nat) (s : string) :
  colon_free (S n) s = true -> colon_free n s = true.
Proof.
  revert s. induction n as [|n IH]; intros s H; [reflexivity|].
  destruct s as [|c s]; [reflexivity|].
  cbn [colon_free] in *. apply andb_prop in H. destruct H as [H1 H2].
  rewrite H1. cbn [andb]. apply IH. exact H2.
Qed.

Lemma colon_free_app (t suf : string) (n : nat) :
  no_colon t = true -> colon_free n suf = true -> colon_free n (t ++ suf) = true.
Proof.
  revert n. induction t as [|c t IH]; intros n H C; [exact C|].
  destruct n as [|n]; [reflexivity|].
  cbn [no_colon] in H. apply andb_prop in H. destruct H as [H1 H2].
  change (String c t ++ suf) with (String c (t ++ suf)). cbn [colon_free].
  rewrite H1. cbn [andb]. apply IH; [exact H2 | apply colon_free_S; exact C].
Qed.

(** A word that ends in a colon does not start where the next characters,
    as many as the word has, are free of colons. *)
Lemma no_prefix_colon (w s : string) :
  ends_colon w = true -> colon_free (String.length w) s = true -> prefix w s = false.
Proof.
  revert s. induction w as [|a w IH]; intros s E C; [discriminate E|].
  destruct s as [|c s]; [reflexivity|].
  rewrite prefix_cons. destruct (ascii_dec a c) as [->|]; [|reflexivity].
  cbn [String.length colon_free] in C. apply andb_prop in C. destruct C as [C1 C2].
  destruct w as [|b w].
  - cbn [ends_colon] in E. rewrite E in C1. discriminate C1.
  - apply IH; [exact E | exact C2].
Qed.

Lemma no_prefix_in_text (w suf : string) (c : ascii) (t : string) :
  ends_colon w = true ->
  colon_free (String.length w - 1) suf = true ->
  no_colon (String c t) = true ->
  prefix w (String c t ++ suf) = false.
Proof.
  intros E C H. apply no_prefix_colon; [exact E|].
  destruct w as [|a w]; [discriminate E|].
  cbn [String.length Nat.sub] in *. rewrite Nat.sub_0_r in C.
  change (String c t ++ suf) with (String c (t ++ suf)). cbn [colon_free].
  cbn [no_colon] in H. apply andb_prop in H. destruct H as [H1 H2].
  rewrite H1. cbn [andb]. apply colon_free_app; assumption.
Qed.

Lemma replace_from_text (w new suf text : string) :
  ends_colon w = true ->
  colon_free (String.length w - 1) suf = true ->
  no_colon text = true ->
  PyStr.replace_from 0 w new (text ++ suf) = text ++ PyStr.replace_from 0 w new suf.
Proof.
  intros E C. induction text as [|c t IH]; intro H; [reflexivity|].
  change (String c t ++ suf) with (String c (t ++ suf)) at 1.
  cbn [PyStr.replace_from].
  change (String c (t ++ suf)) with (String c t ++ suf).
  rewrite (no_prefix_in_text w suf c t E C H).
  change (String c t ++ PyStr.replace_from 0 w new suf)
    with (String c (t ++ PyStr.replace_from 0 w new suf)).
  f_equal. apply IH. cbn [no_colon] in H. apply andb_prop in H. tauto.
Qed.

Lemma count_from_text (w suf text : string) :
  ends_colon w = true ->
  colon_free (String.length w - 1) suf = true ->
  no_colon text = true ->
  PyStr.count_from 0 w (text ++ suf) = PyStr.count_from 0 w suf.
Proof.
  intros E C. induction text as [|c t IH]; intro H; [reflexivity|].
  change (String c t ++ suf) with (String c (t ++ suf)) at 1.
  cbn [PyStr.count_from].
  change (String c (t ++ suf)) with (String c t ++ suf).
  rewrite (no_prefix_in_text w suf c t E C H).
  apply IH. cbn [no_colon] in H. apply andb_prop in H. tauto.
Qed.

Lemma scan_suffixes_text (msg suf text : string) (st : scan_state) :
  colon_free 11 suf = true ->
  no_colon text = true ->
  scan_suffixes msg (text ++ suf) st = scan_suffixes msg suf st.
Proof.
  intros C. induction text as [|c t IH]; intro H; [reflexivity|].
  change (String c t ++ suf) with (String c (t ++ suf)) at 1.
  cbn [scan_suffixes].
  change (String c (t ++ suf)) with (String c t ++ suf).
  unfold scan_at.
  rewrite (no_prefix_in_text HUMAN_PROMPT suf c t), (no_prefix_in_text ASSISTANT_PROMPT suf c t);
    try reflexivity; try exact H; try exact C.
  - apply IH. cbn [no_colon] in H. apply andb_prop in H. tauto.
  - do 4 apply colon_free_S. exact C.
Qed.

(** A slice as long as a word equals the word exactly where the word
    starts. *)
Lemma eqb_substring_prefix (w u : string) :
  String.eqb (substring 0 (String.length w) u) w = prefix w u.
Proof.
  revert u. induction w as [|a w IH]; intro u.
  - destruct u; reflexivity.
  - destruct u as [|c u]; [reflexivity|].
    rewrite prefix_cons. cbn [String.length substring String.eqb]. rewrite IH.
    destruct (ascii_dec a c) as [->|N].
    + rewrite Ascii.eqb_refl. reflexivity.
    + apply not_eq_sym in N. apply Ascii.eqb_neq in N. rewrite N. reflexivity.
Qed.

Lemma substring_app_skip (pre u : string) (k : nat) :
  substring (String.length pre) k (pre ++ u) = substring 0 k u.
Proof.
  induction pre as [|c pre IH]; [reflexivity|].
  change (String c pre ++ u) with (String c (pre ++ u)). cbn [String.length substring].
  exact IH.
Qed.

Lemma app_string_assoc (a b c : string) : (a ++ b) ++ c = a ++ (b ++ c).
Proof.
  induction a as [|x a IH]; [reflexivity|].
  change ((String x a ++ b) ++ c) with (String x ((a ++ b) ++ c)).
  rewrite IH. reflexivity.
Qed.

Lemma length_app_string (a b : string) :
  String.length (a ++ b) = (String.length a + String.length b)%nat.
Proof.
  induction a as [|x a IH]; [reflexivity|].
  change (String x a ++ b) with (String x (a ++ b)). cbn [String.length].
  rewrite IH. reflexivity.
Qed.

(** The loop over the indices of the text is the recursion on what is
    left of it. *)
Lemma scan_fold (pre u : string) (st : scan_state) :
  fold_left (scan_step (pre ++ u)) (seq (String.length pre) (String.length u)) st
  = scan_suffixes (ALTERNATION_ERROR ++ " Received " ++ (pre ++ u)) u st.
Proof.
  revert pre st. induction u as [|c u IH]; intros pre st; [reflexivity|].
  cbn [String.length seq fold_left scan_suffixes].
  assert (S1 : scan_step (pre ++ String c u) st (String.length pre)
               = scan_at (ALTERNATION_ERROR ++ " Received " ++ (pre ++ String c u))
                   (String c u) st).
  { unfold scan_step, scan_at, PyStr.slice.
    rewrite !substring_app_skip, !eqb_substring_prefix. reflexivity. }
  rewrite S1.
  assert (A : pre ++ String c u = (pre ++ String c EmptyString) ++ u).
  { rewrite app_string_assoc. reflexivity. }
  assert (L : S (String.length pre) = String.length (pre ++ String c EmptyString)).
  { rewrite length_app_string. cbn [String.length]. lia. }
  rewrite L. rewrite A at 1. rewrite IH. rewrite <- A. reflexivity.
Qed.

Lemma app_string_nil (s : string) : s ++ "" = s.
Proof.
  induction s as [|c s IH]; [reflexivity|].
  change (String c s ++ "") with (String c (s ++ "")). rewrite IH. reflexivity.
Qed.

Lemma count_no_colon (w text : string) :
  ends_colon w = true -> no_colon text = true -> PyStr.count text w = O.
Proof.
  intros E H. destruct w as [|a w]; [discriminate E|].
  unfold PyStr.count. rewrite <- (app_string_nil text).
  rewrite count_from_text; [reflexivity | exact E | | exact H].
  destruct (String.length (String a w) - 1)%nat; reflexivity.
Qed.

(** A replacement in [lead ++ text ++ suf], for a word that ends in a
    colon and a text without one, is the replacement in [lead] and the
    one in [suf]: no occurrence starts in the text. *)
Lemma replace_around (w new lead lead' suf suf' text : string) :
  ends_colon w = true ->
  colon_free (String.length w - 1) suf = true ->
  (forall rest, PyStr.replace_from 0 w new (lead ++ rest)
                = lead' ++ PyStr.replace_from 0 w new rest) ->
  PyStr.replace_from 0 w new suf = suf' ->
  no_colon text = true ->
  PyStr.replace (lead ++ text ++ suf) w new = lead' ++ text ++ suf'.
Proof.
  intros E C L S H. destruct w as [|a w]; [discriminate E|].
  unfold PyStr.replace. rewrite L, (replace_from_text _ _ _ _ E C H), S. reflexivity.
Qed.

Lemma add_newlines_plain_text (text : string) :
  no_colon text = true ->
  _add_newlines_before_ha ((HUMAN_PROMPT ++ " " ++ text) ++ ASSISTANT_PROMPT)
  = HUMAN_PROMPT ++ " " ++ text ++ ASSISTANT_PROMPT.
Proof.
  intro H.
  set (h3 := nl ++ nl ++ nl ++ "Human:"). set (h2 := nl ++ nl ++ "Human:").
  set (a3 := nl ++ nl ++ nl ++ "Assistant:"). set (a2 := nl ++ nl ++ "Assistant:").
  assert (A1 : PyStr.replace ((HUMAN_PROMPT ++ " ") ++ text ++ ASSISTANT_PROMPT) "Human:" h2
               = (nl ++ nl ++ HUMAN_PROMPT ++ " ") ++ text ++ ASSISTANT_PROMPT).
  { apply replace_around; try reflexivity; exact H. }
  assert (A2 : PyStr.replace ((nl ++ nl ++ HUMAN_PROMPT ++ " ") ++ text ++ ASSISTANT_PROMPT)
                 h3 h2
               = (nl ++ HUMAN_PROMPT ++ " ") ++ text ++ ASSISTANT_PROMPT).
  { apply replace_around; try reflexivity; exact H. }
  assert (A3 : PyStr.replace ((nl ++ HUMAN_PROMPT ++ " ") ++ text ++ ASSISTANT_PROMPT) h3 h2
               = (HUMAN_PROMPT ++ " ") ++ text ++ ASSISTANT_PROMPT).
  { apply replace_around; try reflexivity; exact H. }
  assert (A4 : PyStr.replace ((HUMAN_PROMPT ++ " ") ++ text ++ ASSISTANT_PROMPT)
                 "Assistant:" a2
               = (HUMAN_PROMPT ++ " ") ++ text ++ (nl ++ nl ++ ASSISTANT_PROMPT)).
  { apply replace_around; try reflexivity; exact H. }
  assert (A5 : PyStr.replace ((HUMAN_PROMPT ++ " ") ++ text ++ (nl ++ nl ++ ASSISTANT_PROMPT))
                 a3 a2
               = (HUMAN_PROMPT ++ " ") ++ text ++ (nl ++ ASSISTANT_PROMPT)).
  { apply replace_around; try reflexivity; exact H. }
  assert (A6 : PyStr.replace ((HUMAN_PROMPT ++ " ") ++ text ++ (nl ++ ASSISTANT_PROMPT)) a3 a2
               = (HUMAN_PROMPT ++ " ") ++ text ++ ASSISTANT_PROMPT).
  { apply replace_around; try reflexivity; exact H. }
  change (_add_newlines_before_ha ((HUMAN_PROMPT ++ " " ++ text) ++ ASSISTANT_PROMPT))
    with (PyStr.replace
            (PyStr.replace
               (PyStr.replace
                  (PyStr.replace
                     (PyStr.replace
                        (PyStr.replace ((HUMAN_PROMPT ++ " ") ++ text ++ ASSISTANT_PROMPT)
                           "Human:" h2) h3 h2) h3 h2) "Assistant:" a2) a3 a2) a3 a2).
  rewrite A1, A2, A3, A4, A5, A6. reflexivity.
Qed.

Lemma scan_plain_text (text : string) :
  no_colon text = true ->
  fold_left (scan_step (HUMAN_PROMPT ++ " " ++ text ++ ASSISTANT_PROMPT))
    (seq 0 (String.length (HUMAN_PROMPT ++ " " ++ text ++ ASSISTANT_PROMPT)))
    (mkScan 0 [])
  = mkScan 2 [].
Proof.
  intro H.
  rewrite (scan_fold EmptyString (HUMAN_PROMPT ++ " " ++ text ++ ASSISTANT_PROMPT)).
  set (msg := ALTERNATION_ERROR ++ " Received " ++ _).
  change (scan_suffixes msg (HUMAN_PROMPT ++ " " ++ text ++ ASSISTANT_PROMPT) (mkScan 0 []))
    with (scan_suffixes msg (text ++ ASSISTANT_PROMPT) (mkScan 1 [])).
  rewrite (scan_suffixes_text msg ASSISTANT_PROMPT text _ eq_refl H). reflexivity.
Qed.

(** X26: a prompt without a colon holds neither role marker, so the
    formatter puts the Human marker and a space before it and the
    Assistant marker after it, changes nothing in the prompt itself
    (newlines included) and warns of nothing. *)
Theorem human_assistant_format_plain_text (text : string) :
  no_colon text = true ->
  _human_assistant_format text = (HUMAN_PROMPT ++ " " ++ text ++ ASSISTANT_PROMPT, []).
Proof.
  intro H. unfold _human_assistant_format. cbv zeta.
  rewrite (count_no_colon "Human:" text eq_refl H). cbn [Nat.eqb orb].
  assert (E2 : PyStr.count (HUMAN_PROMPT ++ " " ++ text) "Assistant:" = O).
  { change (PyStr.count (HUMAN_PROMPT ++ " " ++ text) "Assistant:")
      with (PyStr.count text "Assistant:").
    apply count_no_colon; [reflexivity | exact H]. }
  rewrite E2. cbn [Nat.eqb].
  assert (E3 : String.eqb
                 (PyStr.slice 0 (String.length "Human:")
                    ((HUMAN_PROMPT ++ " " ++ text) ++ ASSISTANT_PROMPT)) "Human:" = false)
    by reflexivity.
  rewrite E3, (add_newlines_plain_text text H), (scan_plain_text text H).
  reflexivity.
Qed.

Lemma human_assistant_format_plain_text_witness :
  _human_assistant_format ("What is 2 + 2?" ++ nl ++ "Answer briefly.")
  = (HUMAN_PROMPT ++ " " ++ ("What is 2 + 2?" ++ nl ++ "Answer briefly.")
       ++ ASSISTANT_PROMPT, []).
Proof.
  apply (human_assistant_format_plain_text ("What is 2 + 2?" ++ nl ++ "Answer briefly.")).
  reflexivity.
Defined.

(** ** The alternation formatter on one well-formed exchange *)

Lemma find_from_text (w suf text : string) (pos : Z) :
  ends_colon w = true ->
  colon_free (String.length w - 1) suf = true ->
  no_colon text = true ->
  PyStr.find_from pos w (text ++ suf)
  = PyStr.find_from (pos + Z.of_nat (String.length text)) w suf.
Proof.
  intros E C. revert pos. induction text as [|c t IH]; intros pos H.
  - cbn [String.length Z.of_nat append]. rewrite Z.add_0_r. reflexivity.
  - change (String c t ++ suf) with (String c (t ++ suf)) at 1.
    cbn [PyStr.find_from].
    change (String c (t ++ suf)) with (String c t ++ suf).
    rewrite (no_prefix_in_text w suf c t E C H).
    cbn [no_colon] in H. apply andb_prop in H. destruct H as [_ H].
    rewrite (IH (pos + 1) H). f_equal. cbn [String.length]. lia.
Qed.

Lemma find_from_found (w s : string) (pos : Z) :
  prefix w s = true -> PyStr.find_from pos w s = pos.
Proof. intro H. destruct s; cbn [PyStr.find_from]; rewrite H; reflexivity. Qed.

Lemma replace_from_plain (w new text : string) :
  ends_colon w = true -> no_colon text = true -> PyStr.replace_from 0 w new text = text.
Proof.
  intros E H. rewrite <- (app_string_nil text) at 1.
  rewrite replace_from_text; [apply app_string_nil | exact E | | exact H].
  destruct (String.length w - 1)%nat; reflexivity.
Qed.

Lemma scan_suffixes_plain (msg text : string) (st : scan_state) :
  no_colon text = true -> scan_suffixes msg text st = st.
Proof.
  intro H. rewrite <- (app_string_nil text).
  rewrite (scan_suffixes_text msg EmptyString text st eq_refl H). reflexivity.
Qed.

(** A replacement in [lead ++ q ++ mid ++ a], for a word that ends in a
    colon and texts [q] and [a] without one, is the replacement in [lead]
    and the one in [mid]. *)
Lemma replace_around_two (w new lead lead' mid mid' q a : string) :
  ends_colon w = true ->
  colon_free (String.length w - 1) (mid ++ a) = true ->
  (forall rest, PyStr.replace_from 0 w new (lead ++ rest)
                = lead' ++ PyStr.replace_from 0 w new rest) ->
  (forall rest, PyStr.replace_from 0 w new (mid ++ rest)
                = mid' ++ PyStr.replace_from 0 w new rest) ->
  no_colon q = true ->
  no_colon a = true ->
  PyStr.replace (lead ++ q ++ mid ++ a) w new = lead' ++ q ++ mid' ++ a.
Proof.
  intros E C L M Hq Ha. destruct w as [|x w]; [discriminate E|].
  unfold PyStr.replace.
  rewrite L, (replace_from_text _ _ _ _ E C Hq), M, (replace_from_plain _ _ _ E Ha).
  reflexivity.
Qed.

Lemma add_newlines_exchange (q a : string) :
  no_colon q = true ->
  no_colon a = true ->
  _add_newlines_before_ha (HUMAN_PROMPT ++ " " ++ q ++ ASSISTANT_PROMPT ++ a)
  = HUMAN_PROMPT ++ " " ++ q ++ ASSISTANT_PROMPT ++ a.
Proof.
  intros Hq Ha.
  set (h3 := nl ++ nl ++ nl ++ "Human:"). set (h2 := nl ++ nl ++ "Human:").
  set (a3 := nl ++ nl ++ nl ++ "Assistant:"). set (a2 := nl ++ nl ++ "Assistant:").
  assert (A1 : PyStr.replace ((HUMAN_PROMPT ++ " ") ++ q ++ ASSISTANT_PROMPT ++ a) "Human:" h2
               = (nl ++ nl ++ HUMAN_PROMPT ++ " ") ++ q ++ ASSISTANT_PROMPT ++ a).
  { apply replace_around_two; try reflexivity; try assumption;
      intro r; destruct r; reflexivity. }
  assert (A2 : PyStr.replace ((nl ++ nl ++ HUMAN_PROMPT ++ " ") ++ q ++ ASSISTANT_PROMPT ++ a)
                 h3 h2
               = (nl ++ HUMAN_PROMPT ++ " ") ++ q ++ ASSISTANT_PROMPT ++ a).
  { apply replace_around_two; try reflexivity; try assumption;
      intro r; destruct r; reflexivity. }
  assert (A3 : PyStr.replace ((nl ++ HUMAN_PROMPT ++ " ") ++ q ++ ASSISTANT_PROMPT ++ a) h3 h2
               = (HUMAN_PROMPT ++ " ") ++ q ++ ASSISTANT_PROMPT ++ a).
  { apply replace_around_two; try reflexivity; try assumption;
      intro r; destruct r; reflexivity. }
  assert (A4 : PyStr.replace ((HUMAN_PROMPT ++ " ") ++ q ++ ASSISTANT_PROMPT ++ a)
                 "Assistant:" a2
               = (HUMAN_PROMPT ++ " ") ++ q ++ (nl ++ nl ++ ASSISTANT_PROMPT) ++ a).
  { apply replace_around_two; try reflexivity; try assumption;
      intro r; destruct r; reflexivity. }
  assert (A5 : PyStr.replace
                 ((HUMAN_PROMPT ++ " ") ++ q ++ (nl ++ nl ++ ASSISTANT_PROMPT) ++ a) a3 a2
               = (HUMAN_PROMPT ++ " ") ++ q ++ (nl ++ ASSISTANT_PROMPT) ++ a).
  { apply replace_around_two; try reflexivity; try assumption;
      intro r; destruct r; reflexivity. }
  assert (A6 : PyStr.replace ((HUMAN_PROMPT ++ " ") ++ q ++ (nl ++ ASSISTANT_PROMPT) ++ a) a3 a2
               = (HUMAN_PROMPT ++ " ") ++ q ++ ASSISTANT_PROMPT ++ a).
  { apply replace_around_two; try reflexivity; try assumption;
      intro r; destruct r; reflexivity. }
  change (_add_newlines_before_ha (HUMAN_PROMPT ++ " " ++ q ++ ASSISTANT_PROMPT ++ a))
    with (PyStr.replace
            (PyStr.replace
               (PyStr.replace
                  (PyStr.replace
                     (PyStr.replace
                        (PyStr.replace ((HUMAN_PROMPT ++ " ") ++ q ++ ASSISTANT_PROMPT ++ a)
                           "Human:" h2) h3 h2) h3 h2) "Assistant:" a2) a3 a2) a3 a2).
  rewrite A1, A2, A3, A4, A5, A6. reflexivity.
Qed.

Lemma scan_exchange (q a : string) :
  no_colon q = true ->
  no_colon a = true ->
  fold_left (scan_step (HUMAN_PROMPT ++ " " ++ q ++ ASSISTANT_PROMPT ++ a))
    (seq 0 (String.length (HUMAN_PROMPT ++ " " ++ q ++ ASSISTANT_PROMPT ++ a)))
    (mkScan 0 [])
  = mkScan 2 [].
Proof.
  intros Hq Ha.
  rewrite (scan_fold EmptyString (HUMAN_PROMPT ++ " " ++ q ++ ASSISTANT_PROMPT ++ a)).
  set (msg := ALTERNATION_ERROR ++ " Received " ++ _).
  change (scan_suffixes msg (HUMAN_PROMPT ++ " " ++ q ++ ASSISTANT_PROMPT ++ a) (mkScan 0 []))
    with (scan_suffixes msg (q ++ ASSISTANT_PROMPT ++ a) (mkScan 1 [])).
  rewrite (scan_suffixes_text msg (ASSISTANT_PROMPT ++ a) q _ eq_refl Hq).
  assert (M : scan_suffixes msg (ASSISTANT_PROMPT ++ a) (mkScan 1 [])
              = scan_suffixes msg a (mkScan 2 [])).
  { destruct a; reflexivity. }
  rewrite M. apply scan_suffixes_plain. exact Ha.
Qed.

(** X27: one well-formed exchange, the Human marker, a space and a
    question, then the Assistant marker and the start of an answer (which
    may be empty), question and answer without a colon, is returned as it
    is and without a warning.  With an empty answer this is the result of
    the formatter on a prompt without a colon, which the formatter
    therefore leaves as it is when applied again. *)
Theorem human_assistant_format_keeps_exchange (q a : string) :
  no_colon q = true ->
  no_colon a = true ->
  _human_assistant_format (HUMAN_PROMPT ++ " " ++ q ++ ASSISTANT_PROMPT ++ a)
  = (HUMAN_PROMPT ++ " " ++ q ++ ASSISTANT_PROMPT ++ a, []).
Proof.
  intros Hq Ha. unfold _human_assistant_format. cbv zeta.
  set (T := HUMAN_PROMPT ++ " " ++ q ++ ASSISTANT_PROMPT ++ a).
  assert (E1 : Nat.eqb (PyStr.count T "Human:") 0 = false) by reflexivity.
  assert (F1 : PyStr.find T "Human:" = 2) by reflexivity.
  assert (F2 : PyStr.find T "Assistant:" = 9 + Z.of_nat (String.length q) + 1 + 1).
  { change (PyStr.find T "Assistant:")
      with (PyStr.find_from 9 "Assistant:" (q ++ ASSISTANT_PROMPT ++ a)).
    rewrite (find_from_text "Assistant:" (ASSISTANT_PROMPT ++ a) q 9 eq_refl eq_refl Hq).
    change (PyStr.find_from (9 + Z.of_nat (String.length q)) "Assistant:"
              (ASSISTANT_PROMPT ++ a))
      with (PyStr.find_from (9 + Z.of_nat (String.length q) + 1 + 1) "Assistant:"
              ("Assistant:" ++ a)).
    apply find_from_found, prefix_app. }
  assert (G : Z.gtb (PyStr.find T "Human:") (PyStr.find T "Assistant:") = false).
  { rewrite F1, F2, Z.gtb_ltb. apply Z.ltb_ge. lia. }
  assert (E2 : Nat.eqb (PyStr.count T "Assistant:") 0 = false).
  { change (PyStr.count T "Assistant:")
      with (PyStr.count_from 0 "Assistant:" (q ++ ASSISTANT_PROMPT ++ a)).
    rewrite (count_from_text "Assistant:" (ASSISTANT_PROMPT ++ a) q eq_refl eq_refl Hq).
    destruct a; reflexivity. }
  rewrite E1, G. cbn [orb andb]. rewrite E2.
  assert (E3 : String.eqb (PyStr.slice 0 (String.length "Human:") T) "Human:" = false)
    by reflexivity.
  rewrite E3. unfold T.
  rewrite (add_newlines_exchange q a Hq Ha), (scan_exchange q a Hq Ha).
  reflexivity.
Qed.

Lemma human_assistant_format_keeps_exchange_witness :
  _human_assistant_format
    (HUMAN_PROMPT ++ " " ++ "What is 2 + 2?" ++ ASSISTANT_PROMPT ++ " The answer is")
  = (HUMAN_PROMPT ++ " " ++ "What is 2 + 2?" ++ ASSISTANT_PROMPT ++ " The answer is", []).
Proof.
  apply (human_assistant_format_keeps_exchange "What is 2 + 2?" " The answer is");
    reflexivity.
Defined.

(** ** The alternation formatter on a prompt that starts with the bare
       Human word *)

Lemma no_prefix_plain (w s : string) :
  ends_colon w = true -> no_colon s = true -> prefix w s = false.
Proof.
  intros E H. destruct s as [|c t].
  - destruct w; [discriminate E | reflexivity].
  - rewrite <- (app_string_nil (String c t)).
    apply no_prefix_in_text; [exact E | | exact H].
    destruct (String.length w - 1)%nat; reflexivity.
Qed.

Lemma contains_plain (w s : string) :
  ends_colon w = true -> no_colon s = true -> PyStr.contains w s = false.
Proof.
  intros E. induction s as [|c t IH]; intro H.
  - cbn [PyStr.contains]. rewrite (no_prefix_plain w EmptyString E H). reflexivity.
  - cbn [PyStr.contains]. rewrite (no_prefix_plain w (String c t) E H).
    cbn [orb]. apply IH. cbn [no_colon] in H. apply andb_prop in H. tauto.
Qed.

Lemma add_newlines_bare_human (q : string) :
  no_colon q = true ->
  _add_newlines_before_ha (nl ++ nl ++ ("Human:" ++ q) ++ ASSISTANT_PROMPT)
  = HUMAN_PROMPT ++ q ++ ASSISTANT_PROMPT.
Proof.
  intro H.
  set (h3 := nl ++ nl ++ nl ++ "Human:"). set (h2 := nl ++ nl ++ "Human:").
  set (a3 := nl ++ nl ++ nl ++ "Assistant:"). set (a2 := nl ++ nl ++ "Assistant:").
  assert (A1 : PyStr.replace (HUMAN_PROMPT ++ q ++ ASSISTANT_PROMPT) "Human:" h2
               = (nl ++ nl ++ HUMAN_PROMPT) ++ q ++ ASSISTANT_PROMPT).
  { apply replace_around; try reflexivity; try exact H;
      intro r; destruct r; reflexivity. }
  assert (A2 : PyStr.replace ((nl ++ nl ++ HUMAN_PROMPT) ++ q ++ ASSISTANT_PROMPT) h3 h2
               = (nl ++ HUMAN_PROMPT) ++ q ++ ASSISTANT_PROMPT).
  { apply replace_around; try reflexivity; try exact H;
      intro r; destruct r; reflexivity. }
  assert (A3 : PyStr.replace ((nl ++ HUMAN_PROMPT) ++ q ++ ASSISTANT_PROMPT) h3 h2
               = HUMAN_PROMPT ++ q ++ ASSISTANT_PROMPT).
  { apply replace_around; try reflexivity; try exact H;
      intro r; destruct r; reflexivity. }
  assert (A4 : PyStr.replace (HUMAN_PROMPT ++ q ++ ASSISTANT_PROMPT) "Assistant:" a2
               = HUMAN_PROMPT ++ q ++ (nl ++ nl ++ ASSISTANT_PROMPT)).
  { apply replace_around; try reflexivity; try exact H;
      intro r; destruct r; reflexivity. }
  assert (A5 : PyStr.replace (HUMAN_PROMPT ++ q ++ (nl ++ nl ++ ASSISTANT_PROMPT)) a3 a2
               = HUMAN_PROMPT ++ q ++ (nl ++ ASSISTANT_PROMPT)).
  { apply replace_around; try reflexivity; try exact H;
      intro r; destruct r; reflexivity. }
  assert (A6 : PyStr.replace (HUMAN_PROMPT ++ q ++ (nl ++ ASSISTANT_PROMPT)) a3 a2
               = HUMAN_PROMPT ++ q ++ ASSISTANT_PROMPT).
  { apply replace_around; try reflexivity; try exact H;
      intro r; destruct r; reflexivity. }
  change (_add_newlines_before_ha (nl ++ nl ++ ("Human:" ++ q) ++ ASSISTANT_PROMPT))
    with (PyStr.replace
            (PyStr.replace
               (PyStr.replace
                  (PyStr.replace
                     (PyStr.replace
                        (PyStr.replace (HUMAN_PROMPT ++ q ++ ASSISTANT_PROMPT)
                           "Human:" h2) h3 h2) h3 h2) "Assistant:" a2) a3 a2) a3 a2).
  rewrite A1, A2, A3, A4, A5, A6. reflexivity.
Qed.

Lemma scan_bare_human (q : string) :
  no_colon q = true ->
  fold_left (scan_step (HUMAN_PROMPT ++ q ++ ASSISTANT_PROMPT))
    (seq 0 (String.length (HUMAN_PROMPT ++ q ++ ASSISTANT_PROMPT)))
    (mkScan 0 [])
  = mkScan 2 [].
Proof.
  intro H.
  rewrite (scan_fold EmptyString (HUMAN_PROMPT ++ q ++ ASSISTANT_PROMPT)).
  set (msg := ALTERNATION_ERROR ++ " Received " ++ _).
  assert (L : forall r, scan_suffixes msg (HUMAN_PROMPT ++ r) (mkScan 0 [])
                        = scan_suffixes msg r (mkScan 1 [])).
  { intro r. destruct r; reflexivity. }
  rewrite L, (scan_suffixes_text msg ASSISTANT_PROMPT q _ eq_refl H). reflexivity.
Qed.

(** X28: a prompt that starts with the bare word Human: and has no other
    colon gets the blank line before that word and the Assistant marker at
    its end; no space is put in, and nothing is warned of. *)
Theorem human_assistant_format_bare_human (q : string) :
  no_colon q = true ->
  _human_assistant_format ("Human:" ++ q) = (HUMAN_PROMPT ++ q ++ ASSISTANT_PROMPT, []).
Proof.
  intro H. unfold _human_assistant_format. cbv zeta.
  assert (E1 : Nat.eqb (PyStr.count ("Human:" ++ q) "Human:") 0 = false).
  { destruct q; reflexivity. }
  assert (E0 : PyStr.contains "Assistant:" ("Human:" ++ q) = false).
  { change (PyStr.contains "Assistant:" ("Human:" ++ q))
      with (PyStr.contains "Assistant:" q).
    apply contains_plain; [reflexivity | exact H]. }
  assert (E2 : PyStr.count ("Human:" ++ q) "Assistant:" = O).
  { change (PyStr.count ("Human:" ++ q) "Assistant:") with (PyStr.count q "Assistant:").
    apply count_no_colon; [reflexivity | exact H]. }
  rewrite E1, E0, andb_false_r. cbn [orb]. rewrite E2. cbn [Nat.eqb].
  assert (E3 : String.eqb
                 (PyStr.slice 0 (String.length "Human:") (("Human:" ++ q) ++ ASSISTANT_PROMPT))
                 "Human:" = true).
  { unfold PyStr.slice. rewrite eqb_substring_prefix.
    change (("Human:" ++ q) ++ ASSISTANT_PROMPT) with ("Human:" ++ (q ++ ASSISTANT_PROMPT)).
    apply prefix_app. }
  rewrite E3, (add_newlines_bare_human q H), (scan_bare_human q H).
  reflexivity.
Qed.

Lemma human_assistant_format_bare_human_witness :
  _human_assistant_format ("Human:" ++ " What is 2 + 2?")
  = (HUMAN_PROMPT ++ " What is 2 + 2?" ++ ASSISTANT_PROMPT, []).
Proof.
  apply (human_assistant_format_bare_human " What is 2 + 2?"). reflexivity.
Defined.
